(** * Lista-de-Tareas backend: user and task controllers

    A shallow embedding of the Express handlers of the task-list backend
    (user controller, auth middleware, error handler, task controller)
    together with the properties of its login throttle, its session
    token and its task queries.

    Conventions.
    - A JavaScript string is the list of its UTF-16 code units.
    - [Date.now()] is an integer number of milliseconds ([Z]).
    - A handler is a function from the request, the clock readings it
      makes and the collections it touches to the response it sends and
      the new collections.  Requests are handled one at a time.
    - [bcrypt], the HMAC of the token library and the date parser are
      parameters of the development. *)

From Stdlib Require Import ZArith NArith List String Ascii Bool Lia Sorted.
From stdpp Require Import base option list gmap.
Import ListNotations.

Local Open Scope Z_scope.

(** ** JavaScript values *)

Module JS.

Abbreviation jsstring := (list N).

(** The code units of an ASCII literal. *)
Definition js (s : string) : jsstring :=
  List.map N_of_ascii (list_ascii_of_string s).

(** [!x] is false for a non-empty string; a missing field is [undefined]. *)
Definition truthy (x : option jsstring) : bool :=
  match x with
  | Some (_ :: _) => true
  | _ => false
  end.

(** Truthiness of a number or [null]/[undefined]. *)
Definition truthy_num (x : option Z) : bool :=
  match x with
  | Some n => negb (n =? 0)
  | None => false
  end.

(** [`${x}`] in a template literal. *)
Definition template (x : option jsstring) : jsstring :=
  match x with
  | Some s => s
  | None => js "undefined"
  end.

Definition eqb (s t : jsstring) : bool := bool_decide (s = t).

End JS.
Export JS.

(** ** Documents, tokens and responses *)

(** userModel.js *)
Record UserDoc := mkUser {
  user_id : N;
  firstName : jsstring;
  lastName : jsstring;
  age : Z;
  user_email : jsstring;
  user_password : jsstring;
  resetPasswordToken : option jsstring;
  resetPasswordExpires : option Z
}.

(** taskModel.js; [dueDate] is [None] for an invalid date, [task_status]
    is [None] when the document has no status field. *)
Record TaskDoc := mkTask {
  task_id : N;
  task_userId : N;
  title : jsstring;
  detail : option jsstring;
  date : jsstring;
  time : jsstring;
  dueDate : option Z;
  task_status : option jsstring
}.

(** The payload of a session token, with the registered claims the token
    library adds. *)
Record Claims := mkClaims {
  userId : N;
  email : jsstring;
  iat : Z;
  exp : Z
}.

Record Token := mkToken {
  claims : Claims;
  signature : jsstring
}.

Inductive Json :=
| JMessage (message : string)
| JUserId (message : string) (id : N)
| JErrors (message : string) (errors : list string)
| JSession (loggedIn : bool) (user : option Claims)
| JTask (task : TaskDoc)
| JTaskMessage (message : string) (task : TaskDoc)
| JTasks (tasks : list TaskDoc)
| JStats (total : nat) (byStatus : list (jsstring * nat)).

Record Response := mkResponse {
  status : Z;
  body : Json
}.

(** A thrown JavaScript error, with the fields the error handler reads. *)
Record JsError := mkError {
  err_name : string;
  err_code : option Z;
  err_statusCode : option Z;
  err_message : string;
  err_errors : list string
}.

Definition plainError (message : string) (statusCode : option Z) : JsError :=
  mkError "Error" None statusCode message [].

(** ** errorHandler.js *)

Definition errorHandler (err : JsError) : Response :=
  if String.eqb (err_name err) "ValidationError" then
    mkResponse 400 (JErrors "Error de validación" (err_errors err))
  else if truthy_num (err_code err) && bool_decide (err_code err = Some 11000) then
    mkResponse 409 (JMessage "Error de duplicado")
  else if String.eqb (err_name err) "JsonWebTokenError" then
    mkResponse 401 (JMessage "Token inválido")
  else if String.eqb (err_name err) "TokenExpiredError" then
    mkResponse 401 (JMessage "Token expirado, por favor inicia sesión nuevamente")
  else
    mkResponse
      (if truthy_num (err_statusCode err)
       then default 500 (err_statusCode err) else 500)
      (JMessage (if String.eqb (err_message err) ""
                 then "Error interno en el servidor, por favor intente nuevamente más tarde"
                 else err_message err)).

(** ** Regular expressions of the password policy *)

Module Regex.

Local Open Scope N_scope.

Definition lineTerminator (c : N) : bool :=
  (c =? 10) || (c =? 13) || (c =? 8232) || (c =? 8233).

(** [.] without the [s] flag *)
Definition dot (c : N) : bool := negb (lineTerminator c).

Definition lower (c : N) : bool := (97 <=? c) && (c <=? 122).
Definition upper (c : N) : bool := (65 <=? c) && (c <=? 90).
Definition digit (c : N) : bool := (48 <=? c) && (c <=? 57).

(** [\w] *)
Definition word (c : N) : bool :=
  lower c || upper c || digit c || (c =? 95).

(** [[\W_]] *)
Definition special (c : N) : bool := negb (word c) || (c =? 95).

(** [(?=.*[p])] tried at the start of [s]: some code unit in class [p]
    is reached over code units matched by [.]. *)
Fixpoint lookahead (p : N -> bool) (s : jsstring) : bool :=
  match s with
  | [] => false
  | c :: r => p c || (dot c && lookahead p r)
  end.

(** [.{8,}$] tried at the start of [s] (no [m] flag). *)
Definition dots8 (s : jsstring) : bool :=
  forallb dot s && (8 <=? N.of_nat (length s)).

(** [/^(?=.*[a-z])(?=.*[A-Z])(?=.*[\W_]).{8,}$/] of the user controller *)
Definition passwordRegex (s : jsstring) : bool :=
  lookahead lower s && lookahead upper s && lookahead special s && dots8 s.

(** [/^(?=.*[a-z])(?=.*[A-Z])(?=.*\d)(?=.*[\W_]).{8,}$/] of the user schema *)
Definition schemaPasswordRegex (s : jsstring) : bool :=
  lookahead lower s && lookahead upper s && lookahead digit s
  && lookahead special s && dots8 s.

(** White space removed by [String.prototype.trim]. *)
Definition whiteSpace (c : N) : bool :=
  ((9 <=? c) && (c <=? 13)) || (c =? 32) || (c =? 160) || (c =? 5760)
  || ((8192 <=? c) && (c <=? 8202)) || (c =? 8232) || (c =? 8233)
  || (c =? 8239) || (c =? 8287) || (c =? 12288) || (c =? 65279).

Fixpoint trimStart (s : jsstring) : jsstring :=
  match s with
  | c :: r => if whiteSpace c then trimStart r else s
  | [] => []
  end.

Definition trim (s : jsstring) : jsstring :=
  rev (trimStart (rev (trimStart s))).

End Regex.

(** ** External collaborators *)

Class Env := {
  (** [bcrypt.hash(data, 10)] *)
  bcrypt_hash : jsstring -> jsstring;
  (** [bcrypt.compare(data, encrypted)] *)
  bcrypt_compare : jsstring -> jsstring -> bool;
  (** HS256 of the token library, keyed by the secret, over the encoded
      header and payload *)
  hmac : jsstring -> Claims -> jsstring;
  (** [process.env.JWT_SECRET] *)
  JWT_SECRET : jsstring;
  (** time value of [new Date(string)]; [None] is an invalid date *)
  Date_parse : jsstring -> option Z;
  (** [/^\S+@\S+\.\S+$/.test] of the user schema *)
  email_pattern : jsstring -> bool
}.

(** ** Generic collection helpers (Mongoose queries over a collection) *)

Section Collection.
Context {A : Type}.

(** [Model.findOne(filter)] *)
Definition findOne (p : A -> bool) (coll : list A) : option A :=
  List.find p coll.

(** Replace the first document matching [p] by its image under [f]. *)
Fixpoint updateFirst (p : A -> bool) (f : A -> A) (coll : list A) : list A :=
  match coll with
  | [] => []
  | d :: r => if p d then f d :: r else d :: updateFirst p f r
  end.

(** Remove the first document matching [p]. *)
Fixpoint deleteFirst (p : A -> bool) (coll : list A) : list A :=
  match coll with
  | [] => []
  | d :: r => if p d then r else d :: deleteFirst p r
  end.

End Collection.

(** ** jsonwebtoken: [sign] with [expiresIn: "2h"] and [verify] *)

Section Jwt.
Context `{Env}.

Definition seconds (now : Z) : Z := now / 1000.

(** The time span ["2h"] in seconds. *)
Definition twoHours : Z := 7200.

Definition jwt_sign (now : Z) (uid : N) (mail : jsstring) (secret : jsstring) : Token :=
  let c := mkClaims uid mail (seconds now) (seconds now + twoHours) in
  mkToken c (hmac secret c).

Definition jwt_verify (now : Z) (token : Token) (secret : jsstring) : JsError + Claims :=
  if negb (JS.eqb (signature token) (hmac secret (claims token))) then
    inl (mkError "JsonWebTokenError" None None "invalid signature" [])
  else if exp (claims token) <=? seconds now then
    inl (mkError "TokenExpiredError" None None "jwt expired" [])
  else inr (claims token).

End Jwt.

(** ** auth.js *)

Section Auth.
Context `{Env}.

(** Either a response is sent, or [next()] is called with [req.user]. *)
Definition authMiddleware (now : Z) (method : string) (cookie : option Token)
  : Response + option Claims :=
  if String.eqb method "OPTIONS" then inr None
  else match cookie with
       | None => inl (mkResponse 401 (JMessage "Access denied, token missing"))
       | Some token =>
           match jwt_verify now token JWT_SECRET with
           | inr decoded => inr (Some decoded)
           | inl _ => inl (mkResponse 401 (JMessage "Invalid or expired token"))
           end
       end.

End Auth.


(** ** userController.js *)

(** An entry of [loginAttempts]: [{ count, lockedUntil }], [lockedUntil]
    being [null] or a time value.  The table is a plain object indexed
    by the email of the request, converted to a string: a finite map
    from strings to entries.  (An email given as a string reaches the
    table only when it is the email of a stored user, which matches the
    pattern of the schema and so names no inherited property.) *)
Record Attempt := mkAttempt {
  count : nat;
  lockedUntil : option Z
}.

(** The cookie set by [res.cookie("token", token, ...)]. *)
Record Cookie := mkCookie {
  cookie_name : string;
  cookie_value : Token;
  httpOnly : bool;
  maxAge : Z
}.

Record SignupBody := mkSignupBody {
  su_firstName : option jsstring;
  su_lastName : option jsstring;
  su_age : option Z;
  su_email : option jsstring;
  su_password : option jsstring
}.

(** [req.body.email] as [express.json()] hands it to [login]: a string, a
    JSON object, or nothing.  An object is passed on to [User.findOne] as
    the condition on the path [email], where Mongoose reads its keys as
    query operators: [{ "$eq": s }] selects the stored emails equal to
    [s], [{ "$ne": s }] the others, and so on; [selects] is the
    condition the object puts on a stored email.  (The other JSON
    values, numbers, booleans and arrays, are left out.) *)
Inductive EmailValue :=
| EmailString (s : jsstring)
| EmailObject (selects : jsstring -> bool)
| EmailAbsent.

(** What a login request did: the response, the cookie it set, the table
    of attempts it left, and the arguments of its [bcrypt.compare] calls. *)
Record LoginOutcome := mkLoginOutcome {
  response : Response;
  cookie : option Cookie;
  attempts : gmap jsstring Attempt;
  compared : list (jsstring * jsstring)
}.

Section UserController.
Context `{Env}.

(** Validators of the user schema, run by [save()]; the result lists the
    messages of the failed paths. *)
Definition userSchema_errors (u : UserDoc) : list string :=
  (if bool_decide (firstName u = []) then ["Path `firstName` is required."%string] else [])
  ++ (if bool_decide (lastName u = []) then ["Path `lastName` is required."%string] else [])
  ++ (if age u <? 13 then ["La edad mínima permitida es 13 años"%string] else [])
  ++ (if bool_decide (user_email u = []) then ["Path `email` is required."%string]
      else if email_pattern (user_email u) then [] else ["El email no es válido"%string])
  ++ (if bool_decide (user_password u = []) then ["Path `password` is required."%string]
      else
        (if (length (user_password u) <? 8)%nat
         then ["La contraseña debe tener al menos 8 caracteres"%string] else [])
        ++ (if Regex.schemaPasswordRegex (user_password u) then []
            else ["La contraseña debe incluir al menos una letra mayúscula, una minúscula y un caracter especial"%string])).

(** [user.save()]: the validation error thrown, if any. *)
Definition user_validate (u : UserDoc) : option JsError :=
  match userSchema_errors u with
  | [] => None
  | msgs => Some (mkError "ValidationError" None None "User validation failed" msgs)
  end.

Definition byEmail (mail : jsstring) (u : UserDoc) : bool :=
  JS.eqb (user_email u) mail.

(** [exports.signup]; [fresh] is the [_id] given to the new document. *)
Definition signup (fresh : N) (b : SignupBody) (users : list UserDoc)
  : Response * list UserDoc :=
  if negb (truthy (su_firstName b)) || negb (truthy (su_lastName b))
     || negb (truthy_num (su_age b)) || negb (truthy (su_email b))
     || negb (truthy (su_password b))
  then (mkResponse 400 (JMessage "Todos los campos son requeridos"), users)
  else
    let password := default [] (su_password b) in
    let mail := default [] (su_email b) in
    if negb (Regex.passwordRegex password) then
      (mkResponse 400 (JMessage "La contraseña debe tener al menos 8 caracteres, incluir una letra mayúscula, una minúscula y un caracter especial"), users)
    else
      match findOne (byEmail mail) users with
      | Some _ =>
          (mkResponse 409 (JMessage "Este correo electrónico ya se encuentra registrado"), users)
      | None =>
          let hashedPassword := bcrypt_hash password in
          let user :=
            mkUser fresh (Regex.trim (default [] (su_firstName b)))
                   (Regex.trim (default [] (su_lastName b)))
                   (default 0 (su_age b)) mail hashedPassword None None in
          match user_validate user with
          | Some error => (errorHandler error, users)
          | None =>
              (mkResponse 201 (JUserId "Usuario registrado exitosamente" fresh),
               users ++ [user])
          end
      end.

(** The lock test of [login]: [lockedUntil && lockedUntil > Date.now()]. *)
Definition isLocked (a : Attempt) (now : Z) : bool :=
  truthy_num (lockedUntil a) && bool_decide (now < default 0 (lockedUntil a)).

(** [exports.login] on a request whose email is a string or missing.
    [now] is the clock read by the lock test, [later] the clock read
    once [bcrypt.compare] has answered (by the lock assignment, and by
    the token library when it signs).  [loginAny] below is the handler
    on every email value. *)
Definition login (now later : Z) (mail password : option jsstring)
  (users : list UserDoc) (loginAttempts : gmap jsstring Attempt) : LoginOutcome :=
  if negb (truthy mail) || negb (truthy password) then
    mkLoginOutcome (mkResponse 400 (JMessage "Email y contraseña son requeridos"))
                   None loginAttempts []
  else
    let mail := default [] mail in
    let password := default [] password in
    match findOne (byEmail mail) users with
    | None =>
        mkLoginOutcome (mkResponse 401 (JMessage "Credenciales inválidas"))
                       None loginAttempts []
    | Some user =>
        let loginAttempts :=
          match loginAttempts !! mail with
          | None => <[mail := mkAttempt 0 None]> loginAttempts
          | Some _ => loginAttempts
          end in
        let entry := default (mkAttempt 0 None) (loginAttempts !! mail) in
        if isLocked entry now then
          mkLoginOutcome
            (mkResponse 423 (JMessage "Demasiados intentos fallidos. Intenta nuevamente más tarde."))
            None loginAttempts []
        else
          let calls := [(password, user_password user)] in
          if negb (bcrypt_compare password (user_password user)) then
            let entry := mkAttempt (S (count entry)) (lockedUntil entry) in
            let entry :=
              if (5 <=? count entry)%nat
              then mkAttempt (count entry) (Some (later + 15 * 60 * 1000))
              else entry in
            mkLoginOutcome (mkResponse 401 (JMessage "Credenciales inválidas"))
                           None (<[mail := entry]> loginAttempts) calls
          else
            let entry := mkAttempt 0 (lockedUntil entry) in
            let token := jwt_sign later (user_id user) (user_email user) JWT_SECRET in
            mkLoginOutcome
              (mkResponse 200 (JUserId "Login exitoso" (user_id user)))
              (Some (mkCookie "token" token true (2 * 60 * 60 * 1000)))
              (<[mail := entry]> loginAttempts) calls
    end.

(** [!email] is false for a string that is not empty and for an object. *)
Definition emailTruthy (mail : EmailValue) : bool :=
  match mail with
  | EmailString s => truthy (Some s)
  | EmailObject _ => true
  | EmailAbsent => false
  end.

(** The property key of [loginAttempts[email]]: the email converted to a
    string, which is the same for all plain objects. *)
Definition emailKey (mail : EmailValue) : jsstring :=
  match mail with
  | EmailString s => s
  | EmailObject _ => js "[object Object]"
  | EmailAbsent => js "undefined"
  end.

(** The filter [{ email }] of [User.findOne]. *)
Definition selectedBy (mail : EmailValue) (u : UserDoc) : bool :=
  match mail with
  | EmailString s => byEmail s u
  | EmailObject selects => selects (user_email u)
  | EmailAbsent => false
  end.

(** The object [{ "$eq": s }]. *)
Definition opEq (s : jsstring) : EmailValue :=
  EmailObject (fun stored => JS.eqb stored s).

(** [exports.login] on every email value: the user is looked up with the
    value as a filter, the table is indexed with the value as a key. *)
Definition loginAny (now later : Z) (mail : EmailValue) (password : option jsstring)
  (users : list UserDoc) (loginAttempts : gmap jsstring Attempt) : LoginOutcome :=
  if negb (emailTruthy mail) || negb (truthy password) then
    mkLoginOutcome (mkResponse 400 (JMessage "Email y contraseña son requeridos"))
                   None loginAttempts []
  else
    let key := emailKey mail in
    let password := default [] password in
    match findOne (selectedBy mail) users with
    | None =>
        mkLoginOutcome (mkResponse 401 (JMessage "Credenciales inválidas"))
                       None loginAttempts []
    | Some user =>
        let loginAttempts :=
          match loginAttempts !! key with
          | None => <[key := mkAttempt 0 None]> loginAttempts
          | Some _ => loginAttempts
          end in
        let entry := default (mkAttempt 0 None) (loginAttempts !! key) in
        if isLocked entry now then
          mkLoginOutcome
            (mkResponse 423 (JMessage "Demasiados intentos fallidos. Intenta nuevamente más tarde."))
            None loginAttempts []
        else
          let calls := [(password, user_password user)] in
          if negb (bcrypt_compare password (user_password user)) then
            let entry := mkAttempt (S (count entry)) (lockedUntil entry) in
            let entry :=
              if (5 <=? count entry)%nat
              then mkAttempt (count entry) (Some (later + 15 * 60 * 1000))
              else entry in
            mkLoginOutcome (mkResponse 401 (JMessage "Credenciales inválidas"))
                           None (<[key := entry]> loginAttempts) calls
          else
            let entry := mkAttempt 0 (lockedUntil entry) in
            let token := jwt_sign later (user_id user) (user_email user) JWT_SECRET in
            mkLoginOutcome
              (mkResponse 200 (JUserId "Login exitoso" (user_id user)))
              (Some (mkCookie "token" token true (2 * 60 * 60 * 1000)))
              (<[key := entry]> loginAttempts) calls
    end.

(** The filter of [resetPassword]: the token matches and has not expired. *)
Definition byResetToken (now : Z) (token : jsstring) (u : UserDoc) : bool :=
  bool_decide (resetPasswordToken u = Some token)
  && match resetPasswordExpires u with
     | Some e => bool_decide (now < e)
     | None => false
     end.

(** [exports.resetPassword]; [password] is [req.body.password]. *)
Definition resetPassword (now : Z) (token : jsstring) (password : option jsstring)
  (users : list UserDoc) : Response * list UserDoc :=
  match findOne (byResetToken now token) users with
  | None => (mkResponse 400 (JMessage "Token inválido o expirado"), users)
  | Some user =>
      match password with
      | None =>
          (errorHandler (plainError "data and salt arguments required" None), users)
      | Some password =>
          let hashedPassword := bcrypt_hash password in
          let user' :=
            mkUser (user_id user) (firstName user) (lastName user) (age user)
                   (user_email user) hashedPassword None None in
          match user_validate user' with
          | Some error => (errorHandler error, users)
          | None =>
              (mkResponse 200 (JMessage "Contraseña actualizada correctamente"),
               updateFirst (fun u => bool_decide (user_id u = user_id user))
                           (fun _ => user') users)
          end
      end
  end.

(** [exports.session] *)
Definition session (now : Z) (cookie : option Token) : Response :=
  match cookie with
  | None => mkResponse 401 (JSession false None)
  | Some token =>
      match jwt_verify now token JWT_SECRET with
      | inr decoded => mkResponse 200 (JSession true (Some decoded))
      | inl _ => mkResponse 401 (JSession false None)
      end
  end.

End UserController.

(** ** Sequences of login requests *)

(** A login request for a fixed email: the two clock readings of its
    handling and the password given. *)
Record LoginReq := mkLoginReq {
  at_check : Z;
  at_later : Z;
  given : jsstring
}.

Section Replay.
Context `{Env}.

(** The requests are handled in turn, each on the table left by the one
    before; the answers and the last table are returned. *)
Fixpoint replay (mail : jsstring) (users : list UserDoc) (reqs : list LoginReq)
  (loginAttempts : gmap jsstring Attempt) : list Response * gmap jsstring Attempt :=
  match reqs with
  | [] => ([], loginAttempts)
  | r :: rest =>
      let o := login (at_check r) (at_later r) (Some mail) (Some (given r))
                     users loginAttempts in
      let following := replay mail users rest (attempts o) in
      (response o :: fst following, snd following)
  end.

Definition fifteenMinutes : Z := 15 * 60 * 1000.

(** The entry of an email, as the handler sees it once created. *)
Definition entryOf (loginAttempts : gmap jsstring Attempt) (mail : jsstring) : Attempt :=
  default (mkAttempt 0 None) (loginAttempts !! mail).

End Replay.

(** ** Handlers that throw *)

(** The body of a handler inside [try]: it throws or it answers. *)
Definition Exc (A : Type) : Type := JsError + A.

Definition throw {A : Type} (e : JsError) : Exc A := inl e.

Definition bindExc {A B : Type} (m : Exc A) (k : A -> Exc B) : Exc B :=
  match m with
  | inl e => inl e
  | inr a => k a
  end.

Notation "x <-! m ;; k" := (bindExc m (fun x => k))
  (at level 100, m at next level, right associativity).

(** [if (c) throw e] *)
Definition throwIf (c : bool) (e : JsError) : Exc unit :=
  if c then inl e else inr tt.

(** ** Regular expressions of the title filter

    The [$regex] operator takes its operand as a pattern.  The patterns
    modelled are the sequences of literal characters and [.]; a pattern
    with another metacharacter is outside the model ([None]).  With the
    [i] option letters [a-z] and [A-Z] match in both cases. *)

Module TitleRegex.

Local Open Scope N_scope.

Inductive Atom :=
| Lit (c : N)
| AnyChar.

(** The metacharacters [\ ^ $ . | ? * + ( ) [ ] { }]. *)
Definition metachar (c : N) : bool :=
  existsb (N.eqb c) [92; 94; 36; 46; 124; 63; 42; 43; 40; 41; 91; 93; 123; 125].

Fixpoint parse (pattern : jsstring) : option (list Atom) :=
  match pattern with
  | [] => Some []
  | c :: r =>
      match parse r with
      | None => None
      | Some atoms =>
          if c =? 46 then Some (AnyChar :: atoms)
          else if metachar c then None
          else Some (Lit c :: atoms)
      end
  end.

Definition toLower (c : N) : N :=
  if Regex.upper c then c + 32 else c.

Definition matchAtom (a : Atom) (c : N) : bool :=
  match a with
  | Lit l => toLower l =? toLower c
  | AnyChar => negb (c =? 10)
  end.

(** The atoms match a prefix of [s]. *)
Fixpoint matchHere (atoms : list Atom) (s : jsstring) : bool :=
  match atoms, s with
  | [], _ => true
  | a :: atoms', c :: s' => matchAtom a c && matchHere atoms' s'
  | _ :: _, [] => false
  end.

(** The atoms match somewhere in [s] (the pattern is not anchored). *)
Fixpoint search (atoms : list Atom) (s : jsstring) : bool :=
  matchHere atoms s ||
  match s with
  | [] => false
  | _ :: s' => search atoms s'
  end.

(** [{ $regex: pattern, $options: "i" }] on a string field. *)
Definition regexMatch (pattern : jsstring) (s : jsstring) : option bool :=
  match parse pattern with
  | Some atoms => Some (search atoms s)
  | None => None
  end.

(** [needle] occurs in [s], letters compared without case: the reading
    of the filter as a substring search. *)
Fixpoint prefixNoCase (needle s : jsstring) : bool :=
  match needle, s with
  | [], _ => true
  | n :: needle', c :: s' => (toLower n =? toLower c) && prefixNoCase needle' s'
  | _ :: _, [] => false
  end.

Fixpoint containsNoCase (needle s : jsstring) : bool :=
  prefixNoCase needle s ||
  match s with
  | [] => false
  | _ :: s' => containsNoCase needle s'
  end.

End TitleRegex.

(** ** taskController.js *)

(** [req.body] of the task routes: each field is a string or missing. *)
Record TaskBody := mkTaskBody {
  b_title : option jsstring;
  b_detail : option jsstring;
  b_date : option jsstring;
  b_time : option jsstring;
  b_status : option jsstring
}.

(** The update document [{ title, detail, date, time, dueDate, status }];
    [up_dueDate] is [None] for an invalid date. *)
Record TaskUpdate := mkTaskUpdate {
  up_title : option jsstring;
  up_detail : option jsstring;
  up_date : option jsstring;
  up_time : option jsstring;
  up_dueDate : option Z;
  up_status : option jsstring
}.

(** [req.query] of [GET /tasks]. *)
Record TaskQuery := mkTaskQuery {
  q_status : option jsstring;
  q_fromDate : option jsstring;
  q_toDate : option jsstring;
  q_order : option jsstring;
  q_title : option jsstring
}.

(** [filter.dueDate]: each bound is missing or a date, possibly invalid. *)
Record DateRange := mkDateRange {
  gte : option (option Z);
  lte : option (option Z)
}.

(** The [filter] object built by [getUserTasks]. *)
Record TaskFilter := mkTaskFilter {
  f_userId : N;
  f_status : option jsstring;
  f_dueDate : option DateRange;
  f_title : option jsstring
}.

Section TaskModel.

Definition statusEnum : list jsstring := [js "todo"; js "in-progress"; js "done"].

Definition inEnum (s : jsstring) : bool := existsb (JS.eqb s) statusEnum.

(** Validators of the task schema, run by [save()]. *)
Definition taskSchema_errors (t : TaskDoc) : list string :=
  (if bool_decide (title t = []) then ["Path `title` is required."%string] else [])
  ++ (if bool_decide (date t = []) then ["Path `date` is required."%string] else [])
  ++ (if bool_decide (time t = []) then ["Path `time` is required."%string] else [])
  ++ (match dueDate t with
      | Some _ => []
      | None => ["Cast to date failed at path `dueDate`"%string]
      end)
  ++ (match task_status t with
      | Some s => if inEnum s then [] else ["`status` is not a valid enum value."%string]
      | None => []
      end).

(** [newTask.save()] *)
Definition Task_save (t : TaskDoc) (tasks : list TaskDoc) : Exc (list TaskDoc) :=
  match taskSchema_errors t with
  | [] => inr (tasks ++ [t])
  | msgs => throw (mkError "ValidationError" None None "Task validation failed" msgs)
  end.

(** The validators run on the paths an update sets ([runValidators]). *)
Definition update_errors (u : TaskUpdate) : list string :=
  (match up_title u with
   | Some s => if bool_decide (Regex.trim s = []) then ["Path `title` is required."%string] else []
   | None => []
   end)
  ++ (if bool_decide (up_date u = Some []) then ["Path `date` is required."%string] else [])
  ++ (if bool_decide (up_time u = Some []) then ["Path `time` is required."%string] else [])
  ++ (match up_status u with
      | Some s => if inEnum s then [] else ["`status` is not a valid enum value."%string]
      | None => []
      end).

(** The fields an update sets; a missing field leaves the stored one. *)
Definition applyUpdate (u : TaskUpdate) (t : TaskDoc) : TaskDoc :=
  mkTask (task_id t) (task_userId t)
         (match up_title u with Some s => Regex.trim s | None => title t end)
         (match up_detail u with Some s => Some (Regex.trim s) | None => detail t end)
         (default (date t) (up_date u))
         (default (time t) (up_time u))
         (up_dueDate u)
         (match up_status u with Some s => Some s | None => task_status t end).

(** [Task.findOneAndUpdate(filter, update, { new: true, runValidators: true })]:
    the update is cast and validated, then the first document matching
    the filter is replaced; the answer is the new document or [null]. *)
Definition Task_findOneAndUpdate (p : TaskDoc -> bool) (u : TaskUpdate)
  (tasks : list TaskDoc) : Exc (option TaskDoc * list TaskDoc) :=
  match up_dueDate u with
  | None => throw (mkError "CastError" None None "Cast to date failed at path `dueDate`" [])
  | Some _ =>
      match update_errors u with
      | [] =>
          match findOne p tasks with
          | None => inr (None, tasks)
          | Some t => inr (Some (applyUpdate u t), updateFirst p (applyUpdate u) tasks)
          end
      | msgs => throw (mkError "ValidationError" None None "Validation failed" msgs)
      end
  end.

(** [Task.findOneAndDelete(filter)] *)
Definition Task_findOneAndDelete (p : TaskDoc -> bool) (tasks : list TaskDoc)
  : option TaskDoc * list TaskDoc :=
  (findOne p tasks, deleteFirst p tasks).

(** The filter [{ _id: id, userId }]. *)
Definition byIdAndOwner (id uid : N) (t : TaskDoc) : bool :=
  bool_decide (task_id t = id) && bool_decide (task_userId t = uid).

(** The filter [{ userId }]. *)
Definition byOwner (uid : N) (t : TaskDoc) : bool :=
  bool_decide (task_userId t = uid).

End TaskModel.

Section TaskController.
Context `{Env}.

(** [new Date(`${date}T${time}`)] *)
Definition combine (date time : option jsstring) : option Z :=
  Date_parse (template date ++ js "T" ++ template time).

(** [dueDate < new Date()]: a comparison with an invalid date is false. *)
Definition isPast (dueDate : option Z) (now : Z) : bool :=
  match dueDate with
  | Some d => d <? now
  | None => false
  end.

(** [new Task({ userId, title, detail, date, time, dueDate, status })] *)
Definition newTaskOf (uid fresh : N) (b : TaskBody) : TaskDoc :=
  mkTask fresh uid (Regex.trim (default [] (b_title b)))
         (option_map Regex.trim (b_detail b))
         (default [] (b_date b)) (default [] (b_time b))
         (combine (b_date b) (b_time b)) (b_status b).

(** The fields [createTask] requires are all there. *)
Definition requiredFields (b : TaskBody) : bool :=
  truthy (b_title b) && truthy (b_date b) && truthy (b_time b) && truthy (b_status b).

Definition missingFields : Response :=
  mkResponse 400 (JMessage "Los campos title, dueDate y status son obligatorios").

Definition created (t : TaskDoc) : Response :=
  mkResponse 201 (JTaskMessage "Tarea creada con éxito" t).

(** The checks of [createTask] up to [newTask.save()]: the document
    handed to the store. *)
Definition createTask_checks (now : Z) (uid fresh : N) (b : TaskBody) : Exc TaskDoc :=
  _ <-! throwIf (negb (truthy (b_title b)) || negb (truthy (b_date b))
                 || negb (truthy (b_time b)) || negb (truthy (b_status b)))
                (plainError "Los campos title, dueDate y status son obligatorios" (Some 400)) ;;
  _ <-! throwIf (isPast (combine (b_date b) (b_time b)) now)
                (plainError "La fecha de vencimiento debe ser futura" (Some 400)) ;;
  inr (newTaskOf uid fresh b).

(** [exports.createTask]; [fresh] is the [_id] of the new document. *)
Definition createTask (now : Z) (uid fresh : N) (b : TaskBody) (tasks : list TaskDoc)
  : Response * list TaskDoc :=
  match (newTask <-! createTask_checks now uid fresh b ;;
         tasks' <-! Task_save newTask tasks ;;
         inr (mkResponse 201 (JTaskMessage "Tarea creada con éxito" newTask), tasks'))
  with
  | inr answer => answer
  | inl error => (errorHandler error, tasks)
  end.

(** [getUserTasks]: the filter built from the query. *)
Definition buildFilter (uid : N) (q : TaskQuery) : TaskFilter :=
  mkTaskFilter uid
    (if truthy (q_status q) then q_status q else None)
    (if truthy (q_fromDate q) || truthy (q_toDate q) then
       Some (mkDateRange
               (if truthy (q_fromDate q) then Some (Date_parse (default [] (q_fromDate q))) else None)
               (if truthy (q_toDate q) then Some (Date_parse (default [] (q_toDate q))) else None))
     else None)
    (if truthy (q_title q) then q_title q else None).

(** [order === "desc" ? -1 : 1] *)
Definition sortOrder (q : TaskQuery) : Z :=
  if bool_decide (q_order q = Some (js "desc")) then -1 else 1.

(** A bound of the date range on a stored due date. *)
Definition boundHolds (cmp : Z -> Z -> bool) (bound : option (option Z)) (t : TaskDoc) : bool :=
  match bound with
  | None => true
  | Some b =>
      match b, dueDate t with
      | Some d, Some due => cmp due d
      | _, _ => false
      end
  end.

(** A document matches the filter; the title pattern has been parsed. *)
Definition matchesFilter (f : TaskFilter) (atoms : option (list TitleRegex.Atom))
  (t : TaskDoc) : bool :=
  byOwner (f_userId f) t
  && match f_status f with
     | Some s => bool_decide (task_status t = Some s)
     | None => true
     end
  && match f_dueDate f with
     | Some r => boundHolds Z.geb (gte r) t && boundHolds Z.leb (lte r) t
     | None => true
     end
  && match atoms with
     | Some atoms => TitleRegex.search atoms (title t)
     | None => true
     end.

(** Stable insertion sort on the due date, ascending for [1] and
    descending for [-1]. *)
Definition dueBefore (order : Z) (a b : TaskDoc) : bool :=
  match dueDate a, dueDate b with
  | Some x, Some y => if order =? 1 then x <=? y else y <=? x
  | _, _ => true
  end.

Fixpoint insertTask (order : Z) (t : TaskDoc) (sorted : list TaskDoc) : list TaskDoc :=
  match sorted with
  | [] => [t]
  | u :: r => if dueBefore order t u then t :: u :: r else u :: insertTask order t r
  end.

Definition sortTasks (order : Z) (tasks : list TaskDoc) : list TaskDoc :=
  fold_right (insertTask order) [] tasks.

(** A date bound of the filter that is an invalid date fails the cast. *)
Definition invalidBound (f : TaskFilter) : bool :=
  match f_dueDate f with
  | Some r => bool_decide (gte r = Some None) || bool_decide (lte r = Some None)
  | None => false
  end.

(** [Task.find(filter).sort({ dueDate })]; [None] when the title pattern
    is outside the modelled patterns. *)
Definition Task_find (f : TaskFilter) (order : Z) (tasks : list TaskDoc)
  : option (Exc (list TaskDoc)) :=
  if invalidBound f then
    Some (throw (mkError "CastError" None None "Cast to date failed at path `dueDate`" []))
  else
    match f_title f with
    | None => Some (inr (sortTasks order (List.filter (matchesFilter f None) tasks)))
    | Some pattern =>
        match TitleRegex.parse pattern with
        | Some atoms =>
            Some (inr (sortTasks order (List.filter (matchesFilter f (Some atoms)) tasks)))
        | None => None
        end
    end.

(** [exports.getUserTasks] *)
Definition getUserTasks (uid : N) (q : TaskQuery) (tasks : list TaskDoc)
  : option Response :=
  match Task_find (buildFilter uid q) (sortOrder q) tasks with
  | Some (inr found) => Some (mkResponse 200 (JTasks found))
  | Some (inl error) => Some (errorHandler error)
  | None => None
  end.

(** A document matches the filter, [test] being the test the
    regular-expression engine performs on a title for the pattern of the
    filter. *)
Definition matchesWith (f : TaskFilter) (test : option (jsstring -> bool))
  (t : TaskDoc) : bool :=
  byOwner (f_userId f) t
  && match f_status f with
     | Some s => bool_decide (task_status t = Some s)
     | None => true
     end
  && match f_dueDate f with
     | Some r => boundHolds Z.geb (gte r) t && boundHolds Z.leb (lte r) t
     | None => true
     end
  && match test with
     | Some test => test (title t)
     | None => true
     end.

(** [Task.find(filter).sort({ dueDate })] with the regular-expression
    engine of the store given: [engine pattern] is the error with which
    the store refuses the pattern, or the test it performs on a title
    (with the option [i]).  The filter is cast before it is sent. *)
Definition Task_findWith (engine : jsstring -> JsError + (jsstring -> bool))
  (f : TaskFilter) (order : Z) (tasks : list TaskDoc) : Exc (list TaskDoc) :=
  if invalidBound f then
    throw (mkError "CastError" None None "Cast to date failed at path `dueDate`" [])
  else
    match f_title f with
    | None => inr (sortTasks order (List.filter (matchesWith f None) tasks))
    | Some pattern =>
        match engine pattern with
        | inr test => inr (sortTasks order (List.filter (matchesWith f (Some test)) tasks))
        | inl refused => throw refused
        end
    end.

(** [exports.getUserTasks], for every title pattern. *)
Definition getUserTasksWith (engine : jsstring -> JsError + (jsstring -> bool))
  (uid : N) (q : TaskQuery) (tasks : list TaskDoc) : Response :=
  match Task_findWith engine (buildFilter uid q) (sortOrder q) tasks with
  | inr found => mkResponse 200 (JTasks found)
  | inl error => errorHandler error
  end.

(** An engine that agrees with the modelled patterns where they apply. *)
Definition agreesWithParse (engine : jsstring -> JsError + (jsstring -> bool)) : Prop :=
  forall pattern atoms,
    TitleRegex.parse pattern = Some atoms ->
    exists test, engine pattern = inr test
                 /\ forall s, test s = TitleRegex.search atoms s.

(** The update document [{ title, detail, date, time, dueDate, status }]. *)
Definition updateOf (b : TaskBody) : TaskUpdate :=
  mkTaskUpdate (b_title b) (b_detail b) (b_date b) (b_time b)
               (combine (b_date b) (b_time b)) (b_status b).

(** The checks of [updateTask] up to the store call: the update document
    handed to [Task.findOneAndUpdate]. *)
Definition updateTask_checks (now : Z) (b : TaskBody) : Exc TaskUpdate :=
  _ <-! throwIf (isPast (combine (b_date b) (b_time b)) now)
                (plainError "La fecha de vencimiento debe ser futura" (Some 400)) ;;
  inr (updateOf b).

(** The rest of [updateTask]: the store call and the answer. *)
Definition updateTask_store (uid id : N) (u : TaskUpdate) (tasks : list TaskDoc)
  : Exc (Response * list TaskDoc) :=
  found <-! Task_findOneAndUpdate (byIdAndOwner id uid) u tasks ;;
  match fst found with
  | None => throw (plainError "Tarea no encontrada" (Some 404))
  | Some task => inr (mkResponse 200 (JTaskMessage "Tarea actualizada" task), snd found)
  end.

(** [exports.updateTask] *)
Definition updateTask (now : Z) (uid id : N) (b : TaskBody) (tasks : list TaskDoc)
  : Response * list TaskDoc :=
  match (u <-! updateTask_checks now b ;; updateTask_store uid id u tasks) with
  | inr answer => answer
  | inl error => (errorHandler error, tasks)
  end.

(** [exports.deleteTask] *)
Definition deleteTask (uid id : N) (tasks : list TaskDoc) : Response * list TaskDoc :=
  match Task_findOneAndDelete (byIdAndOwner id uid) tasks with
  | (None, _) => (errorHandler (plainError "Tarea no encontrada" (Some 404)), tasks)
  | (Some _, tasks') => (mkResponse 200 (JMessage "Tarea eliminada con éxito"), tasks')
  end.

(** [exports.getTaskById] *)
Definition getTaskById (uid id : N) (tasks : list TaskDoc) : Response :=
  match findOne (byIdAndOwner id uid) tasks with
  | None => errorHandler (plainError "Tarea no encontrada" (Some 404))
  | Some task => mkResponse 200 (JTask task)
  end.

End TaskController.

(** ** getTaskStats: the aggregation pipeline *)

Section TaskStats.

(** The label of the group of the documents without status. *)
Definition sentinel : jsstring := js "sin-estado".

(** [{ $ifNull: ["$status", "sin-estado"] }] *)
Definition groupKey (t : TaskDoc) : jsstring :=
  default sentinel (task_status t).

(** [count: { $sum: 1 }] for one more document of group [k]. *)
Fixpoint bump (k : jsstring) (groups : list (jsstring * nat)) : list (jsstring * nat) :=
  match groups with
  | [] => [(k, 1%nat)]
  | (k', n) :: r => if JS.eqb k k' then (k', S n) :: r else (k', n) :: bump k r
  end.

(** The [$group] stage. *)
Definition groupStage (docs : list TaskDoc) : list (jsstring * nat) :=
  fold_left (fun groups t => bump (groupKey t) groups) docs [].

Fixpoint insertGroup (g : jsstring * nat) (sorted : list (jsstring * nat))
  : list (jsstring * nat) :=
  match sorted with
  | [] => [g]
  | h :: r => if (snd h <=? snd g)%nat then g :: h :: r else h :: insertGroup g r
  end.

(** The stage [{ $sort: { count: -1 } }]. *)
Definition sortStage (groups : list (jsstring * nat)) : list (jsstring * nat) :=
  fold_right insertGroup [] groups.

(** The count recorded for group [k], 0 when there is no such group. *)
Definition countOf (k : jsstring) (groups : list (jsstring * nat)) : nat :=
  match List.find (fun g => JS.eqb k (fst g)) groups with
  | Some g => snd g
  | None => 0%nat
  end.

(** The number of documents of group [k]. *)
Definition tally (k : jsstring) (docs : list TaskDoc) : nat :=
  length (List.filter (fun t => JS.eqb k (groupKey t)) docs).

(** The order of the [$sort] stage: counts do not increase. *)
Definition countDesc (g h : jsstring * nat) : Prop := (snd h <= snd g)%nat.

(** The groups have distinct labels and positive counts. *)
Definition wellGrouped (groups : list (jsstring * nat)) : Prop :=
  NoDup (List.map fst groups) /\ Forall (fun h => (0 < snd h)%nat) groups.

(** [Task.aggregate([{ $match }, { $group }, { $sort }])] *)
Definition Task_aggregate (uid : N) (tasks : list TaskDoc) : list (jsstring * nat) :=
  sortStage (groupStage (List.filter (byOwner uid) tasks)).

(** [Task.countDocuments({ userId })] *)
Definition Task_countDocuments (uid : N) (tasks : list TaskDoc) : nat :=
  length (List.filter (byOwner uid) tasks).

(** [exports.getTaskStats] *)
Definition getTaskStats (uid : N) (tasks : list TaskDoc) : Response :=
  let stats := Task_aggregate uid tasks in
  let totalTasks := Task_countDocuments uid tasks in
  let byStatus := List.map (fun s => (fst s, snd s)) stats in
  mkResponse 200 (JStats totalTasks byStatus).

End TaskStats.

(** ** What a response discloses *)

(** The body carries the fields of some task. *)
Definition carriesTask (j : Json) : bool :=
  match j with
  | JTask _ | JTaskMessage _ _ => true
  | JTasks tasks => negb (bool_decide (tasks = []))
  | _ => false
  end.

Definition notFound : Response := mkResponse 404 (JMessage "Tarea no encontrada").

Definition pastDue : Response :=
  mkResponse 400 (JMessage "La fecha de vencimiento debe ser futura").

(** The answer to the [CastError] of an invalid due date. *)
Definition castFailed : Response :=
  mkResponse 500 (JMessage "Cast to date failed at path `dueDate`").

(** The answer to a [ValidationError]. *)
Definition validationFailed (msgs : list string) : Response :=
  mkResponse 400 (JErrors "Error de validación" msgs).

Definition updated (t : TaskDoc) : Response :=
  mkResponse 200 (JTaskMessage "Tarea actualizada" t).

(** The order of the answers of [getUserTasks] on tasks that have a due
    date: ascending for [1], descending otherwise. *)
Definition dueOrdered (order : Z) (a b : TaskDoc) : Prop :=
  exists x y, dueDate a = Some x /\ dueDate b = Some y
              /\ if order =? 1 then x <= y else y <= x.

(** ** A concrete environment, on which the handlers run *)

Module Demo.

Definition decimal (s : jsstring) : Z :=
  fold_left (fun acc c => 10 * acc + (Z.of_N c - 48)) s 0.

Fixpoint splitAt (sep : N) (s : jsstring) : option (jsstring * jsstring) :=
  match s with
  | [] => None
  | c :: r =>
      if (c =? sep)%N then Some ([], r)
      else match splitAt sep r with
           | Some (a, b) => Some (c :: a, b)
           | None => None
           end
  end.

(** A field of exactly [width] decimal digits. *)
Definition field (width : nat) (s : jsstring) : option Z :=
  if (length s =? width)%nat && forallb Regex.digit s then Some (decimal s) else None.

Definition leapYear (y : Z) : bool :=
  ((y mod 4 =? 0) && negb (y mod 100 =? 0)) || (y mod 400 =? 0).

Definition daysInMonth (y m : Z) : Z :=
  if m =? 2 then (if leapYear y then 29 else 28)
  else if (m =? 4) || (m =? 6) || (m =? 9) || (m =? 11) then 30
  else 31.

(** The day number of a date of the Gregorian calendar, counted from
    1970-01-01. *)
Definition daysFromCivil (y m d : Z) : Z :=
  let y' := if m <=? 2 then y - 1 else y in
  let era := y' / 400 in
  let yoe := y' - era * 400 in
  let mp := if 2 <? m then m - 3 else m + 9 in
  let doy := (153 * mp + 2) / 5 + d - 1 in
  let doe := yoe * 365 + yoe / 4 - yoe / 100 + doy in
  era * 146097 + doe - 719468.

(** [YYYY-MM-DD], a day that exists. *)
Definition parseDay (s : jsstring) : option Z :=
  match splitAt 45 s with
  | Some (y, rest) =>
      match splitAt 45 rest with
      | Some (m, d) =>
          match field 4 y, field 2 m, field 2 d with
          | Some y, Some m, Some d =>
              if (1 <=? m) && (m <=? 12) && (1 <=? d) && (d <=? daysInMonth y m)
              then Some (daysFromCivil y m d)
              else None
          | _, _, _ => None
          end
      | None => None
      end
  | None => None
  end.

(** [HH:mm], a minute of the day. *)
Definition parseMinutes (s : jsstring) : option Z :=
  match splitAt 58 s with
  | Some (h, m) =>
      match field 2 h, field 2 m with
      | Some h, Some m =>
          if (h <=? 23) && (m <=? 59) then Some (h * 60 + m) else None
      | _, _ => None
      end
  | None => None
  end.

(** [new Date(s).getTime()] on a server whose time zone is UTC, for the two
    forms of the ECMAScript date-time string format that the front end
    sends: [YYYY-MM-DDTHH:mm] (the value [createTask] and [updateTask]
    build from a date and a time) and the date alone, [YYYY-MM-DD] (the
    bounds of [getUserTasks]).  A string in another form is taken as an
    invalid date; the examples below use this only for strings that
    [new Date] refuses as well, such as ["undefinedT10:00"], and never
    the further forms it reads (seconds, a time zone). *)
Definition parseDate (s : jsstring) : option Z :=
  match splitAt 84 s with
  | Some (d, t) =>
      match parseDay d, parseMinutes t with
      | Some days, Some minutes => Some (days * 86400000 + minutes * 60000)
      | _, _ => None
      end
  | None =>
      match parseDay s with
      | Some days => Some (days * 86400000)
      | None => None
      end
  end.

Definition hash (p : jsstring) : jsstring := js "$2b$10$Hash" ++ p.

#[export] Instance env : Env := {|
  bcrypt_hash := hash;
  bcrypt_compare := fun p h => JS.eqb h (hash p);
  hmac := fun secret c => secret ++ email c ++ [userId c; Z.to_N (iat c); Z.to_N (exp c)];
  JWT_SECRET := js "demo-secret";
  Date_parse := parseDate;
  email_pattern := fun s => existsb (N.eqb 64) s
|}.

Definition alice : UserDoc :=
  mkUser 1 (js "Alice") (js "Liddell") 20 (js "alice@example.com")
         (hash (js "Secret!1")) (Some (js "reset-token")) (Some 5000).

Definition task1 : TaskDoc :=
  mkTask 10 1 (js "Buy milk") None (js "2024-10-04") (js "10:00")
         (Some 1728036000000)
         (Some (js "todo")).

Definition task2 : TaskDoc :=
  mkTask 11 2 (js "abc") None (js "2024-10-04") (js "10:00")
         (Some 1728036000000)
         (Some (js "done")).

End Demo.

(** ** userController.js: password recovery, profile and logout *)

(** The message handed to [sendEmail]: the recipient, the subject and the
    token of the link [FRONTEND_URL/#/reset-password?token=...]. *)
Record Mail := mkMail {
  mail_to : jsstring;
  mail_subject : string;
  mail_token : jsstring
}.

(** What [forgotPassword] did: the response, the users it left and the
    messages delivered. *)
Record ForgotOutcome := mkForgot {
  forgot_response : Response;
  forgot_users : list UserDoc;
  forgot_mails : list Mail
}.

(** The user as [select("-password -resetPasswordToken -resetPasswordExpires")]
    leaves it. *)
Record ProfileView := mkProfileView {
  pv_id : N;
  pv_firstName : jsstring;
  pv_lastName : jsstring;
  pv_age : Z;
  pv_email : jsstring
}.

(** The answer of a profile handler: an error response, the user
    ([res.json(user)]), or a message with the updated user. *)
Inductive ProfileAnswer :=
| ProfileError (r : Response)
| ProfileFound (view : ProfileView)
| ProfileUpdated (message : string) (view : ProfileView).

Record ProfileBody := mkProfileBody {
  pb_firstName : option jsstring;
  pb_lastName : option jsstring;
  pb_age : option Z;
  pb_email : option jsstring
}.

(** What [deleteProfile] and [logout] did: the response, whether the
    cookie was cleared, and the users left. *)
Record DeleteOutcome := mkDelete {
  delete_response : Response;
  delete_cleared : bool;
  delete_users : list UserDoc
}.

Section Recovery.
Context `{Env}.

Definition oneHour : Z := 3600000.

Definition byUserId (id : N) (u : UserDoc) : bool := bool_decide (user_id u = id).

(** [user.resetPasswordToken = resetToken; user.resetPasswordExpires = ...] *)
Definition withResetToken (u : UserDoc) (token : jsstring) (expires : Z) : UserDoc :=
  mkUser (user_id u) (firstName u) (lastName u) (age u) (user_email u)
         (user_password u) (Some token) (Some expires).

(** No stored user holds the token. *)
Definition tokenUnused (token : jsstring) (users : list UserDoc) : Prop :=
  Forall (fun v => resetPasswordToken v <> Some token) users.

(** The stored users have distinct ids. *)
Definition distinctIds (users : list UserDoc) : Prop :=
  NoDup (List.map user_id users).

(** The credential of [u] replaced by the hash of [pw], the reset token
    cleared: the document [resetPassword] saves. *)
Definition withPassword (u : UserDoc) (pw : jsstring) : UserDoc :=
  mkUser (user_id u) (firstName u) (lastName u) (age u) (user_email u)
         (bcrypt_hash pw) None None.

Definition invalidToken : Response :=
  mkResponse 400 (JMessage "Token inválido o expirado").

Definition passwordUpdated : Response :=
  mkResponse 200 (JMessage "Contraseña actualizada correctamente").

(** [exports.forgotPassword].  [resetToken] is the value drawn by
    [crypto.randomBytes(32).toString("hex")], [sendEmail] what the mail
    transport answers for a message. *)
Definition forgotPassword (now : Z) (resetToken : jsstring)
  (sendEmail : Mail -> option JsError) (mail : jsstring) (users : list UserDoc)
  : ForgotOutcome :=
  match findOne (byEmail mail) users with
  | None => mkForgot (mkResponse 404 (JMessage "Usuario no encontrado")) users []
  | Some user =>
      let user' := withResetToken user resetToken (now + 3600000) in
      match user_validate user' with
      | Some error => mkForgot (errorHandler error) users []
      | None =>
          let users' := updateFirst (byUserId (user_id user)) (fun _ => user') users in
          let message := mkMail (user_email user) "Recupera tu contraseña - Taskio" resetToken in
          match sendEmail message with
          | Some error => mkForgot (errorHandler error) users' []
          | None =>
              mkForgot (mkResponse 200 (JMessage "Correo de recuperación enviado"))
                       users' [message]
          end
      end
  end.

Definition viewOf (u : UserDoc) : ProfileView :=
  mkProfileView (user_id u) (firstName u) (lastName u) (age u) (user_email u).

Definition userNotFound : Response :=
  mkResponse 404 (JMessage "Usuario no encontrado").

(** [exports.getProfile] *)
Definition getProfile (uid : N) (users : list UserDoc) : ProfileAnswer :=
  match findOne (byUserId uid) users with
  | None => ProfileError userNotFound
  | Some user => ProfileFound (viewOf user)
  end.

(** The validators of the paths [updateProfile] sets. *)
Definition profile_errors (first last : jsstring) (years : Z) (mail : jsstring)
  : list string :=
  (if bool_decide (first = []) then ["Path `firstName` is required."%string] else [])
  ++ (if bool_decide (last = []) then ["Path `lastName` is required."%string] else [])
  ++ (if years <? 13 then ["La edad mínima permitida es 13 años"%string] else [])
  ++ (if bool_decide (mail = []) then ["Path `email` is required."%string]
      else if email_pattern mail then [] else ["El email no es válido"%string]).

(** The unique index on [email]: another document holds the value. *)
Definition emailTaken (uid : N) (mail : jsstring) (users : list UserDoc) : bool :=
  existsb (fun u => negb (byUserId uid u) && byEmail mail u) users.

Definition duplicateKey : JsError :=
  mkError "MongoServerError" (Some 11000) None "E11000 duplicate key error" [].

(** [exports.updateProfile]: [User.findByIdAndUpdate(req.user.userId,
    { firstName, lastName, age, email }, { new: true, runValidators: true })]. *)
Definition updateProfile (uid : N) (b : ProfileBody) (users : list UserDoc)
  : ProfileAnswer * list UserDoc :=
  if negb (truthy (pb_firstName b)) || negb (truthy (pb_lastName b))
     || negb (truthy_num (pb_age b)) || negb (truthy (pb_email b))
  then (ProfileError (mkResponse 400 (JMessage "Todos los campos son requeridos")), users)
  else
    let first := Regex.trim (default [] (pb_firstName b)) in
    let last := Regex.trim (default [] (pb_lastName b)) in
    let years := default 0 (pb_age b) in
    let mail := default [] (pb_email b) in
    match profile_errors first last years mail with
    | _ :: _ as msgs =>
        (ProfileError (errorHandler (mkError "ValidationError" None None "Validation failed" msgs)),
         users)
    | [] =>
        match findOne (byUserId uid) users with
        | None => (ProfileError userNotFound, users)
        | Some user =>
            if emailTaken uid mail users then
              (ProfileError (errorHandler duplicateKey), users)
            else
              let user' :=
                mkUser (user_id user) first last years mail (user_password user)
                       (resetPasswordToken user) (resetPasswordExpires user) in
              (ProfileUpdated "Perfil actualizado correctamente" (viewOf user'),
               updateFirst (byUserId uid) (fun _ => user') users)
        end
    end.

(** [exports.deleteProfile] *)
Definition deleteProfile (uid : N) (password : option jsstring) (users : list UserDoc)
  : DeleteOutcome :=
  if negb (truthy password) then
    mkDelete (mkResponse 400 (JMessage "Debes confirmar tu contraseña para eliminar la cuenta"))
             false users
  else
    match findOne (byUserId uid) users with
    | None => mkDelete userNotFound false users
    | Some user =>
        if negb (bcrypt_compare (default [] password) (user_password user)) then
          mkDelete (mkResponse 401 (JMessage "Contraseña incorrecta")) false users
        else
          mkDelete (mkResponse 200 (JMessage "Perfil eliminado y sesión cerrada"))
                   true (deleteFirst (byUserId uid) users)
    end.

(** [exports.logout]: the cookie is cleared. *)
Definition logout : Response * bool :=
  (mkResponse 200 (JMessage "Logout exitoso"), true).

End Recovery.

(** ** routes.js *)

(** The handlers mounted by the router. *)
Inductive Handler :=
| HSignup | HLogin | HLogout
| HCreateTask | HGetTaskStats | HGetTaskById | HUpdateTask | HDeleteTask | HGetUserTasks
| HGetProfile | HUpdateProfile | HDeleteProfile
| HForgotPassword | HResetPassword | HSession.

(** A segment of a route path: a fixed word or a parameter ([:id]). *)
Inductive Segment :=
| Fixed (word : string)
| Param (name : string).

(** [router.METHOD(path, ...middlewares, handler)]: [route_auth] tells
    whether [authMiddleware] is among the middlewares. *)
Record Route := mkRoute {
  route_method : string;
  route_path : list Segment;
  route_auth : bool;
  route_handler : Handler
}.

(** The routes in the order in which routes.js registers them. *)
Definition routes : list Route := [
  mkRoute "POST" [Fixed "signup"] false HSignup;
  mkRoute "POST" [Fixed "login"] false HLogin;
  mkRoute "POST" [Fixed "logout"] true HLogout;
  mkRoute "POST" [Fixed "tasks"] true HCreateTask;
  mkRoute "GET" [Fixed "tasks"; Fixed "stats"] true HGetTaskStats;
  mkRoute "GET" [Fixed "tasks"; Param "id"] true HGetTaskById;
  mkRoute "PUT" [Fixed "tasks"; Param "id"] true HUpdateTask;
  mkRoute "DELETE" [Fixed "tasks"; Param "id"] true HDeleteTask;
  mkRoute "GET" [Fixed "tasks"] true HGetUserTasks;
  mkRoute "GET" [Fixed "profile"] true HGetProfile;
  mkRoute "PUT" [Fixed "profile"] true HUpdateProfile;
  mkRoute "DELETE" [Fixed "profile"] true HDeleteProfile;
  mkRoute "POST" [Fixed "forgot-password"] false HForgotPassword;
  mkRoute "POST" [Fixed "reset-password"; Param "token"] false HResetPassword;
  mkRoute "GET" [Fixed "session"] false HSession
].

(** A fixed word matches a segment of the request path without regard
    to the case of letters (the router is not case sensitive); a
    parameter matches any segment, which is not empty. *)
Definition matchSegment (s : Segment) (seg : jsstring) : bool :=
  match s with
  | Fixed word =>
      bool_decide (List.map TitleRegex.toLower (js word) = List.map TitleRegex.toLower seg)
  | Param _ => negb (bool_decide (seg = []))
  end.

Fixpoint matchPath (pattern : list Segment) (path : list jsstring) : bool :=
  match pattern, path with
  | [], [] => true
  | s :: pattern', seg :: path' => matchSegment s seg && matchPath pattern' path'
  | _, _ => false
  end.

(** A [GET] route also serves [HEAD]. *)
Definition matchMethod (r : Route) (method : string) : bool :=
  String.eqb (route_method r) method
  || (String.eqb (route_method r) "GET" && String.eqb method "HEAD").

(** The route that handles a request: the first registered one whose
    method and path match.  The path is the list of the segments of the
    URL below the mount point. *)
Definition dispatch (method : string) (path : list jsstring) : option Route :=
  List.find (fun r => matchMethod r method && matchPath (route_path r) path) routes.

Section Routes.
Context `{Env}.

(** The error of reading [req.user.userId] when no user was attached. *)
Definition noUser : JsError :=
  mkError "TypeError" None None
          "Cannot read properties of undefined (reading 'userId')" [].

(** [router.get("/tasks/:id", authMiddleware, getTaskById)] *)
Definition route_getTaskById (now : Z) (cookie : option Token) (id : N)
  (tasks : list TaskDoc) : Response :=
  match authMiddleware now "GET" cookie with
  | inl rejected => rejected
  | inr (Some user) => getTaskById (userId user) id tasks
  | inr None => errorHandler noUser
  end.

(** [router.delete("/tasks/:id", authMiddleware, deleteTask)] *)
Definition route_deleteTask (now : Z) (cookie : option Token) (id : N)
  (tasks : list TaskDoc) : Response * list TaskDoc :=
  match authMiddleware now "DELETE" cookie with
  | inl rejected => (rejected, tasks)
  | inr (Some user) => deleteTask (userId user) id tasks
  | inr None => (errorHandler noUser, tasks)
  end.

(** [router.put("/tasks/:id", authMiddleware, updateTask)]; [now] is the
    clock of the middleware, [later] the one of the handler. *)
Definition route_updateTask (now later : Z) (cookie : option Token) (id : N)
  (b : TaskBody) (tasks : list TaskDoc) : Response * list TaskDoc :=
  match authMiddleware now "PUT" cookie with
  | inl rejected => (rejected, tasks)
  | inr (Some user) => updateTask later (userId user) id b tasks
  | inr None =>
      if isPast (combine (b_date b) (b_time b)) later then (pastDue, tasks)
      else (errorHandler noUser, tasks)
  end.

(** [router.post("/tasks", authMiddleware, createTaskValidation,
    validateRequest, createTask)]; [refused] is the answer with which the
    two validation middlewares end the request, if they do.  [now] is
    the clock of [authMiddleware], [later] the one of the handler. *)
Definition route_createTask (now later : Z) (cookie : option Token)
  (refused : option Response) (fresh : N) (b : TaskBody) (tasks : list TaskDoc)
  : Response * list TaskDoc :=
  match authMiddleware now "POST" cookie with
  | inl rejected => (rejected, tasks)
  | inr user =>
      match refused with
      | Some answer => (answer, tasks)
      | None =>
          match user with
          | Some user => createTask later (userId user) fresh b tasks
          | None =>
              if negb (requiredFields b) then (missingFields, tasks)
              else if isPast (combine (b_date b) (b_time b)) later then (pastDue, tasks)
              else (errorHandler noUser, tasks)
          end
      end
  end.

(** [router.get("/tasks", authMiddleware, getUserTasks)] *)
Definition route_getUserTasks (now : Z) (cookie : option Token) (q : TaskQuery)
  (tasks : list TaskDoc) : option Response :=
  match authMiddleware now "GET" cookie with
  | inl rejected => Some rejected
  | inr (Some user) => getUserTasks (userId user) q tasks
  | inr None => Some (errorHandler noUser)
  end.

(** [router.get("/tasks/stats", authMiddleware, getTaskStats)] *)
Definition route_getTaskStats (now : Z) (cookie : option Token)
  (tasks : list TaskDoc) : Response :=
  match authMiddleware now "GET" cookie with
  | inl rejected => rejected
  | inr (Some user) => getTaskStats (userId user) tasks
  | inr None => errorHandler noUser
  end.

(** [router.post("/logout", authMiddleware, logout)] *)
Definition route_logout (now : Z) (cookie : option Token) : Response * bool :=
  match authMiddleware now "POST" cookie with
  | inl rejected => (rejected, false)
  | inr _ => logout
  end.

End Routes.

(** ** More sample data *)

Module Sample.

Definition bob : UserDoc :=
  mkUser 2 (js "Bob") (js "Hope") 30 (js "bob@example.com")
         (Demo.hash (js "Hunter!2")) None None.

Definition users : list UserDoc := [Demo.alice; bob].

Definition tasks : list TaskDoc := [Demo.task1; Demo.task2].

Definition delivered (m : Mail) : option JsError := None.

Definition undelivered (m : Mail) : option JsError :=
  Some (mkError "Error" None None "connect ECONNREFUSED" []).

(** Three tasks of user 1, stored in an order that is not that of their
    due dates, and one of user 2. *)
Definition late : TaskDoc :=
  mkTask 20 1 (js "Pay rent") None (js "2024-10-05") (js "00:00")
         (Some 1728086400000) (Some (js "todo")).

Definition early : TaskDoc :=
  mkTask 21 1 (js "Call mum") None (js "2000-01-01") (js "00:00")
         (Some 946684800000) (Some (js "done")).

Definition agenda : list TaskDoc := [late; Demo.task2; early; Demo.task1].

(** An engine for the title patterns, used below on the modelled
    patterns and on ["("], which no engine accepts: it answers every
    pattern outside the modelled ones as the store answers an invalid
    one. *)
Definition engine (pattern : jsstring) : JsError + (jsstring -> bool) :=
  match TitleRegex.parse pattern with
  | Some atoms => inr (TitleRegex.search atoms)
  | None => inl (mkError "MongoServerError" (Some 51091) None
                         "Regular expression is invalid" [])
  end.

(** The table of attempts after five failures for the email of Alice. *)
Definition lockedOut : gmap jsstring Attempt :=
  {[ js "alice@example.com" := mkAttempt 5 (Some 900006) ]}.

End Sample.

(** * Properties *)

(** ** The login throttle *)

Section LoginFacts.
Context `{Env}.

Implicit Types (la : gmap jsstring Attempt) (mail pw : jsstring).

Lemma truthy_Some (s : jsstring) : truthy (Some s) = true <-> s <> [].
Proof. destruct s; simpl; split; congruence. Qed.

(** The table once the entry of [mail] has been created if missing. *)
Lemma lazy_entry_lookup la mail :
  match la !! mail with
  | None => <[mail := mkAttempt 0 None]> la
  | Some _ => la
  end !! mail = Some (entryOf la mail).
Proof.
  unfold entryOf. destruct (la !! mail) as [e|] eqn:E; simpl.
  - exact E.
  - apply lookup_insert_eq.
Qed.

Lemma lazy_entry_insert la mail (e : Attempt) :
  <[mail := e]> (match la !! mail with
                 | None => <[mail := mkAttempt 0 None]> la
                 | Some _ => la
                 end) = <[mail := e]> la.
Proof.
  destruct (la !! mail); [reflexivity|]. apply insert_insert_eq.
Qed.

(** A locked entry: the request is answered 423 and nothing is compared. *)
Lemma login_locked now later mail pw users la user :
  findOne (byEmail mail) users = Some user ->
  mail <> [] -> pw <> [] ->
  isLocked (entryOf la mail) now = true ->
  let o := login now later (Some mail) (Some pw) users la in
  status (response o) = 423 /\ compared o = [] /\ cookie o = None
  /\ attempts o = <[mail := entryOf la mail]> la.
Proof.
  intros Hu Hm Hp Hl. unfold login.
  apply truthy_Some in Hm, Hp. rewrite Hm, Hp. simpl.
  rewrite Hu, lazy_entry_lookup. simpl. rewrite Hl. simpl.
  repeat split. unfold entryOf.
  destruct (la !! mail) as [e|] eqn:E.
  - symmetry. by apply insert_id.
  - reflexivity.
Qed.

(** An entry that is not locked and a wrong password: one more failure. *)
Lemma login_wrong now later mail pw users la user :
  findOne (byEmail mail) users = Some user ->
  mail <> [] -> pw <> [] ->
  isLocked (entryOf la mail) now = false ->
  bcrypt_compare pw (user_password user) = false ->
  let o := login now later (Some mail) (Some pw) users la in
  let n := S (count (entryOf la mail)) in
  status (response o) = 401 /\ compared o = [(pw, user_password user)] /\ cookie o = None
  /\ attempts o =
     <[mail := mkAttempt n (if (5 <=? n)%nat then Some (later + fifteenMinutes)
                            else lockedUntil (entryOf la mail))]> la.
Proof.
  intros Hu Hm Hp Hl Hc. unfold login.
  apply truthy_Some in Hm, Hp. rewrite Hm, Hp. simpl.
  rewrite Hu, lazy_entry_lookup. simpl. rewrite Hl, Hc. simpl.
  repeat split. rewrite lazy_entry_insert. f_equal.
  destruct (entryOf la mail) as [c l]; simpl.
  by destruct c as [|[|[|[|c]]]].
Qed.

(** An entry that is not locked and the right password: the count is reset. *)
Lemma login_right now later mail pw users la user :
  findOne (byEmail mail) users = Some user ->
  mail <> [] -> pw <> [] ->
  isLocked (entryOf la mail) now = false ->
  bcrypt_compare pw (user_password user) = true ->
  let o := login now later (Some mail) (Some pw) users la in
  response o = mkResponse 200 (JUserId "Login exitoso" (user_id user))
  /\ compared o = [(pw, user_password user)]
  /\ cookie o = Some (mkCookie "token"
                        (jwt_sign later (user_id user) (user_email user) JWT_SECRET)
                        true (2 * 60 * 60 * 1000))
  /\ attempts o = <[mail := mkAttempt 0 (lockedUntil (entryOf la mail))]> la.
Proof.
  intros Hu Hm Hp Hl Hc. unfold login.
  apply truthy_Some in Hm, Hp. rewrite Hm, Hp. simpl.
  rewrite Hu, lazy_entry_lookup. simpl. rewrite Hl, Hc. simpl.
  repeat split. by rewrite lazy_entry_insert.
Qed.

(** The answers of [login], by status. *)
Lemma login_status now later (mail pw : option jsstring) users la :
  let o := login now later mail pw users la in
  status (response o) = 400 \/ status (response o) = 401
  \/ status (response o) = 423 \/ status (response o) = 200.
Proof.
  unfold login. destruct (negb (truthy mail) || negb (truthy pw)); simpl; [tauto|].
  destruct (findOne _ users); simpl; [|tauto].
  destruct (isLocked _ now); simpl; [tauto|].
  destruct (negb (bcrypt_compare _ _)); simpl; tauto.
Qed.

(** A request of a registered email answered 401 was compared and failed. *)
Lemma login_401_inv now later mail pw users la user :
  findOne (byEmail mail) users = Some user ->
  mail <> [] -> pw <> [] ->
  status (response (login now later (Some mail) (Some pw) users la)) = 401 ->
  isLocked (entryOf la mail) now = false
  /\ bcrypt_compare pw (user_password user) = false.
Proof.
  intros Hu Hm Hp Hs.
  destruct (isLocked (entryOf la mail) now) eqn:Hl.
  - destruct (login_locked now later mail pw users la user Hu Hm Hp Hl) as [E _].
    rewrite E in Hs. discriminate.
  - split; [reflexivity|].
    destruct (bcrypt_compare pw (user_password user)) eqn:Hc; [|reflexivity].
    destruct (login_right now later mail pw users la user Hu Hm Hp Hl Hc) as [E _].
    rewrite E in Hs. discriminate.
Qed.

(** On an email that is a string, [loginAny] is [login]. *)
Lemma loginAny_string now later (s : jsstring) (pw : option jsstring) users la :
  loginAny now later (EmailString s) pw users la = login now later (Some s) pw users la.
Proof. reflexivity. Qed.

(** The same for every email value whose entry is not locked. *)
Lemma loginAny_right now later (m : EmailValue) pw users la user :
  findOne (selectedBy m) users = Some user ->
  emailTruthy m = true -> pw <> [] ->
  isLocked (entryOf la (emailKey m)) now = false ->
  bcrypt_compare pw (user_password user) = true ->
  let o := loginAny now later m (Some pw) users la in
  response o = mkResponse 200 (JUserId "Login exitoso" (user_id user))
  /\ compared o = [(pw, user_password user)]
  /\ cookie o = Some (mkCookie "token"
                        (jwt_sign later (user_id user) (user_email user) JWT_SECRET)
                        true (2 * 60 * 60 * 1000))
  /\ attempts o = <[emailKey m := mkAttempt 0 (lockedUntil (entryOf la (emailKey m)))]> la.
Proof.
  intros Hu Hm Hp Hl Hc. unfold loginAny.
  apply truthy_Some in Hp. rewrite Hm, Hp. simpl.
  rewrite Hu, lazy_entry_lookup. simpl. rewrite Hl, Hc. simpl.
  repeat split. by rewrite lazy_entry_insert.
Qed.

(** A login answered 200, whatever its email value: a user was selected,
    the entry under the key of the value was not locked, and the
    password compared right. *)
Lemma loginAny_200_inv now later (m : EmailValue) (pw : option jsstring) users la :
  status (response (loginAny now later m pw users la)) = 200 ->
  exists p user,
    pw = Some p /\ p <> [] /\ emailTruthy m = true
    /\ findOne (selectedBy m) users = Some user
    /\ isLocked (entryOf la (emailKey m)) now = false
    /\ bcrypt_compare p (user_password user) = true.
Proof.
  intros Hs. unfold loginAny in Hs.
  destruct (emailTruthy m) eqn:Tm; [|discriminate].
  destruct (truthy pw) eqn:Tp; [|discriminate].
  destruct pw as [p|]; [|discriminate].
  simpl in Hs.
  destruct (findOne (selectedBy m) users) as [user|] eqn:Hu; [|discriminate].
  rewrite lazy_entry_lookup in Hs. simpl in Hs.
  destruct (isLocked (entryOf la (emailKey m)) now) eqn:Hl; [discriminate|].
  destruct (bcrypt_compare p (user_password user)) eqn:Hc; [|discriminate].
  exists p, user. apply truthy_Some in Tp. by repeat split.
Qed.

(** A request whose email is the string [mail] touches no other key of
    the table. *)
Lemma login_other_keys now later mail (pw : option jsstring) users la (k : jsstring) :
  k <> mail -> attempts (login now later (Some mail) pw users la) !! k = la !! k.
Proof.
  intros Hk.
  assert (Hlazy : match la !! mail with
                  | None => <[mail := mkAttempt 0 None]> la
                  | Some _ => la
                  end !! k = la !! k).
  { destruct (la !! mail); [reflexivity|]. by apply lookup_insert_ne. }
  unfold login.
  destruct (negb (truthy (Some mail)) || negb (truthy pw)); [reflexivity|].
  cbv zeta. cbn [default from_option id].
  destruct (findOne (byEmail mail) users) as [user|]; [|reflexivity].
  destruct (isLocked _ now); [exact Hlazy|].
  destruct (negb (bcrypt_compare _ _)); cbn [attempts];
    (rewrite lookup_insert_ne; [exact Hlazy | congruence]).
Qed.

End LoginFacts.

Section Throttle.
Context `{Env}.

Implicit Types (la : gmap jsstring Attempt) (mail pw : jsstring).

Lemma entryOf_insert la mail (e : Attempt) : entryOf (<[mail := e]> la) mail = e.
Proof. unfold entryOf. by rewrite lookup_insert_eq. Qed.

Lemma replay_cons mail users (r : LoginReq) rest la :
  replay mail users (r :: rest) la =
  let o := login (at_check r) (at_later r) (Some mail) (Some (given r)) users la in
  (response o :: fst (replay mail users rest (attempts o)),
   snd (replay mail users rest (attempts o))).
Proof. reflexivity. Qed.

(** Failed requests in a row add up in the entry; the last of them sets
    the lock once five are counted. *)
Lemma replay_failures mail users user (reqs : list LoginReq) :
  findOne (byEmail mail) users = Some user ->
  mail <> [] ->
  forall la,
  Forall (fun r => given r <> []) reqs ->
  Forall (fun resp => status resp = 401) (fst (replay mail users reqs la)) ->
  let la' := snd (replay mail users reqs la) in
  count (entryOf la' mail) = (count (entryOf la mail) + length reqs)%nat
  /\ (reqs <> [] -> la' !! mail = Some (entryOf la' mail))
  /\ (forall r, last reqs = Some r -> (5 <= count (entryOf la' mail))%nat ->
      lockedUntil (entryOf la' mail) = Some (at_later r + fifteenMinutes)).
Proof.
  intros Hu Hm. induction reqs as [|r rest IH]; intros la Hg Hs.
  - simpl. repeat split; [lia | congruence | discriminate].
  - rewrite replay_cons in Hs |- *. cbn [fst snd] in Hs |- *.
    inversion Hg as [|? ? Hr Hrest]; subst.
    inversion Hs as [|? ? H401 Hs']; subst.
    destruct (login_401_inv _ _ _ _ _ _ _ Hu Hm Hr H401) as [Hl Hc].
    destruct (login_wrong (at_check r) (at_later r) mail (given r) users la user
                Hu Hm Hr Hl Hc) as (_ & _ & _ & Ha).
    cbv zeta in Ha.
    remember (attempts (login (at_check r) (at_later r) (Some mail)
                          (Some (given r)) users la)) as la1 eqn:Ela1.
    assert (He : entryOf la1 mail =
                 mkAttempt (S (count (entryOf la mail)))
                   (if (5 <=? S (count (entryOf la mail)))%nat
                    then Some (at_later r + fifteenMinutes)
                    else lockedUntil (entryOf la mail))).
    { rewrite Ha. apply entryOf_insert. }
    assert (Hin : la1 !! mail = Some (entryOf la1 mail)).
    { rewrite He, Ha. apply lookup_insert_eq. }
    clear Ela1 Ha.
    destruct (IH la1 Hrest Hs') as (IHc & IHs & IHl). repeat split.
    + rewrite IHc, He. simpl. lia.
    + intros _. destruct rest as [|r' rest'].
      * exact Hin.
      * apply IHs. discriminate.
    + intros r0 Hlast Hfive. destruct rest as [|r' rest'].
      * simpl in Hlast, Hfive |- *. injection Hlast as <-.
        rewrite He in Hfive |- *. cbn [count lockedUntil] in Hfive |- *.
        apply Nat.leb_le in Hfive. by rewrite Hfive.
      * apply IHl; [exact Hlast | exact Hfive].
Qed.

(** Requests that have nothing but strings see no key but their own. *)
Lemma replay_other_keys mail users (reqs : list LoginReq) (k : jsstring) :
  k <> mail -> forall la, snd (replay mail users reqs la) !! k = la !! k.
Proof.
  intros Hk. induction reqs as [|r rest IH]; intros la; [reflexivity|].
  rewrite replay_cons. cbn [snd]. rewrite IH. by apply login_other_keys.
Qed.

(** The lockout among the requests that give the email as a string.  For
    a registered email, once five login requests in a row have been
    answered as failed (401), a further request that gives that email as
    a string less than 15 minutes after the fifth failure is answered
    423, whatever password it carries, and no [bcrypt.compare] call is
    made for it (the table is left as it was); a request made once the
    15 minutes have elapsed, with a password that [bcrypt.compare]
    accepts, is answered 200, sets the cookie and leaves the failure
    count of the email at 0.  The requests carry a non-empty password,
    and the clock of the fifth failure is not before the epoch. *)
Theorem lockout_after_five_failures mail users user la (r1 r2 r3 r4 r5 : LoginReq) :
  findOne (byEmail mail) users = Some user ->
  mail <> [] ->
  Forall (fun r => given r <> []) [r1; r2; r3; r4; r5] ->
  0 <= at_later r5 ->
  Forall (fun resp => status resp = 401)
         (fst (replay mail users [r1; r2; r3; r4; r5] la)) ->
  let la5 := snd (replay mail users [r1; r2; r3; r4; r5] la) in
  let until := at_later r5 + fifteenMinutes in
  (forall now later pw, pw <> [] -> now < until ->
     let o := login now later (Some mail) (Some pw) users la5 in
     status (response o) = 423 /\ compared o = [] /\ cookie o = None
     /\ attempts o = la5)
  /\ (forall now later pw, pw <> [] -> until <= now ->
      bcrypt_compare pw (user_password user) = true ->
      let o := login now later (Some mail) (Some pw) users la5 in
      status (response o) = 200 /\ is_Some (cookie o)
      /\ count (entryOf (attempts o) mail) = 0%nat).
Proof.
  intros Hu Hm Hg Hpos Hs la5 until.
  destruct (replay_failures mail users user [r1; r2; r3; r4; r5] Hu Hm la Hg Hs)
    as (Hc & Hsome & Hlock).
  fold la5 in Hc, Hsome, Hlock.
  assert (Hfive : (5 <= count (entryOf la5 mail))%nat) by (rewrite Hc; simpl; lia).
  specialize (Hlock r5 eq_refl Hfive). specialize (Hsome ltac:(discriminate)).
  assert (Hisl : forall now, isLocked (entryOf la5 mail) now = bool_decide (now < until)).
  { intros now. unfold isLocked. rewrite Hlock. simpl.
    fold until. destruct (Z.eqb_spec until 0) as [E|_]; [|reflexivity].
    unfold until, fifteenMinutes in E. lia. }
  split.
  - intros now later pw Hp Hnow.
    assert (Hl : isLocked (entryOf la5 mail) now = true).
    { rewrite Hisl. by apply bool_decide_eq_true. }
    destruct (login_locked now later mail pw users la5 user Hu Hm Hp Hl)
      as (E1 & E2 & E3 & E4).
    repeat split; try assumption. simpl. rewrite E4. by apply insert_id.
  - intros now later pw Hp Hnow Hok.
    assert (Hl : isLocked (entryOf la5 mail) now = false).
    { rewrite Hisl. apply bool_decide_eq_false. lia. }
    destruct (login_right now later mail pw users la5 user Hu Hm Hp Hl Hok)
      as (E1 & E2 & E3 & E4).
    simpl. rewrite E1, E3, E4, entryOf_insert. by repeat split.
Qed.

(** C1.  The lockout does not cover every request for a registered
    email.  Once five login requests in a row that give the email as a
    string have been answered as failed (401), a sixth request made less
    than 15 minutes after the fifth failure is answered 423 when it
    gives the email as that string, but when it gives the email as the
    object [{ "$eq": mail }] it selects the same user, is looked up in
    the table under the key ["[object Object]"], and so is compared:
    with the password of the user it is answered 200 and sets the
    session cookie, while the lock of the email is still in force.  (The
    email is not the string ["[object Object]"], under which the table
    holds nothing beforehand.) *)
Theorem lockout_bypassed_by_operator_email mail users user la (r1 r2 r3 r4 r5 : LoginReq) :
  findOne (byEmail mail) users = Some user ->
  mail <> [] ->
  mail <> js "[object Object]" ->
  la !! js "[object Object]" = None ->
  Forall (fun r => given r <> []) [r1; r2; r3; r4; r5] ->
  0 <= at_later r5 ->
  Forall (fun resp => status resp = 401)
         (fst (replay mail users [r1; r2; r3; r4; r5] la)) ->
  let la5 := snd (replay mail users [r1; r2; r3; r4; r5] la) in
  let until := at_later r5 + fifteenMinutes in
  forall now later pw, pw <> [] -> now < until ->
    bcrypt_compare pw (user_password user) = true ->
    status (response (login now later (Some mail) (Some pw) users la5)) = 423
    /\ let o := loginAny now later (opEq mail) (Some pw) users la5 in
       response o = mkResponse 200 (JUserId "Login exitoso" (user_id user))
       /\ compared o = [(pw, user_password user)]
       /\ is_Some (cookie o)
       /\ isLocked (entryOf (attempts o) mail) now = true.
Proof.
  intros Hu Hm Hobj Hfree Hg Hpos Hs la5 until now later pw Hp Hnow Hok.
  destruct (replay_failures mail users user [r1; r2; r3; r4; r5] Hu Hm la Hg Hs)
    as (Hc & Hsome & Hlock).
  fold la5 in Hc, Hsome, Hlock.
  assert (Hfive : (5 <= count (entryOf la5 mail))%nat) by (rewrite Hc; simpl; lia).
  specialize (Hlock r5 eq_refl Hfive).
  assert (Hl : isLocked (entryOf la5 mail) now = true).
  { unfold isLocked. rewrite Hlock. simpl. fold until.
    destruct (Z.eqb_spec until 0) as [E|_].
    - unfold until, fifteenMinutes in E. lia.
    - by apply bool_decide_eq_true. }
  split.
  - by destruct (login_locked now later mail pw users la5 user Hu Hm Hp Hl) as [E _].
  - assert (Hkey : la5 !! js "[object Object]" = None).
    { unfold la5. rewrite replay_other_keys; [exact Hfree | congruence]. }
    assert (Hfreel : isLocked (entryOf la5 (emailKey (opEq mail))) now = false).
    { unfold entryOf. cbn [emailKey opEq]. by rewrite Hkey. }
    destruct (loginAny_right now later (opEq mail) pw users la5 user Hu eq_refl Hp
                Hfreel Hok) as (E1 & E2 & E3 & E4).
    cbv zeta. rewrite E1, E2, E3, E4. repeat split; [by eexists|].
    unfold entryOf. rewrite lookup_insert_ne.
    + exact Hl.
    + cbn [emailKey opEq]. congruence.
Qed.

End Throttle.

(** Alice is locked out at 6; a request that names her with [$eq] and
    carries her password is let in while the lock lasts. *)
Lemma lockout_bypassed_by_operator_email_witness :
  let mail := js "alice@example.com" in
  let wrong t := mkLoginReq t (t + 1) (js "guess") in
  let la5 := snd (replay (H := Demo.env) mail [Demo.alice]
                    [wrong 1; wrong 2; wrong 3; wrong 4; wrong 5] ∅) in
  status (response (login (H := Demo.env) 7 8 (Some mail) (Some (js "Secret!1"))
                      [Demo.alice] la5)) = 423
  /\ response (loginAny (H := Demo.env) 7 8 (opEq mail) (Some (js "Secret!1"))
                 [Demo.alice] la5)
     = mkResponse 200 (JUserId "Login exitoso" 1)
  /\ compared (loginAny (H := Demo.env) 7 8 (opEq mail) (Some (js "Secret!1"))
                 [Demo.alice] la5)
     = [(js "Secret!1", user_password Demo.alice)].
Proof.
  intros mail wrong la5.
  destruct (lockout_bypassed_by_operator_email (H := Demo.env) mail [Demo.alice]
              Demo.alice ∅ (wrong 1) (wrong 2) (wrong 3) (wrong 4) (wrong 5))
    with (now := 7) (later := 8) (pw := js "Secret!1")
    as (H423 & H200 & Hcmp & _).
  - reflexivity.
  - discriminate.
  - discriminate.
  - reflexivity.
  - repeat constructor; discriminate.
  - simpl. lia.
  - vm_compute. repeat constructor.
  - discriminate.
  - unfold fifteenMinutes. simpl. lia.
  - reflexivity.
  - repeat split; assumption.
Defined.

(** The fifth failure of an empty table locks the email. *)
Lemma lockout_after_five_failures_witness :
  let mail := js "alice@example.com" in
  let wrong t := mkLoginReq t (t + 1) (js "guess") in
  let la5 := snd (replay (H := Demo.env) mail [Demo.alice]
                    [wrong 1; wrong 2; wrong 3; wrong 4; wrong 5] ∅) in
  (forall now later pw, pw <> [] -> now < 6 + fifteenMinutes ->
     let o := login (H := Demo.env) now later (Some mail) (Some pw) [Demo.alice] la5 in
     status (response o) = 423 /\ compared o = [] /\ cookie o = None
     /\ attempts o = la5)
  /\ (forall now later pw, pw <> [] -> 6 + fifteenMinutes <= now ->
      bcrypt_compare (Env := Demo.env) pw (user_password Demo.alice) = true ->
      let o := login (H := Demo.env) now later (Some mail) (Some pw) [Demo.alice] la5 in
      status (response o) = 200 /\ is_Some (cookie o)
      /\ count (entryOf (attempts o) mail) = 0%nat).
Proof.
  intros mail wrong.
  apply (lockout_after_five_failures (H := Demo.env) mail [Demo.alice] Demo.alice ∅
           (wrong 1) (wrong 2) (wrong 3) (wrong 4) (wrong 5)).
  - reflexivity.
  - discriminate.
  - repeat constructor; discriminate.
  - simpl. lia.
  - vm_compute. repeat constructor.
Defined.

(** ** Life of a throttle entry *)

Section ThrottleEntry.
Context `{Env}.

Implicit Types (la : gmap jsstring Attempt).

Lemma falsy_inv (x : option jsstring) :
  truthy x = false -> x = None \/ x = Some [].
Proof. destruct x as [[|c s]|]; simpl; intros; try discriminate; auto. Qed.


End ThrottleEntry.



(** ** The session token *)

Section SessionToken.
Context `{Env}.

Lemma jwt_verify_signed now later uid mail :
  seconds now < seconds later + twoHours ->
  jwt_verify now (jwt_sign later uid mail JWT_SECRET) JWT_SECRET
  = inr (mkClaims uid mail (seconds later) (seconds later + twoHours)).
Proof.
  intros Ht. unfold jwt_verify, jwt_sign, JS.eqb. simpl.
  rewrite bool_decide_eq_true_2 by reflexivity. simpl.
  destruct (Z.leb_spec (seconds later + twoHours) (seconds now)); [lia|reflexivity].
Qed.

Lemma jwt_verify_expired now token secret :
  exp (claims token) <= seconds now ->
  exists e, jwt_verify now token secret = inl e.
Proof.
  intros Ht. unfold jwt_verify.
  destruct (negb _); [eauto|].
  destruct (Z.leb_spec (exp (claims token)) (seconds now)); [eauto|lia].
Qed.

Lemma jwt_verify_forged now (c : Claims) (sig : jsstring) secret :
  sig <> hmac secret c ->
  exists e, jwt_verify now (mkToken c sig) secret = inl e.
Proof.
  intros Hs. unfold jwt_verify, JS.eqb. simpl.
  rewrite bool_decide_eq_false_2 by exact Hs. simpl. eauto.
Qed.

Lemma seconds_after_two_hours now later :
  later + 2 * 60 * 60 * 1000 <= now -> seconds later + twoHours <= seconds now.
Proof.
  unfold seconds. intros Hle.
  unfold twoHours.
  replace (later / 1000 + 7200) with ((later + 7200 * 1000) / 1000)
    by (rewrite Z.div_add by lia; reflexivity).
  apply Z.div_le_mono; lia.
Qed.

Lemma seconds_before_two_hours now later :
  now <= later + 2 * 60 * 60 * 1000 - 1000 -> seconds now < seconds later + twoHours.
Proof.
  unfold seconds, twoHours. intros Hle.
  assert (Hdiv : now / 1000 <= (later + 7199 * 1000) / 1000)
    by (apply Z.div_le_mono; lia).
  rewrite Z.div_add in Hdiv by lia. lia.
Qed.

(** C7.  A login answered 200 sets an http-only cookie named [token]
    whose value is a signed token carrying the [_id] and the email of
    the user, issued at the whole second of the login and expiring 7200
    seconds after that second.  The auth middleware, given that token
    at a clock second before the expiry, calls [next] with exactly
    these claims as [req.user], which is so at every time up to two
    hours less one second after the login; given it at a clock second
    at or after the expiry, which is so from two hours after the login
    on, or given the same claims under any other signature, it answers
    401. *)
Theorem session_token_roundtrip now later (mail pw : option jsstring) users la :
  let o := login now later mail pw users la in
  status (response o) = 200 ->
  exists user c,
    findOne (byEmail (default [] mail)) users = Some user
    /\ cookie o = Some c /\ cookie_name c = "token"%string /\ httpOnly c = true
    /\ maxAge c = 2 * 60 * 60 * 1000
    /\ claims (cookie_value c)
       = mkClaims (user_id user) (user_email user) (seconds later) (seconds later + twoHours)
    /\ (forall t method, method <> "OPTIONS"%string ->
        seconds t < seconds later + twoHours ->
        authMiddleware t method (Some (cookie_value c))
        = inr (Some (claims (cookie_value c))))
    /\ (forall t method, method <> "OPTIONS"%string ->
        t <= later + 2 * 60 * 60 * 1000 - 1000 ->
        authMiddleware t method (Some (cookie_value c))
        = inr (Some (claims (cookie_value c))))
    /\ (forall t method, method <> "OPTIONS"%string ->
        seconds later + twoHours <= seconds t ->
        authMiddleware t method (Some (cookie_value c))
        = inl (mkResponse 401 (JMessage "Invalid or expired token")))
    /\ (forall t method, method <> "OPTIONS"%string ->
        later + 2 * 60 * 60 * 1000 <= t ->
        authMiddleware t method (Some (cookie_value c))
        = inl (mkResponse 401 (JMessage "Invalid or expired token")))
    /\ (forall t method sig, method <> "OPTIONS"%string ->
        sig <> signature (cookie_value c) ->
        authMiddleware t method (Some (mkToken (claims (cookie_value c)) sig))
        = inl (mkResponse 401 (JMessage "Invalid or expired token"))).
Proof.
  intros o Hs.
  destruct (truthy mail) eqn:Tm; [destruct (truthy pw) eqn:Tp|];
    try (exfalso; unfold o, login in Hs; rewrite Tm, ?Tp in Hs; discriminate).
  destruct mail as [mail|]; [|discriminate]. destruct pw as [pw|]; [|discriminate].
  apply truthy_Some in Tm, Tp. simpl.
  destruct (findOne (byEmail mail) users) as [user|] eqn:Hu.
  2:{ exfalso. unfold o, login in Hs. apply truthy_Some in Tm, Tp.
      rewrite Tm, Tp in Hs. simpl in Hs. rewrite Hu in Hs. discriminate. }
  destruct (isLocked (entryOf la mail) now) eqn:Hl.
  { destruct (login_locked now later mail pw users la user Hu Tm Tp Hl) as [E _].
    fold o in E. rewrite E in Hs. discriminate. }
  destruct (bcrypt_compare pw (user_password user)) eqn:Hc.
  2:{ destruct (login_wrong now later mail pw users la user Hu Tm Tp Hl Hc) as [E _].
      fold o in E. rewrite E in Hs. discriminate. }
  destruct (login_right now later mail pw users la user Hu Tm Tp Hl Hc)
    as (_ & _ & E3 & _). fold o in E3.
  exists user, (mkCookie "token" (jwt_sign later (user_id user) (user_email user) JWT_SECRET)
                         true (2 * 60 * 60 * 1000)).
  assert (Hopt : forall method, method <> "OPTIONS"%string ->
                 String.eqb method "OPTIONS" = false).
  { intros method Hne. by apply String.eqb_neq. }
  repeat split; try assumption; try reflexivity.
  - intros t method Hm Ht. unfold authMiddleware. rewrite (Hopt _ Hm).
    cbn [cookie_value]. by rewrite jwt_verify_signed.
  - intros t method Hm Ht. unfold authMiddleware. rewrite (Hopt _ Hm).
    cbn [cookie_value]. rewrite jwt_verify_signed; [reflexivity|].
    by apply seconds_before_two_hours.
  - intros t method Hm Ht. unfold authMiddleware. rewrite (Hopt _ Hm).
    cbn [cookie_value].
    destruct (jwt_verify_expired t (jwt_sign later (user_id user) (user_email user) JWT_SECRET)
                JWT_SECRET) as [e ->]; [|reflexivity].
    exact Ht.
  - intros t method Hm Ht. unfold authMiddleware. rewrite (Hopt _ Hm).
    cbn [cookie_value].
    destruct (jwt_verify_expired t (jwt_sign later (user_id user) (user_email user) JWT_SECRET)
                JWT_SECRET) as [e ->]; [|reflexivity].
    simpl. by apply seconds_after_two_hours.
  - intros t method sig Hm Hsig. unfold authMiddleware. rewrite (Hopt _ Hm).
    cbn [cookie_value] in *.
    destruct (jwt_verify_forged t
                (claims (jwt_sign later (user_id user) (user_email user) JWT_SECRET))
                sig JWT_SECRET) as [e ->]; [exact Hsig|reflexivity].
Qed.

End SessionToken.

(** A token issued 1.5 s after the epoch is refused at 7201 s, which is
    7199.5 s, less than two hours, after the login. *)
Lemma session_token_refused_before_two_hours :
  let o := login (H := Demo.env) 1000 1500 (Some (js "alice@example.com"))
                 (Some (js "Secret!1")) [Demo.alice] ∅ in
  status (response o) = 200
  /\ 7201000 - 1500 < 2 * 60 * 60 * 1000
  /\ exists c, cookie o = Some c
       /\ authMiddleware (H := Demo.env) 7201000 "GET" (Some (cookie_value c))
          = inl (mkResponse 401 (JMessage "Invalid or expired token")).
Proof.
  split; [reflexivity|]. split; [lia|].
  eexists. split; reflexivity.
Qed.

(** The token of a login at 1.5 s verifies up to 7199.5 s and until the
    clock shows 7201 s, is refused from then on, and resists a changed
    signature. *)
Lemma session_token_roundtrip_witness :
  let o := login (H := Demo.env) 1000 1500 (Some (js "alice@example.com"))
                 (Some (js "Secret!1")) [Demo.alice] ∅ in
  exists user c,
    findOne (byEmail (js "alice@example.com")) [Demo.alice] = Some user
    /\ cookie o = Some c
    /\ authMiddleware (H := Demo.env) 7200999 "GET" (Some (cookie_value c))
       = inr (Some (mkClaims (user_id user) (user_email user) 1 7201))
    /\ authMiddleware (H := Demo.env) 7200500 "GET" (Some (cookie_value c))
       = inr (Some (mkClaims (user_id user) (user_email user) 1 7201))
    /\ authMiddleware (H := Demo.env) 7201000 "GET" (Some (cookie_value c))
       = inl (mkResponse 401 (JMessage "Invalid or expired token"))
    /\ authMiddleware (H := Demo.env) 7201500 "GET" (Some (cookie_value c))
       = inl (mkResponse 401 (JMessage "Invalid or expired token"))
    /\ authMiddleware (H := Demo.env) 2000 "GET"
         (Some (mkToken (claims (cookie_value c)) (js "forged")))
       = inl (mkResponse 401 (JMessage "Invalid or expired token")).
Proof.
  intros o.
  destruct (session_token_roundtrip (H := Demo.env) 1000 1500
              (Some (js "alice@example.com")) (Some (js "Secret!1")) [Demo.alice] ∅)
    as (user & c & Hu & Hc & _ & _ & _ & Hcl & Hok & Hms & Hsec & Hexp & Hforged).
  - reflexivity.
  - exists user, c. split; [exact Hu|]. split; [exact Hc|].
    assert (Hsig : js "forged" <> signature (cookie_value c)).
    { vm_compute in Hc. injection Hc as <-. vm_compute. discriminate. }
    split; [|split; [|split; [|split]]].
    + rewrite (Hok 7200999 "GET"%string); [by rewrite Hcl | discriminate | reflexivity].
    + rewrite (Hms 7200500 "GET"%string); [by rewrite Hcl | discriminate | simpl; lia].
    + apply Hsec; [discriminate | vm_compute; discriminate].
    + apply Hexp; [discriminate | simpl; lia].
    + apply Hforged; [discriminate | exact Hsig].
Defined.

(** ** The password policy *)

Section PasswordPolicy.
Context `{Env}.

Lemma lookahead_existsb (p : N -> bool) (s : jsstring) :
  Regex.lookahead p s = true -> existsb p s = true.
Proof.
  induction s as [|c r IH]; simpl; [discriminate|].
  destruct (p c); simpl; [reflexivity|].
  intros Hr. apply andb_true_iff in Hr as [_ Hr]. auto.
Qed.

(** What a password accepted by the pattern of [signup] has. *)
Lemma passwordRegex_policy (s : jsstring) :
  Regex.passwordRegex s = true ->
  (8 <= length s)%nat /\ existsb Regex.upper s = true
  /\ existsb Regex.lower s = true /\ existsb Regex.special s = true.
Proof.
  unfold Regex.passwordRegex, Regex.dots8. intros Hr.
  apply andb_true_iff in Hr as [Hr Hdots].
  apply andb_true_iff in Hr as [Hr Hspecial].
  apply andb_true_iff in Hr as [Hlower Hupper].
  apply andb_true_iff in Hdots as [_ Hlen].
  apply N.leb_le in Hlen.
  repeat split; auto using lookahead_existsb. lia.
Qed.

(** [signup] answers 400 and stores nothing for a password that is
    shorter than 8 code units or lacks an upper-case letter, a lower-case
    letter or a character of [[\W_]], whatever the other fields. *)
Lemma signup_rejects_weak_password fresh (b : SignupBody) users :
  let pw := default [] (su_password b) in
  (length pw < 8)%nat \/ existsb Regex.upper pw = false
  \/ existsb Regex.lower pw = false \/ existsb Regex.special pw = false ->
  status (fst (signup fresh b users)) = 400 /\ snd (signup fresh b users) = users.
Proof.
  intros pw Hweak.
  assert (Hr : Regex.passwordRegex pw = false).
  { destruct (Regex.passwordRegex pw) eqn:E; [|reflexivity].
    apply passwordRegex_policy in E as (? & ? & ? & ?).
    destruct Hweak as [?|[?|[?|?]]]; [lia|congruence..]. }
  unfold signup.
  destruct (negb (truthy (su_firstName b)) || _ || _ || _ || _); [by split|].
  fold pw. rewrite Hr. by split.
Qed.

(** [resetPassword] hashes and stores whatever password the request
    carries: with a token that matches and has not expired, the answer
    is 200 and the stored credential is the hash of that password, as
    soon as the hash (not the password) passes the validators of the
    user schema. *)
Lemma resetPassword_stores_any_password now token (pw : jsstring) users user :
  findOne (byResetToken now token) users = Some user ->
  userSchema_errors
    (mkUser (user_id user) (firstName user) (lastName user) (age user)
            (user_email user) (bcrypt_hash pw) None None) = [] ->
  resetPassword now token (Some pw) users
  = (mkResponse 200 (JMessage "Contraseña actualizada correctamente"),
     updateFirst (fun u => bool_decide (user_id u = user_id user))
       (fun _ => mkUser (user_id user) (firstName user) (lastName user) (age user)
                        (user_email user) (bcrypt_hash pw) None None) users).
Proof.
  intros Hu Hv. unfold resetPassword, user_validate. by rewrite Hu, Hv.
Qed.

End PasswordPolicy.

(** C2, the failing input.  On a reset-password request whose token
    matches and has not expired, the one-character password [a], which
    the pattern of [signup] refuses, is hashed and stored, and the
    answer is 200 instead of 400. *)
Theorem resetPassword_accepts_weak_password :
  let weak := js "a" in
  Regex.passwordRegex weak = false
  /\ status (fst (signup (H := Demo.env) 2
                    (mkSignupBody (Some (js "Bob")) (Some (js "Hope")) (Some 30)
                                  (Some (js "bob@example.com")) (Some weak))
                    [Demo.alice])) = 400
  /\ resetPassword (H := Demo.env) 100 (js "reset-token") (Some weak) [Demo.alice]
     = (mkResponse 200 (JMessage "Contraseña actualizada correctamente"),
        [mkUser 1 (js "Alice") (js "Liddell") 20 (js "alice@example.com")
                (Demo.hash weak) None None]).
Proof. vm_compute. auto. Qed.

(** ** Ownership of tasks *)

Section Ownership.
Context `{Env}.

Lemma find_all_false {A : Type} (p : A -> bool) (l : list A) :
  (forall x, In x l -> p x = false) -> List.find p l = None.
Proof.
  induction l as [|a l IH]; simpl; intros Hall; [reflexivity|].
  rewrite (Hall a) by auto. apply IH. auto.
Qed.

Lemma unique_id (tasks : list TaskDoc) (t t' : TaskDoc) :
  NoDup (List.map task_id tasks) -> In t tasks -> In t' tasks ->
  task_id t = task_id t' -> t = t'.
Proof.
  induction tasks as [|a l IH]; simpl; intros Hnd Ht Ht' Hid; [contradiction|].
  inversion Hnd as [|? ? Hnotin Hnd']; subst.
  destruct Ht as [->|Ht], Ht' as [->|Ht']; auto.
  - exfalso. apply Hnotin. rewrite Hid. apply list_elem_of_In. by apply in_map.
  - exfalso. apply Hnotin. rewrite <- Hid. apply list_elem_of_In. by apply in_map.
Qed.

(** A task of another owner is matched by no query of this user. *)
Lemma foreign_task_unmatched uid id (tasks : list TaskDoc) (t : TaskDoc) :
  NoDup (List.map task_id tasks) -> In t tasks ->
  task_id t = id -> task_userId t <> uid ->
  findOne (byIdAndOwner id uid) tasks = None.
Proof.
  intros Hnd Hin Hid Hown. apply find_all_false. intros t' Hin'.
  unfold byIdAndOwner.
  destruct (bool_decide (task_id t' = id)) eqn:E; [|reflexivity].
  apply bool_decide_eq_true in E.
  assert (t = t') by (eapply unique_id; eauto; congruence). subst t'.
  simpl. by apply bool_decide_eq_false.
Qed.

Lemma deleteFirst_none {A : Type} (p : A -> bool) (l : list A) :
  List.find p l = None -> deleteFirst p l = l.
Proof.
  induction l as [|a l IH]; simpl; [reflexivity|].
  destruct (p a); [discriminate|]. intros Hn. by rewrite IH.
Qed.

(** The answers of [updateTask], case by case, in the order in which
    the handler and the store decide them. *)
Lemma updateTask_answer now uid id (b : TaskBody) (tasks : list TaskDoc) :
  updateTask now uid id b tasks =
  if isPast (combine (b_date b) (b_time b)) now then (pastDue, tasks)
  else match combine (b_date b) (b_time b) with
       | None => (castFailed, tasks)
       | Some _ =>
           match update_errors (updateOf b) with
           | [] =>
               match findOne (byIdAndOwner id uid) tasks with
               | None => (notFound, tasks)
               | Some t =>
                   (updated (applyUpdate (updateOf b) t),
                    updateFirst (byIdAndOwner id uid) (applyUpdate (updateOf b)) tasks)
               end
           | msgs => (validationFailed msgs, tasks)
           end
       end.
Proof.
  unfold updateTask, updateTask_checks, updateTask_store, Task_findOneAndUpdate.
  destruct (isPast (combine (b_date b) (b_time b)) now); [reflexivity|].
  cbn [throwIf bindExc up_dueDate updateOf].
  destruct (combine (b_date b) (b_time b)) as [d|]; [|reflexivity].
  destruct (update_errors _) as [|msg msgs]; [|reflexivity].
  by destruct (findOne (byIdAndOwner id uid) tasks).
Qed.

(** C3 (amended).  When the task of the given id belongs to another
    owner, [getTaskById] and [deleteTask] answer 404 and [deleteTask]
    leaves the collection as it was.  [updateTask] leaves the collection
    as it was and its answer carries no task; it answers 400 (due date
    in the past) when the due instant of the request is in the past,
    500 (cast error) when the due instant is not a valid date, 400
    (validation error, with the messages of the validators) when the
    due instant is valid and not in the past and the update fails a
    validator, and 404 only when the due instant is valid and not in
    the past and the update passes the validators: the due-instant
    check, the cast and the validators come before the query.  Each
    query is made with the filter on both the task id and the id of the
    authenticated user. *)
Theorem foreign_task_is_not_disclosed now uid id (b : TaskBody) (tasks : list TaskDoc)
  (t : TaskDoc) :
  NoDup (List.map task_id tasks) -> In t tasks ->
  task_id t = id -> task_userId t <> uid ->
  getTaskById uid id tasks = notFound
  /\ status notFound = 404
  /\ deleteTask uid id tasks = (notFound, tasks)
  /\ (let r := updateTask now uid id b tasks in
      snd r = tasks /\ carriesTask (body (fst r)) = false
      /\ (isPast (combine (b_date b) (b_time b)) now = true ->
          fst r = pastDue /\ status (fst r) = 400)
      /\ (combine (b_date b) (b_time b) = None ->
          fst r = castFailed /\ status (fst r) = 500)
      /\ (forall d, combine (b_date b) (b_time b) = Some d -> now <= d ->
          update_errors (updateOf b) <> [] ->
          fst r = validationFailed (update_errors (updateOf b)) /\ status (fst r) = 400)
      /\ (forall d, combine (b_date b) (b_time b) = Some d -> now <= d ->
          update_errors (updateOf b) = [] ->
          fst r = notFound /\ status (fst r) = 404)).
Proof.
  intros Hnd Hin Hid Hown.
  pose proof (foreign_task_unmatched uid id tasks t Hnd Hin Hid Hown) as Hnone.
  split; [|split; [|split]].
  - unfold getTaskById. by rewrite Hnone.
  - reflexivity.
  - unfold deleteTask, Task_findOneAndDelete. by rewrite Hnone.
  - cbv zeta. rewrite updateTask_answer, Hnone.
    destruct (isPast (combine (b_date b) (b_time b)) now) eqn:Hp.
    { cbn [fst snd]. split; [reflexivity|]. split; [reflexivity|].
      split; [by split|].
      split; [intros Hd; rewrite Hd in Hp; discriminate|].
      split; intros d Hd Hle; rewrite Hd in Hp; simpl in Hp;
        apply Z.ltb_lt in Hp; lia. }
    destruct (combine (b_date b) (b_time b)) as [d|] eqn:Hd.
    2:{ cbn [fst snd]. split; [reflexivity|]. split; [reflexivity|].
        split; [discriminate|]. split; [by split|].
        split; intros; discriminate. }
    destruct (update_errors (updateOf b)) as [|msg msgs] eqn:Hv.
    + cbn [fst snd]. split; [reflexivity|]. split; [reflexivity|].
      split; [discriminate|]. split; [discriminate|].
      split; [congruence|]. intros; by split.
    + cbn [fst snd]. split; [reflexivity|]. split; [reflexivity|].
      split; [discriminate|]. split; [discriminate|].
      split; [intros; by split|]. intros; discriminate.
Qed.

End Ownership.

(** C3, as stated, fails on the code: an update of a task of another
    owner whose request carries a due instant in the past (the first
    day of 2000, asked on 2024-10-04) is answered 400, not 404 (the task
    is left as it was). *)
Lemma foreign_task_update_answers_400 :
  let tasks := [Demo.task1; Demo.task2] in
  let b := mkTaskBody (Some (js "mine now")) None (Some (js "2000-01-01"))
                      (Some (js "00:00")) (Some (js "done")) in
  (In Demo.task2 tasks /\ task_id Demo.task2 = 11%N /\ task_userId Demo.task2 <> 1%N)
  /\ combine (H := Demo.env) (b_date b) (b_time b) = Some 946684800000
  /\ updateTask (H := Demo.env) 1728036000000 1 11 b tasks = (pastDue, tasks)
  /\ status pastDue <> 404.
Proof.
  split; [|split; [|split]].
  - repeat split; [right; left; reflexivity | discriminate].
  - vm_compute. reflexivity.
  - vm_compute. reflexivity.
  - discriminate.
Qed.

(** The second task belongs to user 2; user 1 asks for it on 2024-10-04
    at 10:00, with a due instant in 2030, with one in 2000, with none,
    and with a status outside the enumeration. *)
Lemma foreign_task_is_not_disclosed_witness :
  let tasks := [Demo.task1; Demo.task2] in
  let body date (status : string) :=
    mkTaskBody (Some (js "mine now")) None date (Some (js "09:00")) (Some (js status)) in
  getTaskById 1 11 tasks = notFound
  /\ deleteTask 1 11 tasks = (notFound, tasks)
  /\ updateTask (H := Demo.env) 1728036000000 1 11
       (body (Some (js "2030-01-01")) "done"%string) tasks = (notFound, tasks)
  /\ updateTask (H := Demo.env) 1728036000000 1 11
       (body (Some (js "2000-01-01")) "done"%string) tasks = (pastDue, tasks)
  /\ updateTask (H := Demo.env) 1728036000000 1 11
       (body None "done"%string) tasks = (castFailed, tasks)
  /\ updateTask (H := Demo.env) 1728036000000 1 11
       (body (Some (js "2030-01-01")) "archived"%string) tasks
     = (validationFailed ["`status` is not a valid enum value."%string], tasks).
Proof.
  intros tasks body.
  assert (Hsame : forall b resp,
            snd (updateTask (H := Demo.env) 1728036000000 1 11 b tasks) = tasks ->
            fst (updateTask (H := Demo.env) 1728036000000 1 11 b tasks) = resp ->
            updateTask (H := Demo.env) 1728036000000 1 11 b tasks = (resp, tasks)).
  { intros b resp. destruct (updateTask 1728036000000 1 11 b tasks). simpl. congruence. }
  assert (Hall : forall b,
            getTaskById 1 11 tasks = notFound
            /\ deleteTask 1 11 tasks = (notFound, tasks)
            /\ (let r := updateTask (H := Demo.env) 1728036000000 1 11 b tasks in
                snd r = tasks
                /\ (isPast (combine (H := Demo.env) (b_date b) (b_time b)) 1728036000000 = true ->
                    fst r = pastDue)
                /\ (combine (H := Demo.env) (b_date b) (b_time b) = None -> fst r = castFailed)
                /\ (forall d, combine (H := Demo.env) (b_date b) (b_time b) = Some d ->
                    1728036000000 <= d -> update_errors (updateOf (H := Demo.env) b) <> [] ->
                    fst r = validationFailed (update_errors (updateOf (H := Demo.env) b)))
                /\ (forall d, combine (H := Demo.env) (b_date b) (b_time b) = Some d ->
                    1728036000000 <= d -> update_errors (updateOf (H := Demo.env) b) = [] ->
                    fst r = notFound))).
  { intros b.
    destruct (foreign_task_is_not_disclosed (H := Demo.env) 1728036000000 1 11 b tasks
                Demo.task2) as (Hget & _ & Hdel & Hsnd & _ & Hpast & Hcast & Hval & H404).
    - apply (bool_decide_unpack _). vm_compute. exact I.
    - right; left; reflexivity.
    - reflexivity.
    - discriminate.
    - split; [exact Hget|]. split; [exact Hdel|]. split; [exact Hsnd|].
      split; [intros Hp; apply (Hpast Hp)|].
      split; [intros Hc; apply (Hcast Hc)|].
      split; intros d Hd Hle Hv; [apply (Hval d Hd Hle Hv) | apply (H404 d Hd Hle Hv)]. }
  destruct (Hall (body (Some (js "2030-01-01")) "done"%string))
    as (Hget & Hdel & Hsnd1 & _ & _ & _ & H404).
  destruct (Hall (body (Some (js "2000-01-01")) "done"%string)) as (_ & _ & Hsnd2 & Hpast & _).
  destruct (Hall (body None "done"%string)) as (_ & _ & Hsnd3 & _ & Hcast & _).
  destruct (Hall (body (Some (js "2030-01-01")) "archived"%string))
    as (_ & _ & Hsnd4 & _ & _ & Hval & _).
  split; [exact Hget|]. split; [exact Hdel|].
  split; [|split; [|split]].
  - apply Hsame; [exact Hsnd1|].
    apply (H404 1893488400000); [reflexivity | lia | reflexivity].
  - apply Hsame; [exact Hsnd2|]. apply Hpast. reflexivity.
  - apply Hsame; [exact Hsnd3|]. apply Hcast. reflexivity.
  - apply Hsame; [exact Hsnd4|].
    apply (Hval 1893488400000); [reflexivity | lia | discriminate].
Defined.

(** ** The due instant of a task *)

Section DueInstant.
Context `{Env}.

Lemma requiredFields_guard (b : TaskBody) :
  negb (truthy (b_title b)) || negb (truthy (b_date b))
  || negb (truthy (b_time b)) || negb (truthy (b_status b))
  = negb (requiredFields b).
Proof.
  unfold requiredFields.
  by destruct (truthy (b_title b)), (truthy (b_date b)), (truthy (b_time b)),
     (truthy (b_status b)).
Qed.

(** [createTask], by cases on its two checks and on the validators. *)
Lemma createTask_cases now uid fresh (b : TaskBody) tasks :
  createTask now uid fresh b tasks =
  if negb (requiredFields b) then (missingFields, tasks)
  else if isPast (combine (b_date b) (b_time b)) now then (pastDue, tasks)
  else match Task_save (newTaskOf uid fresh b) tasks with
       | inr tasks' => (created (newTaskOf uid fresh b), tasks')
       | inl error => (errorHandler error, tasks)
       end.
Proof.
  unfold createTask, createTask_checks. rewrite requiredFields_guard.
  destruct (requiredFields b); simpl; [|reflexivity].
  destruct (isPast _ now); simpl; [reflexivity|].
  by destruct (Task_save _ tasks).
Qed.

Lemma updateTask_cases now uid id (b : TaskBody) tasks :
  updateTask now uid id b tasks =
  if isPast (combine (b_date b) (b_time b)) now then (pastDue, tasks)
  else match updateTask_store uid id (updateOf b) tasks with
       | inr answer => answer
       | inl error => (errorHandler error, tasks)
       end.
Proof.
  unfold updateTask, updateTask_checks.
  by destruct (isPast _ now).
Qed.

(** C5 (amended).  With a due instant (date and time combined)
    strictly before the clock, [createTask] answers 400 and stores
    nothing, whatever the other fields, and [updateTask] answers 400
    with the same message and changes nothing.  With a due instant that
    is not before the clock, strictly after it (even by one second) or
    equal to it, the check rejects neither: [createTask] does not answer
    with the past-due error, and with its required fields and a document
    that passes the schema validators it answers 201 and stores the task
    with that due instant; [updateTask] does not answer with the
    past-due error, and when the update passes the validators and the
    task is the caller's it answers 200 and stores the update with that
    due instant. *)
Theorem due_instant_check now uid fresh id (b : TaskBody) tasks (d : Z) :
  combine (b_date b) (b_time b) = Some d ->
  (d < now ->
   status (fst (createTask now uid fresh b tasks)) = 400
   /\ snd (createTask now uid fresh b tasks) = tasks
   /\ (requiredFields b = true -> fst (createTask now uid fresh b tasks) = pastDue)
   /\ updateTask now uid id b tasks = (pastDue, tasks))
  /\ (now <= d ->
      fst (createTask now uid fresh b tasks) <> pastDue
      /\ (requiredFields b = true ->
          taskSchema_errors (newTaskOf uid fresh b) = [] ->
          createTask now uid fresh b tasks
          = (created (newTaskOf uid fresh b), tasks ++ [newTaskOf uid fresh b])
          /\ status (created (newTaskOf uid fresh b)) = 201
          /\ dueDate (newTaskOf uid fresh b) = Some d)
      /\ fst (updateTask now uid id b tasks) <> pastDue
      /\ (update_errors (updateOf b) = [] ->
          forall t, findOne (byIdAndOwner id uid) tasks = Some t ->
          updateTask now uid id b tasks
          = (updated (applyUpdate (updateOf b) t),
             updateFirst (byIdAndOwner id uid) (applyUpdate (updateOf b)) tasks)
          /\ status (updated (applyUpdate (updateOf b) t)) = 200
          /\ dueDate (applyUpdate (updateOf b) t) = Some d)).
Proof.
  intros Hd. split.
  - intros Hlt.
    assert (Hp : isPast (combine (b_date b) (b_time b)) now = true).
    { rewrite Hd. simpl. by apply Z.ltb_lt. }
    rewrite createTask_cases, updateTask_cases, Hp.
    destruct (requiredFields b); simpl; repeat split; auto; discriminate.
  - intros Hle.
    assert (Hp : isPast (combine (b_date b) (b_time b)) now = false).
    { rewrite Hd. simpl. apply Z.ltb_ge. lia. }
    split; [|split; [|split]].
    + rewrite createTask_cases, Hp.
      destruct (requiredFields b); cbn [negb fst]; [|discriminate].
      unfold Task_save.
      destruct (taskSchema_errors (newTaskOf uid fresh b)); cbn [fst]; discriminate.
    + intros Hreq Hv. split; [|split].
      * rewrite createTask_cases, Hreq, Hp. simpl.
        unfold Task_save. by rewrite Hv.
      * reflexivity.
      * exact Hd.
    + rewrite updateTask_answer, Hp, Hd.
      destruct (update_errors (updateOf b)); [|cbn [fst]; discriminate].
      destruct (findOne (byIdAndOwner id uid) tasks); cbn [fst]; discriminate.
    + intros Hv t Ht. split; [|split].
      * by rewrite updateTask_answer, Hp, Hd, Hv, Ht.
      * reflexivity.
      * exact Hd.
Qed.

(** C6 (amended).  [createTask] requires the status: a request without
    it, or with an empty one, is answered 400 and nothing is stored,
    whatever its other fields.  A request answered 201 carried a status
    of the enumeration, and the stored task has that status; the default
    of the schema is not reached through this handler. *)
Theorem createTask_requires_status now uid fresh (b : TaskBody) tasks :
  (truthy (b_status b) = false ->
   createTask now uid fresh b tasks = (missingFields, tasks))
  /\ (status (fst (createTask now uid fresh b tasks)) = 201 ->
      exists s, b_status b = Some s /\ s <> [] /\ inEnum s = true
                /\ task_status (newTaskOf uid fresh b) = Some s
                /\ createTask now uid fresh b tasks
                   = (created (newTaskOf uid fresh b), tasks ++ [newTaskOf uid fresh b])).
Proof.
  rewrite createTask_cases. split.
  - intros Hs. unfold requiredFields. rewrite Hs, !andb_false_r. reflexivity.
  - destruct (requiredFields b) eqn:Hreq; simpl; [|discriminate].
    destruct (isPast _ now); simpl; [discriminate|].
    unfold Task_save.
    destruct (taskSchema_errors (newTaskOf uid fresh b)) as [|m ms] eqn:Hv; simpl.
    2:{ unfold throw. simpl. discriminate. }
    intros _. unfold requiredFields in Hreq.
    apply andb_true_iff in Hreq as [_ Hs].
    destruct (b_status b) as [s|] eqn:Es; [|discriminate].
    exists s. apply truthy_Some in Hs.
    repeat split; auto.
    unfold taskSchema_errors in Hv. simpl in Hv. rewrite Es in Hv.
    destruct (inEnum s); [reflexivity|].
    repeat (apply app_eq_nil in Hv as [? Hv]). discriminate.
Qed.


End DueInstant.

(** C6, as stated, fails on the code: a request with a title, a date
    and a time that pass every check, and no status, is answered 400
    and no task is created. *)
Lemma createTask_without_status_answers_400 :
  let b := mkTaskBody (Some (js "Buy milk")) None (Some (js "2024-10-04"))
                      (Some (js "10:00")) None in
  combine (H := Demo.env) (b_date b) (b_time b) = Some 1728036000000
  /\ createTask (H := Demo.env) 1700000000000 1 12 b [] = (missingFields, [])
  /\ status missingFields <> 201.
Proof. vm_compute. repeat split; discriminate. Qed.

(** C5, as stated, fails on the code: the validation is not that the
    due instant be strictly in the future.  A task due on 2024-10-04 at
    10:00 is accepted at that very instant, by [createTask] (201) and by
    [updateTask] (200). *)
Lemma due_instant_equal_to_clock_is_accepted :
  let b := mkTaskBody (Some (js "Buy milk")) None (Some (js "2024-10-04"))
                      (Some (js "10:00")) (Some (js "todo")) in
  let now := 1728036000000 in
  combine (H := Demo.env) (b_date b) (b_time b) = Some now
  /\ ~ now < now
  /\ createTask (H := Demo.env) now 1 12 b []
     = (created (newTaskOf (H := Demo.env) 1 12 b), [newTaskOf (H := Demo.env) 1 12 b])
  /\ status (fst (createTask (H := Demo.env) now 1 12 b [])) = 201
  /\ status (fst (updateTask (H := Demo.env) now 1 10 b [Demo.task1])) = 200.
Proof.
  split; [vm_compute; reflexivity|]. split; [lia|].
  split; [vm_compute; reflexivity|]. split; vm_compute; reflexivity.
Qed.

(** A task due on 2024-10-04 at 10:00 (1728036000000), created or
    updated one second after, one second before, and at that instant. *)
Lemma due_instant_check_witness :
  let b := mkTaskBody (Some (js "Buy milk")) None (Some (js "2024-10-04"))
                      (Some (js "10:00")) (Some (js "todo")) in
  let new := newTaskOf (H := Demo.env) 1 12 b in
  let changed := applyUpdate (updateOf (H := Demo.env) b) Demo.task1 in
  createTask (H := Demo.env) 1728036001000 1 12 b [] = (pastDue, [])
  /\ updateTask (H := Demo.env) 1728036001000 1 10 b [Demo.task1]
     = (pastDue, [Demo.task1])
  /\ createTask (H := Demo.env) 1728035999000 1 12 b [] = (created new, [new])
  /\ updateTask (H := Demo.env) 1728035999000 1 10 b [Demo.task1]
     = (updated changed, [changed])
  /\ createTask (H := Demo.env) 1728036000000 1 12 b [] = (created new, [new])
  /\ updateTask (H := Demo.env) 1728036000000 1 10 b [Demo.task1]
     = (updated changed, [changed]).
Proof.
  intros b new changed.
  destruct (due_instant_check (H := Demo.env) 1728036001000 1 12 10 b []
              1728036000000 eq_refl) as [Hpast _].
  destruct (due_instant_check (H := Demo.env) 1728036001000 1 12 10 b [Demo.task1]
              1728036000000 eq_refl) as [Hpast' _].
  destruct (due_instant_check (H := Demo.env) 1728035999000 1 12 10 b []
              1728036000000 eq_refl) as [_ Hfuture].
  destruct (due_instant_check (H := Demo.env) 1728035999000 1 12 10 b [Demo.task1]
              1728036000000 eq_refl) as [_ Hfuture'].
  destruct (due_instant_check (H := Demo.env) 1728036000000 1 12 10 b []
              1728036000000 eq_refl) as [_ Hequal].
  destruct (due_instant_check (H := Demo.env) 1728036000000 1 12 10 b [Demo.task1]
              1728036000000 eq_refl) as [_ Hequal'].
  destruct (Hpast ltac:(lia)) as (_ & Hs & Hc & _).
  destruct (Hpast' ltac:(lia)) as (_ & _ & _ & Hu).
  destruct (Hfuture ltac:(lia)) as (_ & Hcf & _).
  destruct (Hfuture' ltac:(lia)) as (_ & _ & _ & Huf).
  destruct (Hequal ltac:(lia)) as (_ & Hce & _).
  destruct (Hequal' ltac:(lia)) as (_ & _ & _ & Hue).
  destruct (Hcf eq_refl eq_refl) as [Hsave _].
  destruct (Huf eq_refl Demo.task1 eq_refl) as [Hupd _].
  destruct (Hce eq_refl eq_refl) as [Hsave' _].
  destruct (Hue eq_refl Demo.task1 eq_refl) as [Hupd' _].
  specialize (Hc eq_refl).
  split; [|split; [exact Hu|split; [exact Hsave|split; [exact Hupd|split;
    [exact Hsave'|exact Hupd']]]]].
  rewrite (surjective_pairing (createTask 1728036001000 1 12 b [])).
  by rewrite Hc, Hs.
Defined.

(** A request without status is refused. *)
Lemma createTask_requires_status_witness :
  let b := mkTaskBody (Some (js "Buy milk")) None (Some (js "2024-10-04"))
                      (Some (js "10:00")) None in
  createTask (H := Demo.env) 1700000000000 1 12 b [] = (missingFields, []).
Proof.
  intros b.
  destruct (createTask_requires_status (H := Demo.env) 1700000000000 1 12 b [])
    as [Hmissing _].
  apply Hmissing. reflexivity.
Defined.


(** ** Statistics *)

Section Stats.

Implicit Types (k : jsstring) (g : list (jsstring * nat)) (docs : list TaskDoc).

Lemma jseqb_true (s t : jsstring) : JS.eqb s t = true <-> s = t.
Proof. unfold JS.eqb. apply bool_decide_eq_true. Qed.

Lemma jseqb_refl (s : jsstring) : JS.eqb s s = true.
Proof. by apply jseqb_true. Qed.

Lemma countOf_bump k k' g :
  countOf k (bump k' g) = ((if JS.eqb k k' then 1 else 0) + countOf k g)%nat.
Proof.
  unfold countOf. induction g as [|[k0 n] r IH]; simpl.
  - by destruct (JS.eqb k k').
  - destruct (JS.eqb k' k0) eqn:E; simpl.
    + apply jseqb_true in E as ->. by destruct (JS.eqb k k0).
    + destruct (JS.eqb k k0) eqn:E0; simpl; [|exact IH].
      apply jseqb_true in E0 as ->.
      destruct (JS.eqb k0 k') eqn:E1; [|reflexivity].
      apply jseqb_true in E1 as ->. by rewrite jseqb_refl in E.
Qed.

Lemma bump_keys k k0 g :
  k0 ∈ List.map fst (bump k g) <-> k0 = k \/ k0 ∈ List.map fst g.
Proof.
  induction g as [|[k1 n] r IH]; simpl.
  - rewrite list_elem_of_singleton, elem_of_nil. tauto.
  - destruct (JS.eqb k k1) eqn:E; simpl.
    + apply jseqb_true in E as ->. rewrite elem_of_cons. tauto.
    + rewrite !elem_of_cons, IH. tauto.
Qed.

Lemma bump_wellGrouped k g : wellGrouped g -> wellGrouped (bump k g).
Proof.
  unfold wellGrouped. induction g as [|[k1 n] r IH]; simpl; intros [Hnd Hpos].
  - split; [apply NoDup_singleton | repeat constructor].
  - apply NoDup_cons in Hnd as [Hnotin Hnd]. inversion Hpos as [|? ? Hn Hpos']; subst.
    destruct (JS.eqb k k1) eqn:E; simpl.
    + split; [by apply NoDup_cons | constructor; simpl in *; [lia | done]].
    + destruct (IH (conj Hnd Hpos')) as [IHnd IHpos].
      split; [|by constructor].
      apply NoDup_cons. split; [|exact IHnd].
      rewrite bump_keys. intros [->|Hin]; [by rewrite jseqb_refl in E | done].
Qed.

(** In well-grouped groups, the pairs are the recorded counts. *)
Lemma wellGrouped_elem k (n : nat) g :
  wellGrouped g -> ((k, n) ∈ g <-> (0 < n)%nat /\ countOf k g = n).
Proof.
  unfold wellGrouped, countOf. induction g as [|[k1 n1] r IH]; simpl; intros [Hnd Hpos].
  - rewrite elem_of_nil. split; [tauto | lia].
  - apply NoDup_cons in Hnd as [Hnotin Hnd]. inversion Hpos as [|? ? Hn Hpos']; subst.
    specialize (IH (conj Hnd Hpos')). rewrite elem_of_cons.
    destruct (JS.eqb k k1) eqn:E; simpl in *.
    + apply jseqb_true in E as ->. split.
      * intros [Heq|Hin]; [injection Heq as ->; auto|].
        exfalso. apply Hnotin. apply list_elem_of_fmap. by exists (k1, n).
      * intros [_ ->]. by left.
    + rewrite IH. split; [intros [Heq|?]; [|done] | tauto].
      injection Heq as -> ->. by rewrite jseqb_refl in E.
Qed.

Lemma groupStage_from docs g k :
  wellGrouped g ->
  let g' := fold_left (fun groups t => bump (groupKey t) groups) docs g in
  wellGrouped g' /\ countOf k g' = (countOf k g + tally k docs)%nat.
Proof.
  revert g. induction docs as [|t docs IH]; simpl; intros g Hwf.
  - split; [exact Hwf | unfold tally; simpl; lia].
  - destruct (IH (bump (groupKey t) g) (bump_wellGrouped _ _ Hwf)) as [IHwf IHc].
    split; [exact IHwf|]. rewrite IHc, countOf_bump. unfold tally. simpl.
    destruct (JS.eqb k (groupKey t)); simpl; lia.
Qed.

Lemma groupStage_spec docs k :
  wellGrouped (groupStage docs) /\ countOf k (groupStage docs) = tally k docs.
Proof.
  destruct (groupStage_from docs [] k) as [Hwf Hc].
  - split; [apply NoDup_nil_2 | constructor].
  - split; [exact Hwf | exact Hc].
Qed.

Lemma insertGroup_perm (h : jsstring * nat) g : insertGroup h g ≡ₚ h :: g.
Proof.
  induction g as [|a r IH]; simpl; [reflexivity|].
  destruct (snd a <=? snd h)%nat; [reflexivity|].
  rewrite IH. apply perm_swap.
Qed.

Lemma sortStage_perm g : sortStage g ≡ₚ g.
Proof.
  induction g as [|h r IH]; simpl; [reflexivity|].
  rewrite insertGroup_perm. by constructor.
Qed.

Lemma insertGroup_sorted (h : jsstring * nat) g :
  Sorted countDesc g -> Sorted countDesc (insertGroup h g).
Proof.
  induction g as [|a r IH]; simpl; intros Hs.
  - repeat constructor.
  - destruct (Nat.leb_spec (snd a) (snd h)) as [Hle|Hgt].
    + constructor; [exact Hs | constructor; exact Hle].
    + inversion Hs as [|? ? Hr Hhd]; subst. constructor; [by apply IH|].
      destruct r as [|b r']; simpl.
      * constructor. unfold countDesc. lia.
      * destruct (Nat.leb_spec (snd b) (snd h)).
        -- constructor. unfold countDesc. lia.
        -- inversion Hhd; subst. by constructor.
Qed.

Lemma sortStage_sorted g : StronglySorted countDesc (sortStage g).
Proof.
  apply Sorted_StronglySorted.
  - intros a b c. unfold countDesc. lia.
  - induction g as [|h r IH]; simpl; [constructor | by apply insertGroup_sorted].
Qed.

Lemma map_pair_id g : List.map (fun s : jsstring * nat => (fst s, snd s)) g = g.
Proof. induction g as [|[a b] r IH]; simpl; [reflexivity | by rewrite IH]. Qed.

Lemma groupStage_keys docs :
  groupStage docs
  = fold_left (fun groups key => bump key groups) (List.map groupKey docs) [].
Proof.
  unfold groupStage. generalize (@nil (jsstring * nat)).
  induction docs as [|t docs IH]; simpl; intros g; [reflexivity | apply IH].
Qed.

(** The documents of group [k] are those whose status is [k], and those
    without status when [k] is the label [sin-estado]. *)
Lemma tally_status k docs :
  tally k docs
  = length (List.filter (fun t => match task_status t with
                                  | Some s => bool_decide (s = k)
                                  | None => bool_decide (k = js "sin-estado")
                                  end) docs).
Proof.
  unfold tally. f_equal. apply List.filter_ext. intros t.
  unfold groupKey, JS.eqb. destruct (task_status t) as [s|]; simpl; [|reflexivity].
  apply bool_decide_ext. split; congruence.
Qed.

(** C8.  [getTaskStats] answers 200 with the number of the tasks of the
    owner as [total], counted by its own query, and with [byStatus] made
    of one pair per label present among these tasks, where a task counts
    under its own status and a task without status under the label
    [sin-estado]: a pair [(k, n)] is listed exactly when [n] is positive
    and is the number of the owner's tasks whose status is [k] (or, for
    [k] the label [sin-estado], that have no status); no label occurs
    twice, and the counts do not increase along the list.  For tasks of
    statuses [todo], [todo], [done] the answer is total 3 with [todo]
    at 2 then [done] at 1; for no task it is total 0 and no pair. *)
Theorem task_stats uid (tasks : list TaskDoc) :
  let owned := List.filter (byOwner uid) tasks in
  exists byStatus,
    getTaskStats uid tasks = mkResponse 200 (JStats (length owned) byStatus)
    /\ (forall k n,
          (k, n) ∈ byStatus <->
          (0 < n)%nat
          /\ length (List.filter (fun t => match task_status t with
                                           | Some s => bool_decide (s = k)
                                           | None => bool_decide (k = js "sin-estado")
                                           end) owned) = n)
    /\ NoDup (List.map fst byStatus)
    /\ StronglySorted countDesc byStatus
    /\ (List.map task_status owned = [Some (js "todo"); Some (js "todo"); Some (js "done")] ->
        length owned = 3%nat /\ byStatus = [(js "todo", 2%nat); (js "done", 1%nat)])
    /\ (owned = [] -> length owned = 0%nat /\ byStatus = []).
Proof.
  intros owned. exists (sortStage (groupStage owned)).
  split; [|split; [|split; [|split; [|split]]]].
  - unfold getTaskStats, Task_aggregate, Task_countDocuments. fold owned.
    by rewrite map_pair_id.
  - intros k n. rewrite sortStage_perm.
    destruct (groupStage_spec owned k) as [Hwf Hc].
    rewrite (wellGrouped_elem k n _ Hwf), Hc, tally_status. reflexivity.
  - rewrite sortStage_perm. apply (groupStage_spec owned []).
  - apply sortStage_sorted.
  - intros Hst.
    assert (Hk : List.map groupKey owned = [js "todo"; js "todo"; js "done"]).
    { change (List.map groupKey owned)
        with (List.map (fun t => default sentinel (task_status t)) owned).
      rewrite <- (List.map_map task_status (default sentinel)), Hst. reflexivity. }
    split.
    + rewrite <- (length_map task_status), Hst. reflexivity.
    + rewrite groupStage_keys, Hk. reflexivity.
  - intros ->. split; reflexivity.
Qed.

End Stats.

(** Two open tasks and a done one of user 1, among tasks of others. *)
Lemma task_stats_witness :
  let done1 := mkTask 12 1 (js "Call") None (js "2024-10-04") (js "10:00")
                      (Some 1728036000000) (Some (js "done")) in
  getTaskStats 1 [Demo.task1; Demo.task2; Demo.task1; done1]
  = mkResponse 200 (JStats 3 [(js "todo", 2%nat); (js "done", 1%nat)]).
Proof.
  intros done1.
  destruct (task_stats 1 [Demo.task1; Demo.task2; Demo.task1; done1])
    as (byStatus & Hr & _ & _ & _ & Hex & _).
  destruct (Hex eq_refl) as [_ ->]. exact Hr.
Defined.

(** ** The title filter *)

Section TitleFilter.
Context `{Env}.

Import TitleRegex.

Lemma parse_literal (p : jsstring) :
  forallb (fun c => negb (metachar c)) p = true ->
  parse p = Some (List.map Lit p).
Proof.
  induction p as [|c r IH]; simpl; [reflexivity|].
  intros Hp. apply andb_true_iff in Hp as [Hc Hr]. rewrite (IH Hr).
  apply negb_true_iff in Hc.
  destruct (c =? 46)%N eqn:E; [|by rewrite Hc].
  apply N.eqb_eq in E as ->. discriminate.
Qed.

Lemma matchHere_literal (p s : jsstring) :
  matchHere (List.map Lit p) s = prefixNoCase p s.
Proof.
  revert s. induction p as [|c r IH]; intros [|d s]; simpl; try reflexivity.
  by rewrite IH.
Qed.

Lemma search_literal (p s : jsstring) :
  search (List.map Lit p) s = containsNoCase p s.
Proof.
  induction s as [|d s IH]; simpl; rewrite matchHere_literal; [reflexivity|].
  by rewrite IH.
Qed.

(** For a title parameter free of metacharacters the filter is the
    search of the parameter in the title, letters compared without case,
    among the tasks of the owner. *)
Lemma title_filter_of_literal uid (p : jsstring) (tasks : list TaskDoc) :
  p <> [] ->
  forallb (fun c => negb (metachar c)) p = true ->
  getUserTasks uid (mkTaskQuery None None None None (Some p)) tasks
  = Some (mkResponse 200
            (JTasks (sortTasks 1
                       (List.filter (fun t => byOwner uid t && containsNoCase p (title t))
                                    tasks)))).
Proof.
  intros Hne Hlit. unfold getUserTasks, Task_find, buildFilter, sortOrder.
  cbn [q_status q_fromDate q_toDate q_order q_title].
  apply truthy_Some in Hne. rewrite Hne.
  cbn [truthy orb invalidBound f_dueDate f_title]. cbv iota.
  rewrite (parse_literal p Hlit).
  rewrite bool_decide_eq_false_2 by discriminate. do 4 f_equal.
  apply filter_ext. intros t. unfold matchesFilter. simpl.
  by rewrite search_literal, !andb_true_r.
Qed.

End TitleFilter.

(** C9, the failing input.  With the title parameter [.] the query
    returns the task titled [abc] of the owner, although its title does
    not contain a full stop: the parameter is used as a pattern, in
    which [.] stands for any character. *)
Theorem title_filter_matches_as_pattern :
  TitleRegex.containsNoCase (js ".") (title Demo.task2) = false
  /\ getUserTasks (H := Demo.env) 2 (mkTaskQuery None None None None (Some (js ".")))
       [Demo.task1; Demo.task2]
     = Some (mkResponse 200 (JTasks [Demo.task2])).
Proof. split; reflexivity. Qed.

(** * Further properties *)

(** ** More on the login throttle *)

Section ThrottleMore.
Context `{Env}.

Implicit Types (la : gmap jsstring Attempt) (mail pw : jsstring).

Lemma isLocked_lock (a b : Attempt) now :
  lockedUntil a = lockedUntil b -> isLocked a now = isLocked b now.
Proof. unfold isLocked. by intros ->. Qed.

(** X1.  While the failures counted for a registered email stay below
    five, wrong passwords are answered 401 whenever they come, never
    423: each adds one to the count and the lock is left as it was. *)
Theorem failures_below_five_never_lock mail users user la (reqs : list LoginReq) :
  findOne (byEmail mail) users = Some user ->
  mail <> [] ->
  Forall (fun r => given r <> []
                   /\ bcrypt_compare (given r) (user_password user) = false
                   /\ isLocked (entryOf la mail) (at_check r) = false) reqs ->
  (count (entryOf la mail) + length reqs < 5)%nat ->
  Forall (fun resp => status resp = 401) (fst (replay mail users reqs la))
  /\ entryOf (snd (replay mail users reqs la)) mail
     = mkAttempt (count (entryOf la mail) + length reqs) (lockedUntil (entryOf la mail)).
Proof.
  intros Hu Hm. revert la. induction reqs as [|r rest IH]; intros la Hreqs Hlt.
  - simpl. split; [constructor|]. rewrite Nat.add_0_r. by destruct (entryOf la mail).
  - inversion Hreqs as [|? ? (Hp & Hc & Hl) Hrest]; subst.
    rewrite replay_cons. cbn [fst snd].
    destruct (login_wrong (at_check r) (at_later r) mail (given r) users la user
                Hu Hm Hp Hl Hc) as (Hs & _ & _ & Ha). cbv zeta in Hs, Ha.
    simpl in Hlt.
    assert (He : entryOf (attempts (login (at_check r) (at_later r) (Some mail)
                                      (Some (given r)) users la)) mail
                 = mkAttempt (S (count (entryOf la mail))) (lockedUntil (entryOf la mail))).
    { rewrite Ha, entryOf_insert.
      destruct (Nat.leb_spec 5 (S (count (entryOf la mail)))); [lia|reflexivity]. }
    destruct (IH (attempts (login (at_check r) (at_later r) (Some mail)
                              (Some (given r)) users la))) as [IHs IHe].
    + eapply Forall_impl; [exact Hrest|]. intros r' (Hp' & Hc' & Hl').
      repeat split; auto. rewrite <- Hl'. apply isLocked_lock. by rewrite He.
    + rewrite He. simpl. lia.
    + split; [by constructor|]. rewrite IHe, He. simpl. f_equal. lia.
Qed.

(** A login answered 200 named a user, was not locked and compared right. *)
Lemma login_200_inv now later (mail pw : option jsstring) users la :
  status (response (login now later mail pw users la)) = 200 ->
  exists m p user,
    mail = Some m /\ pw = Some p /\ m <> [] /\ p <> []
    /\ findOne (byEmail m) users = Some user
    /\ isLocked (entryOf la m) now = false
    /\ bcrypt_compare p (user_password user) = true.
Proof.
  intros Hs.
  destruct (truthy mail) eqn:Tm; [destruct (truthy pw) eqn:Tp|];
    try (exfalso; unfold login in Hs; rewrite Tm, ?Tp in Hs; discriminate).
  destruct mail as [m|]; [|discriminate]. destruct pw as [p|]; [|discriminate].
  apply truthy_Some in Tm, Tp.
  destruct (findOne (byEmail m) users) as [user|] eqn:Hu.
  2:{ exfalso. unfold login in Hs. apply truthy_Some in Tm, Tp.
      rewrite Tm, Tp in Hs. simpl in Hs. rewrite Hu in Hs. discriminate. }
  destruct (isLocked (entryOf la m) now) eqn:Hl.
  { destruct (login_locked now later m p users la user Hu Tm Tp Hl) as [E _].
    rewrite E in Hs. discriminate. }
  destruct (bcrypt_compare p (user_password user)) eqn:Hc.
  2:{ destruct (login_wrong now later m p users la user Hu Tm Tp Hl Hc) as [E _].
      rewrite E in Hs. discriminate. }
  exists m, p, user. by repeat split.
Qed.

(** X2.  A login answered 200 leaves no lock in force on the table
    entry it used, which is the entry under the email of the request as
    a property key (the email itself when it is a string, the key
    ["[object Object]"] when it is an object): that entry was not locked
    at the clock of the lock test, its count is 0 afterwards and its
    [lockedUntil], left as it was, is [null] or not after that clock, so
    the entry does not lock from then on.  Nothing is said of the other
    entries, which the request leaves as they were. *)
Theorem success_leaves_no_active_lock now later (mail : EmailValue)
  (pw : option jsstring) users la :
  let o := loginAny now later mail pw users la in
  status (response o) = 200 ->
  let before := entryOf la (emailKey mail) in
  let after := entryOf (attempts o) (emailKey mail) in
  isLocked before now = false
  /\ count after = 0%nat
  /\ lockedUntil after = lockedUntil before
  /\ (forall t, now <= t -> isLocked after t = false)
  /\ (forall k, k <> emailKey mail -> attempts o !! k = la !! k).
Proof.
  intros o Hs before after.
  destruct (loginAny_200_inv now later mail pw users la Hs)
    as (p & user & -> & Hp & Hm & Hu & Hl & Hc).
  destruct (loginAny_right now later mail p users la user Hu Hm Hp Hl Hc)
    as (_ & _ & _ & Ha).
  fold o in Ha. unfold after, before. rewrite Ha, entryOf_insert.
  split; [exact Hl|]. split; [reflexivity|]. split; [reflexivity|]. split.
  - intros t Ht. unfold isLocked in *. simpl.
    destruct (lockedUntil (entryOf la (emailKey mail))) as [l|]; simpl in *; [|reflexivity].
    destruct (Z.eqb_spec l 0); simpl in *; [reflexivity|].
    apply bool_decide_eq_false in Hl. apply bool_decide_eq_false. lia.
  - intros k Hk. by apply lookup_insert_ne.
Qed.

(** X3.  A login for an email that names no user is answered exactly as
    a wrong password for a registered email whose entry is not locked
    (401 with the same body); the unknown email leaves the table as it
    was and no comparison is made for it. *)
Theorem unknown_email_answers_like_wrong_password
  now later now' later' mail pw mail' pw' users la la' user :
  findOne (byEmail mail) users = Some user ->
  mail <> [] -> pw <> [] ->
  isLocked (entryOf la mail) now = false ->
  bcrypt_compare pw (user_password user) = false ->
  findOne (byEmail mail') users = None ->
  mail' <> [] -> pw' <> [] ->
  let known := login now later (Some mail) (Some pw) users la in
  let unknown := login now' later' (Some mail') (Some pw') users la' in
  response unknown = response known
  /\ status (response unknown) = 401
  /\ attempts unknown = la' /\ compared unknown = [] /\ cookie unknown = None.
Proof.
  intros Hu Hm Hp Hl Hc Hu' Hm' Hp' known unknown.
  assert (E : unknown = mkLoginOutcome (mkResponse 401 (JMessage "Credenciales inválidas"))
                          None la' []).
  { unfold unknown, login. apply truthy_Some in Hm', Hp'. rewrite Hm', Hp'. simpl.
    by rewrite Hu'. }
  assert (E' : response known = mkResponse 401 (JMessage "Credenciales inválidas")).
  { unfold known, login. apply truthy_Some in Hm, Hp. rewrite Hm, Hp. simpl.
    rewrite Hu, lazy_entry_lookup. simpl. by rewrite Hl, Hc. }
  rewrite E, E'. by repeat split.
Qed.

End ThrottleMore.

(** Alice mistypes four times, at any pace. *)
Lemma failures_below_five_never_lock_witness :
  let mail := js "alice@example.com" in
  let wrong t := mkLoginReq t (t + 1) (js "guess") in
  let reqs := [wrong 1; wrong 2; wrong 3; wrong 900000] in
  Forall (fun resp => status resp = 401)
         (fst (replay (H := Demo.env) mail [Demo.alice] reqs ∅))
  /\ entryOf (snd (replay (H := Demo.env) mail [Demo.alice] reqs ∅)) mail
     = mkAttempt 4 None.
Proof.
  intros mail wrong reqs.
  destruct (failures_below_five_never_lock (H := Demo.env) mail [Demo.alice]
              Demo.alice ∅ reqs) as [H401 Hentry].
  - reflexivity.
  - discriminate.
  - repeat constructor; discriminate.
  - vm_compute. lia.
  - split; [exact H401|]. rewrite Hentry. reflexivity.
Defined.

(** Alice was locked out until 900006; she logs in at that instant: the
    stale lock stays in her entry, the count goes back to 0, and the
    entry does not lock at any later time, such as 1000000. *)
Lemma success_leaves_no_active_lock_witness :
  let o := loginAny (H := Demo.env) 900006 900007 (EmailString (js "alice@example.com"))
                    (Some (js "Secret!1")) [Demo.alice] Sample.lockedOut in
  entryOf Sample.lockedOut (js "alice@example.com") = mkAttempt 5 (Some 900006)
  /\ entryOf (attempts o) (js "alice@example.com") = mkAttempt 0 (Some 900006)
  /\ isLocked (entryOf (attempts o) (js "alice@example.com")) 1000000 = false.
Proof.
  intros o.
  destruct (success_leaves_no_active_lock (H := Demo.env) 900006 900007
              (EmailString (js "alice@example.com")) (Some (js "Secret!1"))
              [Demo.alice] Sample.lockedOut)
    as (_ & Hcount & Huntil & Hfree & _).
  - reflexivity.
  - split; [reflexivity|]. split.
    + fold o in Hcount, Huntil. cbn [emailKey] in Hcount, Huntil.
      destruct (entryOf (attempts o) (js "alice@example.com")) as [c l].
      simpl in Hcount, Huntil. by rewrite Hcount, Huntil.
    + apply (Hfree 1000000). lia.
Defined.

(** Bob is unknown where only Alice is registered. *)
Lemma unknown_email_answers_like_wrong_password_witness :
  response (login (H := Demo.env) 5 6 (Some (js "bob@example.com")) (Some (js "x"))
              [Demo.alice] ∅)
  = response (login (H := Demo.env) 1 2 (Some (js "alice@example.com")) (Some (js "guess"))
                [Demo.alice] ∅).
Proof.
  destruct (unknown_email_answers_like_wrong_password (H := Demo.env) 1 2 5 6
              (js "alice@example.com") (js "guess") (js "bob@example.com") (js "x")
              [Demo.alice] ∅ ∅ Demo.alice) as [Heq _].
  - reflexivity.
  - discriminate.
  - discriminate.
  - reflexivity.
  - reflexivity.
  - reflexivity.
  - discriminate.
  - discriminate.
  - exact Heq.
Defined.

(** ** More on tokens and the guarded routes *)

Section Guard.
Context `{Env}.

Lemma jwt_verify_ok now (token : Token) secret (c : Claims) :
  jwt_verify now token secret = inr c <->
  claims token = c /\ signature token = hmac secret c /\ seconds now < exp c.
Proof.
  unfold jwt_verify, JS.eqb.
  destruct (bool_decide (signature token = hmac secret (claims token))) eqn:Es; simpl.
  - apply bool_decide_eq_true in Es.
    destruct (Z.leb_spec (exp (claims token)) (seconds now)).
    + split; [discriminate|]. intros (<- & _ & Hlt). lia.
    + split; [intros [= <-]; by repeat split|]. by intros (-> & _ & _).
  - apply bool_decide_eq_false in Es.
    split; [discriminate|]. intros (<- & Hs & _). contradiction.
Qed.

Lemma seconds_mono (t t' : Z) : t <= t' -> seconds t <= seconds t'.
Proof. intros Hle. unfold seconds. apply Z.div_le_mono; lia. Qed.

Lemma authMiddleware_signed now method (c : Claims) :
  method <> "OPTIONS"%string ->
  seconds now < exp c ->
  authMiddleware now method (Some (mkToken c (hmac JWT_SECRET c))) = inr (Some c).
Proof.
  intros Hne Hlt. unfold authMiddleware.
  apply String.eqb_neq in Hne. rewrite Hne.
  assert (Hok : jwt_verify now (mkToken c (hmac JWT_SECRET c)) JWT_SECRET = inr c)
    by (by apply jwt_verify_ok).
  by rewrite Hok.
Qed.

(** X4.  The auth middleware attaches claims to the request exactly
    when the request is not a preflight and its cookie holds a token
    with these claims, signed with the secret of the server, at a clock
    second before the expiry of the token. *)
Theorem authMiddleware_attaches_only_verified_claims now method cookie (c : Claims) :
  authMiddleware now method cookie = inr (Some c) <->
  method <> "OPTIONS"%string
  /\ cookie = Some (mkToken c (hmac JWT_SECRET c))
  /\ seconds now < exp c.
Proof.
  unfold authMiddleware.
  destruct (String.eqb_spec method "OPTIONS") as [->|Hne].
  - split; [discriminate|]. intros (Hx & _). contradiction.
  - destruct cookie as [token|].
    2:{ split; [discriminate|]. intros (_ & Hx & _). discriminate. }
    destruct (jwt_verify now token JWT_SECRET) as [e|d] eqn:Ev.
    + split; [discriminate|]. intros (_ & [= ->] & Hlt).
      assert (Hok : jwt_verify now (mkToken c (hmac JWT_SECRET c)) JWT_SECRET = inr c)
        by (by apply jwt_verify_ok).
      congruence.
    + apply jwt_verify_ok in Ev as (Hc & Hs & Hlt). split.
      * intros [= <-]. repeat split; auto.
        destruct token as [tc ts]. simpl in *. by subst.
      * intros (_ & [= ->] & _). simpl in Hc. by subst.
Qed.

(** X5.  A cookie the auth middleware has refused is refused at every
    later instant with the same answer: an expired token does not become
    valid again, and a signature that does not verify never does. *)
Theorem refused_cookie_stays_refused now later method cookie (rejected : Response) :
  authMiddleware now method cookie = inl rejected ->
  now <= later ->
  authMiddleware later method cookie = inl rejected.
Proof.
  unfold authMiddleware. intros Hv Hle.
  destruct (String.eqb method "OPTIONS"); [discriminate|].
  destruct cookie as [token|]; [|exact Hv].
  destruct (jwt_verify now token JWT_SECRET) as [e|c] eqn:Ev; [|discriminate].
  assert (Hl : jwt_verify later token JWT_SECRET = inl e).
  { revert Ev. unfold jwt_verify.
    destruct (negb (JS.eqb (signature token) (hmac JWT_SECRET (claims token)))); [auto|].
    destruct (Z.leb_spec (exp (claims token)) (seconds now)) as [Hexp|]; [|discriminate].
    pose proof (seconds_mono now later Hle).
    destruct (Z.leb_spec (exp (claims token)) (seconds later)); [auto | lia]. }
  by rewrite Hl.
Qed.

(** X6.  The session handler and the auth middleware decide alike on a
    cookie: [session] answers 200 with the claims the middleware would
    attach, and 401 whenever the middleware would answer 401. *)
Theorem session_agrees_with_authMiddleware now method cookie :
  method <> "OPTIONS"%string ->
  match authMiddleware now method cookie with
  | inr (Some c) => session now cookie = mkResponse 200 (JSession true (Some c))
  | inr None => False
  | inl rejected =>
      status rejected = 401 /\ session now cookie = mkResponse 401 (JSession false None)
  end.
Proof.
  intros Hne. unfold authMiddleware, session.
  apply String.eqb_neq in Hne. rewrite Hne.
  destruct cookie as [token|]; [|by split].
  destruct (jwt_verify now token JWT_SECRET); [by split | reflexivity].
Qed.

(** X7.  Without a cookie, or with a token that does not verify, each
    of the six task routes ([POST /tasks], [GET /tasks/stats],
    [GET /tasks/:id], [PUT /tasks/:id], [DELETE /tasks/:id] and
    [GET /tasks]) and [POST /logout] answers 401 before its handler
    runs, and [POST /tasks] before its validation does: no task is
    read, created or changed, and [logout] does not clear the cookie. *)
Theorem guarded_routes_refuse_without_valid_token now later cookie id fresh
  (refused : option Response) (b : TaskBody) (q : TaskQuery) (tasks : list TaskDoc) :
  (cookie = None
   \/ exists token e, cookie = Some token /\ jwt_verify now token JWT_SECRET = inl e) ->
  exists rejected,
    status rejected = 401
    /\ carriesTask (body rejected) = false
    /\ route_createTask now later cookie refused fresh b tasks = (rejected, tasks)
    /\ route_getTaskStats now cookie tasks = rejected
    /\ route_getTaskById now cookie id tasks = rejected
    /\ route_updateTask now later cookie id b tasks = (rejected, tasks)
    /\ route_deleteTask now cookie id tasks = (rejected, tasks)
    /\ route_getUserTasks now cookie q tasks = Some rejected
    /\ route_logout now cookie = (rejected, false).
Proof.
  intros [->|(token & e & -> & Hv)].
  - exists (mkResponse 401 (JMessage "Access denied, token missing")). by repeat split.
  - exists (mkResponse 401 (JMessage "Invalid or expired token")).
    unfold route_createTask, route_getTaskById, route_deleteTask, route_updateTask,
      route_getUserTasks, route_getTaskStats, route_logout, authMiddleware.
    simpl. rewrite Hv. by repeat split.
Qed.

(** X8.  With the cookie of a successful login, presented before the
    token expires, each of the six task routes runs its handler as the
    user who logged in: [POST /tasks], once its validation has let the
    request through, creates the task for that user, and the routes by
    id and the list read, update and delete with the id of that user as
    the owner; what [GET /tasks/:id] returns is a task of that user. *)
Theorem login_cookie_acts_as_its_user now later (mail pw : option jsstring) users la
  t t' id fresh (refused : option Response) (b : TaskBody) (q : TaskQuery)
  (tasks : list TaskDoc) :
  let o := login now later mail pw users la in
  status (response o) = 200 ->
  seconds t < seconds later + twoHours ->
  exists user c,
    findOne (byEmail (default [] mail)) users = Some user
    /\ cookie o = Some c
    /\ route_createTask t t' (Some (cookie_value c)) refused fresh b tasks
       = match refused with
         | Some answer => (answer, tasks)
         | None => createTask t' (user_id user) fresh b tasks
         end
    /\ route_getTaskStats t (Some (cookie_value c)) tasks
       = getTaskStats (user_id user) tasks
    /\ route_getTaskById t (Some (cookie_value c)) id tasks
       = getTaskById (user_id user) id tasks
    /\ route_updateTask t t' (Some (cookie_value c)) id b tasks
       = updateTask t' (user_id user) id b tasks
    /\ route_deleteTask t (Some (cookie_value c)) id tasks
       = deleteTask (user_id user) id tasks
    /\ route_getUserTasks t (Some (cookie_value c)) q tasks
       = getUserTasks (user_id user) q tasks
    /\ (forall task, route_getTaskById t (Some (cookie_value c)) id tasks
                     = mkResponse 200 (JTask task) ->
        task_userId task = user_id user /\ task_id task = id /\ In task tasks).
Proof.
  intros o Hs Ht.
  destruct (login_200_inv now later mail pw users la Hs)
    as (m & p & user & -> & -> & Hm & Hp & Hu & Hl & Hc).
  destruct (login_right now later m p users la user Hu Hm Hp Hl Hc) as (_ & _ & Hck & _).
  fold o in Hck. simpl.
  exists user, (mkCookie "token" (jwt_sign later (user_id user) (user_email user) JWT_SECRET)
                         true (2 * 60 * 60 * 1000)).
  assert (Hauth : forall method, method <> "OPTIONS"%string ->
            authMiddleware t method
              (Some (jwt_sign later (user_id user) (user_email user) JWT_SECRET))
            = inr (Some (mkClaims (user_id user) (user_email user) (seconds later)
                                  (seconds later + twoHours)))).
  { intros method Hne. by apply (authMiddleware_signed t method
      (mkClaims (user_id user) (user_email user) (seconds later) (seconds later + twoHours))). }
  unfold route_createTask, route_getTaskById, route_deleteTask, route_updateTask,
    route_getUserTasks, route_getTaskStats.
  cbn [cookie_value]. rewrite !Hauth by discriminate. cbn [userId].
  split; [exact Hu|]. split; [exact Hck|]. do 6 (split; [reflexivity|]).
  intros task Htask. unfold getTaskById in Htask.
  destruct (findOne (byIdAndOwner id (user_id user)) tasks) as [found|] eqn:Hf;
    [|discriminate].
  injection Htask as <-. apply find_some in Hf as [Hin Hb]. unfold byIdAndOwner in Hb.
  apply andb_true_iff in Hb as [Hid Hown].
  apply bool_decide_eq_true in Hid, Hown. by repeat split.
Qed.

End Guard.

(** A token signed at 1.5 s is refused at 7201 s and ever after. *)
Lemma refused_cookie_stays_refused_witness :
  authMiddleware (H := Demo.env) 9000000 "GET"
    (Some (jwt_sign (H := Demo.env) 1500 1 (js "alice@example.com") (js "demo-secret")))
  = inl (mkResponse 401 (JMessage "Invalid or expired token")).
Proof.
  apply (refused_cookie_stays_refused (H := Demo.env) 7201000 9000000).
  - reflexivity.
  - lia.
Defined.

(** A request without cookie: both answer 401. *)
Lemma session_agrees_with_authMiddleware_witness :
  session (H := Demo.env) 1000 None = mkResponse 401 (JSession false None).
Proof.
  pose proof (session_agrees_with_authMiddleware (H := Demo.env) 1000 "GET" None
                ltac:(discriminate)) as Hagree.
  simpl in Hagree. exact (proj2 Hagree).
Defined.

(** No cookie at all: nothing is created, changed or deleted. *)
Lemma guarded_routes_refuse_without_valid_token_witness :
  let b := mkTaskBody (Some (js "Call")) None (Some (js "2024-10-05"))
                      (Some (js "00:00")) (Some (js "todo")) in
  let rejected := mkResponse 401 (JMessage "Access denied, token missing") in
  route_createTask (H := Demo.env) 1000 1001 None None 12 b Sample.tasks
  = (rejected, Sample.tasks)
  /\ route_updateTask (H := Demo.env) 1000 1001 None 10 b Sample.tasks
     = (rejected, Sample.tasks)
  /\ route_deleteTask (H := Demo.env) 1000 None 10 Sample.tasks
     = (rejected, Sample.tasks).
Proof.
  intros b rejected.
  destruct (guarded_routes_refuse_without_valid_token (H := Demo.env) 1000 1001 None 10 12
              None b (mkTaskQuery None None None None None) Sample.tasks)
    as (r & _ & _ & Hnew & _ & Hget & Hupd & Hdel & _).
  - left. reflexivity.
  - assert (Hr : r = rejected) by (rewrite <- Hget; reflexivity).
    rewrite Hnew, Hupd, Hdel, Hr. by repeat split.
Defined.

(** Alice logs in, asks for her task and for Bob's, creates a task and
    renames her own. *)
Lemma login_cookie_acts_as_its_user_witness :
  let o := login (H := Demo.env) 1000 1500 (Some (js "alice@example.com"))
                 (Some (js "Secret!1")) Sample.users ∅ in
  let b := mkTaskBody (Some (js "Call")) None (Some (js "2024-10-05"))
                      (Some (js "00:00")) (Some (js "todo")) in
  exists c, cookie o = Some c
    /\ route_getTaskById (H := Demo.env) 60000 (Some (cookie_value c)) 10 Sample.tasks
       = mkResponse 200 (JTask Demo.task1)
    /\ route_getTaskById (H := Demo.env) 60000 (Some (cookie_value c)) 11 Sample.tasks
       = notFound
    /\ route_createTask (H := Demo.env) 60000 60001 (Some (cookie_value c)) None 12 b
         Sample.tasks
       = createTask (H := Demo.env) 60001 1 12 b Sample.tasks
    /\ route_updateTask (H := Demo.env) 60000 60001 (Some (cookie_value c)) 10 b
         Sample.tasks
       = updateTask (H := Demo.env) 60001 1 10 b Sample.tasks.
Proof.
  intros o b.
  destruct (login_cookie_acts_as_its_user (H := Demo.env) 1000 1500
              (Some (js "alice@example.com")) (Some (js "Secret!1")) Sample.users ∅
              60000 60001 10 12 None b (mkTaskQuery None None None None None) Sample.tasks)
    as (user & c & Hu & Hc & Hnew & _ & Hget & Hupd & _); [reflexivity | reflexivity |].
  destruct (login_cookie_acts_as_its_user (H := Demo.env) 1000 1500
              (Some (js "alice@example.com")) (Some (js "Secret!1")) Sample.users ∅
              60000 60001 11 12 None b (mkTaskQuery None None None None None) Sample.tasks)
    as (user' & c' & Hu' & Hc' & _ & _ & Hget' & _); [reflexivity | reflexivity |].
  exists c. split; [exact Hc|].
  assert (c' = c) by congruence. subst c'.
  assert (user' = user) by congruence. subst user'.
  injection Hu as <-.
  rewrite Hget, Hget', Hnew, Hupd. by repeat split.
Defined.

(** ** Password recovery *)

Section RecoveryFacts.
Context `{Env}.

Lemma find_updateFirst_new {A : Type} (p q : A -> bool) (f : A -> A) (l : list A) (u : A) :
  List.find p l = Some u ->
  (forall x, In x l -> q x = false) ->
  List.find q (updateFirst p f l) = if q (f u) then Some (f u) else None.
Proof.
  induction l as [|d r IH]; simpl; [discriminate|]. intros Hp Hq.
  destruct (p d) eqn:Ed.
  - injection Hp as ->. simpl. destruct (q (f u)); [reflexivity|].
    apply find_all_false. auto.
  - simpl. rewrite (Hq d) by auto. apply IH; auto.
Qed.

Lemma find_updateFirst_same {A : Type} (p q : A -> bool) (f : A -> A) (l : list A) (u : A) :
  List.find p l = Some u ->
  List.find q l = Some u ->
  q (f u) = true ->
  List.find q (updateFirst p f l) = Some (f u).
Proof.
  induction l as [|d r IH]; simpl; [discriminate|]. intros Hp Hq Hf.
  destruct (p d) eqn:Ed.
  - injection Hp as ->. simpl. by rewrite Hf.
  - simpl. destruct (q d) eqn:Eq.
    + injection Hq as ->. apply find_some in Hp as [_ Hp]. congruence.
    + apply IH; auto.
Qed.

Lemma In_updateFirst {A : Type} (p : A -> bool) (f : A -> A) (l : list A) (y : A) :
  In y (updateFirst p f l) -> In y l \/ exists x, In x l /\ p x = true /\ y = f x.
Proof.
  induction l as [|d r IH]; simpl; [tauto|].
  destruct (p d) eqn:Ed; simpl.
  - intros [<-|Hin]; [right; exists d; auto | auto].
  - intros [<-|Hin]; [auto|]. destruct (IH Hin) as [?|(x & ? & ? & ?)]; [auto|].
    right. exists x. auto.
Qed.

(** With distinct ids, the document of an id is the stored user itself. *)
Lemma find_byUserId (users : list UserDoc) (u : UserDoc) :
  NoDup (List.map user_id users) -> In u users ->
  findOne (byUserId (user_id u)) users = Some u.
Proof.
  unfold findOne, byUserId.
  induction users as [|d r IH]; simpl; intros Hnd Hin; [contradiction|].
  apply NoDup_cons in Hnd as [Hnotin Hnd].
  destruct (bool_decide (user_id d = user_id u)) eqn:E.
  - apply bool_decide_eq_true in E. destruct Hin as [->|Hin]; [reflexivity|].
    exfalso. apply Hnotin. rewrite E. apply list_elem_of_In. by apply in_map.
  - apply bool_decide_eq_false in E. destruct Hin as [->|Hin]; [contradiction|]. auto.
Qed.

Lemma userSchema_errors_token (u : UserDoc) token expires :
  userSchema_errors (withResetToken u token expires) = userSchema_errors u.
Proof. by destruct u. Qed.

(** Changing the credential of a valid user to a hash that matches the
    pattern of the schema leaves a valid user. *)
Lemma userSchema_errors_password (u : UserDoc) (h : jsstring) token expires :
  userSchema_errors u = [] ->
  Regex.schemaPasswordRegex h = true ->
  userSchema_errors (mkUser (user_id u) (firstName u) (lastName u) (age u)
                            (user_email u) h token expires) = [].
Proof.
  unfold userSchema_errors. simpl. intros Hv Hh.
  apply app_eq_nil in Hv as [H1 Hv]. apply app_eq_nil in Hv as [H2 Hv].
  apply app_eq_nil in Hv as [H3 Hv]. apply app_eq_nil in Hv as [H4 _].
  rewrite H1, H2, H3, H4, Hh. simpl.
  assert (Hlen : (8 <= length h)%nat).
  { unfold Regex.schemaPasswordRegex, Regex.dots8 in Hh.
    apply andb_true_iff in Hh as [_ Hd]. apply andb_true_iff in Hd as [_ Hd].
    apply N.leb_le in Hd. lia. }
  destruct h as [|c h']; [simpl in Hlen; lia|].
  rewrite bool_decide_eq_false_2 by discriminate.
  destruct (Nat.ltb_spec (length (c :: h')) 8); [lia|reflexivity].
Qed.

(** The stored user once [forgotPassword] has saved the token. *)
Lemma forgotPassword_users now token sendEmail mail users (u : UserDoc) :
  findOne (byEmail mail) users = Some u ->
  userSchema_errors u = [] ->
  forgot_users (forgotPassword now token sendEmail mail users)
  = updateFirst (byUserId (user_id u))
      (fun _ => withResetToken u token (now + oneHour)) users
  /\ forgot_response (forgotPassword now token sendEmail mail users)
     = match sendEmail (mkMail (user_email u) "Recupera tu contraseña - Taskio" token) with
       | Some error => errorHandler error
       | None => mkResponse 200 (JMessage "Correo de recuperación enviado")
       end
  /\ forgot_mails (forgotPassword now token sendEmail mail users)
     = match sendEmail (mkMail (user_email u) "Recupera tu contraseña - Taskio" token) with
       | Some _ => []
       | None => [mkMail (user_email u) "Recupera tu contraseña - Taskio" token]
       end.
Proof.
  intros Hu Hv. unfold forgotPassword, user_validate.
  rewrite Hu, userSchema_errors_token, Hv.
  by destruct (sendEmail _).
Qed.

(** After [forgotPassword], the token finds its user within the hour
    and nobody afterwards. *)
Lemma forgotPassword_token_lookup now token sendEmail mail users (u : UserDoc) t :
  NoDup (List.map user_id users) ->
  findOne (byEmail mail) users = Some u ->
  userSchema_errors u = [] ->
  Forall (fun v => resetPasswordToken v <> Some token) users ->
  findOne (byResetToken t token)
          (forgot_users (forgotPassword now token sendEmail mail users))
  = if bool_decide (t < now + oneHour)
    then Some (withResetToken u token (now + oneHour)) else None.
Proof.
  intros Hnd Hu Hv Hfresh.
  destruct (forgotPassword_users now token sendEmail mail users u Hu Hv) as [-> _].
  assert (Hin : In u users) by (by apply find_some in Hu as [? _]).
  unfold findOne.
  rewrite (find_updateFirst_new _ (byResetToken t token) _ users u).
  - unfold byResetToken. simpl. rewrite bool_decide_eq_true_2 by reflexivity. simpl.
    reflexivity.
  - by apply find_byUserId.
  - intros x Hx. rewrite Forall_forall in Hfresh. unfold byResetToken.
    rewrite bool_decide_eq_false_2; [reflexivity|].
    apply Hfresh. by apply list_elem_of_In.
Qed.

End RecoveryFacts.

Section RecoveryFlow.
Context `{Env}.

Lemma updateFirst_ids (users : list UserDoc) (i : N) (w : UserDoc) :
  user_id w = i ->
  List.map user_id (updateFirst (byUserId i) (fun _ => w) users) = List.map user_id users.
Proof.
  intros Hw. induction users as [|d r IH]; simpl; [reflexivity|].
  unfold byUserId at 1. destruct (bool_decide (user_id d = i)) eqn:E; simpl.
  - apply bool_decide_eq_true in E. congruence.
  - by rewrite IH.
Qed.

(** With distinct ids, an update by id leaves the other users and puts
    the new document in place of the one of that id. *)
Lemma In_updateFirst_id (users : list UserDoc) (i : N) (w y : UserDoc) :
  distinctIds users ->
  In y (updateFirst (byUserId i) (fun _ => w) users) ->
  (In y users /\ user_id y <> i) \/ y = w.
Proof.
  unfold distinctIds. induction users as [|d r IH]; simpl; intros Hnd Hin; [contradiction|].
  apply NoDup_cons in Hnd as [Hnotin Hnd].
  unfold byUserId at 1 in Hin. destruct (bool_decide (user_id d = i)) eqn:E.
  - apply bool_decide_eq_true in E. destruct Hin as [<-|Hin]; [by right|].
    left. split; [by right|]. intros Hy. apply Hnotin. rewrite E, <- Hy.
    apply list_elem_of_In. by apply in_map.
  - apply bool_decide_eq_false in E. destruct Hin as [<-|Hin]; [left; auto|].
    destruct (IH Hnd Hin) as [[? ?]|?]; auto.
Qed.

(** The users [forgotPassword] leaves, and what [resetPassword] does on
    them within the hour. *)
Lemma reset_after_forgot now token sendEmail mail users (u : UserDoc) t (pw : jsstring) :
  distinctIds users ->
  findOne (byEmail mail) users = Some u ->
  userSchema_errors u = [] ->
  tokenUnused token users ->
  t < now + oneHour ->
  Regex.schemaPasswordRegex (bcrypt_hash pw) = true ->
  let saved := forgot_users (forgotPassword now token sendEmail mail users) in
  resetPassword t token (Some pw) saved
  = (passwordUpdated,
     updateFirst (byUserId (user_id u)) (fun _ => withPassword u pw) saved)
  /\ saved = updateFirst (byUserId (user_id u))
               (fun _ => withResetToken u token (now + oneHour)) users.
Proof.
  intros Hnd Hu Hv Hfresh Ht Hh saved.
  pose proof (forgotPassword_token_lookup now token sendEmail mail users u t
                Hnd Hu Hv Hfresh) as Hfind. fold saved in Hfind.
  rewrite bool_decide_eq_true_2 in Hfind by exact Ht.
  destruct (forgotPassword_users now token sendEmail mail users u Hu Hv) as [Hsaved _].
  fold saved in Hsaved. split; [|exact Hsaved].
  unfold resetPassword, user_validate. rewrite Hfind.
  change (mkUser _ _ _ _ _ (bcrypt_hash pw) None None) with (withPassword u pw).
  unfold withPassword at 1.
  rewrite (userSchema_errors_password u (bcrypt_hash pw) None None Hv Hh).
  reflexivity.
Qed.

(** The users [resetPassword] leaves after a reset within the hour. *)
Lemma reset_after_forgot_users now token sendEmail mail users (u : UserDoc) t
  (pw : jsstring) :
  distinctIds users ->
  findOne (byEmail mail) users = Some u ->
  userSchema_errors u = [] ->
  tokenUnused token users ->
  t < now + oneHour ->
  Regex.schemaPasswordRegex (bcrypt_hash pw) = true ->
  let saved := forgot_users (forgotPassword now token sendEmail mail users) in
  let r := resetPassword t token (Some pw) saved in
  fst r = passwordUpdated
  /\ findOne (byEmail mail) (snd r) = Some (withPassword u pw)
  /\ List.map user_id (snd r) = List.map user_id users
  /\ (forall v, In v (snd r) -> v = withPassword u pw \/ (In v users /\ v <> u)).
Proof.
  intros Hnd Hu Hv Hfresh Ht Hh saved r.
  destruct (reset_after_forgot now token sendEmail mail users u t pw
              Hnd Hu Hv Hfresh Ht Hh) as [Hr Hsaved].
  fold saved in Hr, Hsaved. fold r in Hr. rewrite Hr. cbn [fst snd].
  assert (Hin : In u users) by (by apply find_some in Hu as [? _]).
  assert (Hid : findOne (byUserId (user_id u)) users = Some u) by (by apply find_byUserId).
  assert (Hmail : byEmail mail u = true) by (by apply find_some in Hu as [_ ?]).
  assert (Hsid : findOne (byUserId (user_id u)) saved
                 = Some (withResetToken u token (now + oneHour))).
  { rewrite Hsaved. unfold findOne.
    apply (find_updateFirst_same (byUserId (user_id u)) (byUserId (user_id u))
             (fun _ => withResetToken u token (now + oneHour)) users u); auto.
    unfold byUserId. simpl. by apply bool_decide_eq_true. }
  assert (Hsmail : findOne (byEmail mail) saved
                   = Some (withResetToken u token (now + oneHour))).
  { rewrite Hsaved. unfold findOne.
    apply (find_updateFirst_same (byUserId (user_id u)) (byEmail mail)
             (fun _ => withResetToken u token (now + oneHour)) users u); auto. }
  assert (Hfound : findOne (byEmail mail)
                     (updateFirst (byUserId (user_id u)) (fun _ => withPassword u pw) saved)
                   = Some (withPassword u pw)).
  { unfold findOne.
    apply (find_updateFirst_same (byUserId (user_id u)) (byEmail mail)
             (fun _ => withPassword u pw) saved
             (withResetToken u token (now + oneHour))); auto. }
  assert (Hids : List.map user_id saved = List.map user_id users).
  { rewrite Hsaved. by apply updateFirst_ids. }
  split; [reflexivity|]. split; [exact Hfound|]. split.
  - rewrite updateFirst_ids by reflexivity. exact Hids.
  - intros v Hv'.
    assert (Hds : distinctIds saved) by (unfold distinctIds; rewrite Hids; exact Hnd).
    destruct (In_updateFirst_id saved (user_id u) (withPassword u pw) v Hds Hv')
      as [[Hvs Hne]|Hv2]; [|by left].
    rewrite Hsaved in Hvs.
    destruct (In_updateFirst_id users (user_id u)
                (withResetToken u token (now + oneHour)) v Hnd Hvs) as [[Hvu _]|Hv3].
    + right. split; [exact Hvu|]. intros ->. contradiction.
    + subst v. simpl in Hne. contradiction.
Qed.

(** X9.  A reset link works once requested: after [forgotPassword] for
    a registered email, [resetPassword] with the token of the link,
    within the hour, answers 200 and stores the hash of the new password
    for that user, whose reset token is cleared; the other users are
    left as they were.  A login with the email and the new password,
    neither empty, is then answered 200 provided the throttle entry of
    the email is not locked (and [bcrypt.compare] accepts the password
    against its own hash); the reset does not lift a lockout: while the
    entry is locked, that login is answered 423.  (The users have
    distinct ids, the user passes the schema validators, the token is
    not already in use, and the hash of the new password passes the
    pattern of the schema.) *)
Theorem reset_link_sets_password now token sendEmail mail users (u : UserDoc) t
  (pw : jsstring) :
  distinctIds users ->
  findOne (byEmail mail) users = Some u ->
  userSchema_errors u = [] ->
  tokenUnused token users ->
  t < now + oneHour ->
  Regex.schemaPasswordRegex (bcrypt_hash pw) = true ->
  let saved := forgot_users (forgotPassword now token sendEmail mail users) in
  let r := resetPassword t token (Some pw) saved in
  fst r = passwordUpdated
  /\ findOne (byEmail mail) (snd r) = Some (withPassword u pw)
  /\ List.map user_id (snd r) = List.map user_id users
  /\ (forall v, In v (snd r) -> v = withPassword u pw \/ (In v users /\ v <> u))
  /\ (forall now' later' la,
        mail <> [] -> pw <> [] ->
        isLocked (entryOf la mail) now' = false ->
        bcrypt_compare pw (bcrypt_hash pw) = true ->
        status (response (login now' later' (Some mail) (Some pw) (snd r) la)) = 200)
  /\ (forall now' later' la,
        mail <> [] -> pw <> [] ->
        isLocked (entryOf la mail) now' = true ->
        status (response (login now' later' (Some mail) (Some pw) (snd r) la)) = 423).
Proof.
  intros Hnd Hu Hv Hfresh Ht Hh saved r.
  destruct (reset_after_forgot_users now token sendEmail mail users u t pw
              Hnd Hu Hv Hfresh Ht Hh) as (Hr & Hfound & Hids & Hel).
  fold saved in Hr, Hfound, Hids, Hel. fold r in Hr, Hfound, Hids, Hel.
  do 4 (split; [assumption|]). split.
  - intros now' later' la Hm Hp Hl Hc.
    destruct (login_right now' later' mail pw (snd r) la (withPassword u pw)
                Hfound Hm Hp Hl Hc) as [E _].
    cbv zeta in E. by rewrite E.
  - intros now' later' la Hm Hp Hl.
    by destruct (login_locked now' later' mail pw (snd r) la (withPassword u pw)
                   Hfound Hm Hp Hl) as [E _].
Qed.

(** X10.  A reset link expires: an hour or more after [forgotPassword]
    saved the token, [resetPassword] with it answers 400 and changes
    nothing, whatever the password. *)
Theorem reset_link_expires now token sendEmail mail users (u : UserDoc) t
  (pw : option jsstring) :
  distinctIds users ->
  findOne (byEmail mail) users = Some u ->
  userSchema_errors u = [] ->
  tokenUnused token users ->
  now + oneHour <= t ->
  let saved := forgot_users (forgotPassword now token sendEmail mail users) in
  resetPassword t token pw saved = (invalidToken, saved).
Proof.
  intros Hnd Hu Hv Hfresh Ht saved.
  pose proof (forgotPassword_token_lookup now token sendEmail mail users u t
                Hnd Hu Hv Hfresh) as Hfind. fold saved in Hfind.
  rewrite bool_decide_eq_false_2 in Hfind by lia.
  unfold resetPassword. by rewrite Hfind.
Qed.

(** X11.  A reset link works once: after [resetPassword] has stored a
    new password with the token, the same token is answered 400 at any
    time and changes nothing. *)
Theorem reset_link_works_once now token sendEmail mail users (u : UserDoc) t
  (pw : jsstring) t' (pw' : option jsstring) :
  distinctIds users ->
  findOne (byEmail mail) users = Some u ->
  userSchema_errors u = [] ->
  tokenUnused token users ->
  t < now + oneHour ->
  Regex.schemaPasswordRegex (bcrypt_hash pw) = true ->
  let saved := forgot_users (forgotPassword now token sendEmail mail users) in
  let users' := snd (resetPassword t token (Some pw) saved) in
  resetPassword t' token pw' users' = (invalidToken, users').
Proof.
  intros Hnd Hu Hv Hfresh Ht Hh saved users'.
  destruct (reset_after_forgot_users now token sendEmail mail users u t pw
              Hnd Hu Hv Hfresh Ht Hh) as (_ & _ & _ & Hel).
  fold saved in Hel. fold users' in Hel.
  assert (Hnone : findOne (byResetToken t' token) users' = None).
  { apply find_all_false. intros v Hin. unfold byResetToken.
    destruct (Hel v Hin) as [->|[Hin' _]]; [reflexivity|].
    unfold tokenUnused in Hfresh. rewrite Forall_forall in Hfresh.
    rewrite bool_decide_eq_false_2; [reflexivity|].
    apply Hfresh. by apply list_elem_of_In. }
  unfold resetPassword. by rewrite Hnone.
Qed.

(** X12.  The token is saved before the mail is sent: when the mail
    transport fails, [forgotPassword] answers with that error and
    delivers nothing, yet the user already holds the token, which
    [resetPassword] accepts within the hour. *)
Theorem undelivered_mail_leaves_token now token sendEmail mail users (u : UserDoc)
  (e : JsError) t :
  distinctIds users ->
  findOne (byEmail mail) users = Some u ->
  userSchema_errors u = [] ->
  tokenUnused token users ->
  sendEmail (mkMail (user_email u) "Recupera tu contraseña - Taskio" token) = Some e ->
  t < now + oneHour ->
  let o := forgotPassword now token sendEmail mail users in
  forgot_response o = errorHandler e
  /\ forgot_mails o = []
  /\ findOne (byResetToken t token) (forgot_users o)
     = Some (withResetToken u token (now + oneHour)).
Proof.
  intros Hnd Hu Hv Hfresh He Ht o.
  destruct (forgotPassword_users now token sendEmail mail users u Hu Hv) as (_ & Hr & Hm).
  fold o in Hr, Hm. rewrite He in Hr, Hm. split; [exact Hr|]. split; [exact Hm|].
  unfold o. rewrite (forgotPassword_token_lookup now token sendEmail mail users u t
                       Hnd Hu Hv Hfresh).
  by rewrite bool_decide_eq_true_2.
Qed.

End RecoveryFlow.

(** Bob asks for a link at 1000, and uses it, late, twice, or without
    having received it. *)
Lemma reset_link_sets_password_witness :
  let saved := forgot_users (forgotPassword (H := Demo.env) 1000 (js "c0ffee")
                               Sample.delivered (js "bob@example.com") Sample.users) in
  let r := resetPassword (H := Demo.env) 2000 (js "c0ffee") (Some (js "Fresh!Pass1")) saved in
  let lockedBob : gmap jsstring Attempt :=
    {[ js "bob@example.com" := mkAttempt 5 (Some 900000) ]} in
  fst r = passwordUpdated
  /\ status (response (login (H := Demo.env) 3000 3001 (Some (js "bob@example.com"))
                         (Some (js "Fresh!Pass1")) (snd r) ∅)) = 200
  /\ status (response (login (H := Demo.env) 3000 3001 (Some (js "bob@example.com"))
                         (Some (js "Fresh!Pass1")) (snd r) lockedBob)) = 423.
Proof.
  intros saved r lockedBob.
  destruct (reset_link_sets_password (H := Demo.env) 1000 (js "c0ffee") Sample.delivered
              (js "bob@example.com") Sample.users Sample.bob 2000 (js "Fresh!Pass1"))
    as (Hr & _ & _ & _ & Hlogin & Hlocked).
  - apply (bool_decide_unpack _). vm_compute. exact I.
  - reflexivity.
  - reflexivity.
  - repeat constructor; discriminate.
  - unfold oneHour. lia.
  - reflexivity.
  - split; [exact Hr|]. split.
    + apply Hlogin; [discriminate | discriminate | reflexivity | reflexivity].
    + apply Hlocked; [discriminate | discriminate | reflexivity].
Defined.

Lemma reset_link_expires_witness :
  let saved := forgot_users (forgotPassword (H := Demo.env) 1000 (js "c0ffee")
                               Sample.delivered (js "bob@example.com") Sample.users) in
  resetPassword (H := Demo.env) 3601000 (js "c0ffee") (Some (js "Str0ng!pass")) saved
  = (invalidToken, saved).
Proof.
  apply (reset_link_expires (H := Demo.env) 1000 (js "c0ffee") Sample.delivered
           (js "bob@example.com") Sample.users Sample.bob).
  - apply (bool_decide_unpack _). vm_compute. exact I.
  - reflexivity.
  - reflexivity.
  - repeat constructor; discriminate.
  - unfold oneHour. lia.
Defined.

Lemma reset_link_works_once_witness :
  let saved := forgot_users (forgotPassword (H := Demo.env) 1000 (js "c0ffee")
                               Sample.delivered (js "bob@example.com") Sample.users) in
  let users' := snd (resetPassword (H := Demo.env) 2000 (js "c0ffee")
                       (Some (js "Str0ng!pass")) saved) in
  resetPassword (H := Demo.env) 2500 (js "c0ffee") (Some (js "0ther!Pass")) users'
  = (invalidToken, users').
Proof.
  apply (reset_link_works_once (H := Demo.env) 1000 (js "c0ffee") Sample.delivered
           (js "bob@example.com") Sample.users Sample.bob).
  - apply (bool_decide_unpack _). vm_compute. exact I.
  - reflexivity.
  - reflexivity.
  - repeat constructor; discriminate.
  - unfold oneHour. lia.
  - reflexivity.
Defined.

Lemma undelivered_mail_leaves_token_witness :
  let o := forgotPassword (H := Demo.env) 1000 (js "c0ffee") Sample.undelivered
             (js "bob@example.com") Sample.users in
  status (forgot_response o) = 500
  /\ forgot_mails o = []
  /\ findOne (byResetToken 2000 (js "c0ffee")) (forgot_users o)
     = Some (withResetToken Sample.bob (js "c0ffee") (1000 + oneHour)).
Proof.
  intros o.
  destruct (undelivered_mail_leaves_token (H := Demo.env) 1000 (js "c0ffee")
              Sample.undelivered (js "bob@example.com") Sample.users Sample.bob
              (mkError "Error" None None "connect ECONNREFUSED" []) 2000)
    as (Hr & Hm & Hf).
  - apply (bool_decide_unpack _). vm_compute. exact I.
  - reflexivity.
  - reflexivity.
  - repeat constructor; discriminate.
  - reflexivity.
  - unfold oneHour. lia.
  - fold o in Hr, Hm, Hf. rewrite Hr. split; [reflexivity|]. split; assumption.
Defined.

(** ** Accounts *)

Section Accounts.
Context `{Env}.

Lemma find_app_none {A : Type} (p : A -> bool) (l : list A) (x : A) :
  List.find p l = None -> p x = true -> List.find p (l ++ [x]) = Some x.
Proof.
  induction l as [|d r IH]; simpl; intros Hn Hx; [by rewrite Hx|].
  destruct (p d); [discriminate | auto].
Qed.

Lemma find_none_email (mail : jsstring) (users : list UserDoc) :
  findOne (byEmail mail) users = None -> mail ∉ List.map user_email users.
Proof.
  unfold findOne. intros Hn Hin. apply list_elem_of_In, in_map_iff in Hin as (u & Hu & Hin).
  pose proof (find_none _ _ Hn u Hin) as Hf. unfold byEmail in Hf.
  apply bool_decide_eq_false in Hf. contradiction.
Qed.

(** What [signup] does when it answers 201, and that it does nothing
    otherwise. *)
Lemma signup_cases fresh (b : SignupBody) users :
  let r := signup fresh b users in
  (status (fst r) <> 201 /\ snd r = users)
  \/ (exists first last years mail pw,
        b = mkSignupBody (Some first) (Some last) (Some years) (Some mail) (Some pw)
        /\ mail <> [] /\ pw <> []
        /\ Regex.passwordRegex pw = true
        /\ findOne (byEmail mail) users = None
        /\ userSchema_errors (mkUser fresh (Regex.trim first) (Regex.trim last) years mail
                                     (bcrypt_hash pw) None None) = []
        /\ r = (mkResponse 201 (JUserId "Usuario registrado exitosamente" fresh),
                users ++ [mkUser fresh (Regex.trim first) (Regex.trim last) years mail
                                 (bcrypt_hash pw) None None])).
Proof.
  intros r. unfold r, signup.
  destruct (truthy (su_firstName b)) eqn:T1; simpl; [|left; split; [discriminate|reflexivity]].
  destruct (truthy (su_lastName b)) eqn:T2; simpl; [|left; split; [discriminate|reflexivity]].
  destruct (truthy_num (su_age b)) eqn:T3; simpl; [|left; split; [discriminate|reflexivity]].
  destruct (truthy (su_email b)) eqn:T4; simpl; [|left; split; [discriminate|reflexivity]].
  destruct (truthy (su_password b)) eqn:T5; simpl; [|left; split; [discriminate|reflexivity]].
  destruct b as [[first|] [last|] [years|] [mail|] [pw|]]; try discriminate. simpl in *.
  apply truthy_Some in T4, T5.
  destruct (Regex.passwordRegex pw) eqn:Hr; simpl; [|left; split; [discriminate|reflexivity]].
  destruct (findOne (byEmail mail) users) eqn:Hf; [left; split; [discriminate|reflexivity]|].
  unfold user_validate.
  destruct (userSchema_errors _) as [|m ms] eqn:Hv.
  - right. exists first, last, years, mail, pw. by repeat split.
  - left. split; [|reflexivity]. unfold errorHandler. simpl. discriminate.
Qed.

(** X13.  [signup] changes the users only when it answers 201, and then
    it appends one user: under the new id, with an email no stored user
    had, a password that passes the pattern of the handler, and as
    credential the bcrypt hash of that password, the whole passing the
    schema validators.  So the emails of the stored users stay distinct,
    and the users stored before are left as they were. *)
Theorem signup_appends_one_valid_user fresh (b : SignupBody) users :
  let r := signup fresh b users in
  (status (fst r) <> 201 -> snd r = users)
  /\ (status (fst r) = 201 ->
      exists u, snd r = users ++ [u]
        /\ user_id u = fresh
        /\ Some (user_email u) = su_email b
        /\ (user_email u ∉ List.map user_email users)
        /\ (exists pw, su_password b = Some pw /\ Regex.passwordRegex pw = true
                       /\ user_password u = bcrypt_hash pw)
        /\ userSchema_errors u = [])
  /\ (NoDup (List.map user_email users) -> NoDup (List.map user_email (snd r))).
Proof.
  intros r.
  destruct (signup_cases fresh b users)
    as [[Hs Hu]|(first & last & years & mail & pw & -> & Hm & Hp & Hr & Hf & Hv & Hres)];
    fold r in Hs, Hu || fold r in Hres.
  - split; [auto|]. split; [intros; contradiction|]. by rewrite Hu.
  - rewrite Hres. cbn [fst snd status]. split; [intros; contradiction|]. split.
    + intros _. eexists. split; [reflexivity|]. simpl.
      repeat split; auto; [by apply find_none_email | by exists pw].
    + intros Hnd. rewrite map_app. simpl.
      apply NoDup_app. split; [exact Hnd|]. split; [|apply NoDup_singleton].
      intros x Hx Hx'. apply list_elem_of_singleton in Hx' as ->.
      by apply (find_none_email mail users Hf).
Qed.

(** X14.  An account that [signup] has created opens a session: a login
    with the same email and password, as long as the entry of the email
    is not locked, is answered 200 with a token carrying the new id. *)
Theorem signup_then_login fresh (b : SignupBody) users now later la :
  let r := signup fresh b users in
  status (fst r) = 201 ->
  (forall pw, bcrypt_compare pw (bcrypt_hash pw) = true) ->
  isLocked (entryOf la (default [] (su_email b))) now = false ->
  let o := login now later (su_email b) (su_password b) (snd r) la in
  status (response o) = 200
  /\ exists c, cookie o = Some c /\ userId (claims (cookie_value c)) = fresh
               /\ Some (email (claims (cookie_value c))) = su_email b.
Proof.
  intros r Hs Hbc Hl o.
  destruct (signup_cases fresh b users)
    as [[Hne _]|(first & last & years & mail & pw & -> & Hm & Hp & Hr & Hf & Hv & Hres)];
    [fold r in Hne; contradiction|].
  fold r in Hres. unfold o. rewrite Hres. simpl in *.
  set (u := mkUser fresh (Regex.trim first) (Regex.trim last) years mail
                   (bcrypt_hash pw) None None).
  assert (Hfind : findOne (byEmail mail) (users ++ [u]) = Some u).
  { apply find_app_none; [exact Hf|]. unfold byEmail, JS.eqb. simpl.
    by apply bool_decide_eq_true. }
  destruct (login_right now later mail pw (users ++ [u]) la u Hfind Hm Hp Hl (Hbc pw))
    as (E1 & _ & E3 & _). cbv zeta in E1, E3.
  rewrite E1, E3. split; [reflexivity|]. eexists. split; [reflexivity|]. by split.
Qed.

Lemma unique_by {A B : Type} (f : A -> B) (l : list A) (x y : A) :
  NoDup (List.map f l) -> In x l -> In y l -> f x = f y -> x = y.
Proof.
  induction l as [|a r IH]; simpl; intros Hnd Hx Hy Hf; [contradiction|].
  apply NoDup_cons in Hnd as [Hnotin Hnd].
  destruct Hx as [->|Hx], Hy as [->|Hy]; auto.
  - exfalso. apply Hnotin. rewrite Hf. apply list_elem_of_In. by apply in_map.
  - exfalso. apply Hnotin. rewrite <- Hf. apply list_elem_of_In. by apply in_map.
Qed.

Lemma unique_user_id (users : list UserDoc) (x y : UserDoc) :
  distinctIds users -> In x users -> In y users -> user_id x = user_id y -> x = y.
Proof. apply unique_by. Qed.

Lemma unique_user_email (users : list UserDoc) (x y : UserDoc) :
  NoDup (List.map user_email users) -> In x users -> In y users ->
  user_email x = user_email y -> x = y.
Proof. apply unique_by. Qed.

Lemma deleteFirst_byUserId (uid : N) (users : list UserDoc) :
  distinctIds users ->
  deleteFirst (byUserId uid) users = List.filter (fun v => negb (byUserId uid v)) users.
Proof.
  unfold distinctIds. induction users as [|d r IH]; simpl; intros Hnd; [reflexivity|].
  apply NoDup_cons in Hnd as [Hnotin Hnd].
  destruct (byUserId uid d) eqn:E; simpl; [|by rewrite IH].
  symmetry. apply forallb_filter_id. apply forallb_forall. intros v Hv.
  apply negb_true_iff. unfold byUserId in *. apply bool_decide_eq_true in E.
  apply bool_decide_eq_false. intros Hx. apply Hnotin. rewrite E, <- Hx.
  apply list_elem_of_In. by apply in_map.
Qed.

(** X15.  [deleteProfile] deletes the account of the caller only when
    the password it carries is the caller's: with a wrong password it
    answers 401 and nothing is deleted; with the right one it answers
    200, clears the cookie and removes that user and no other.  The
    profile is then not found, and a login with the email of the deleted
    account is answered 401 without any comparison. *)
Theorem deleteProfile_removes_only_the_caller (u : UserDoc) (pw : jsstring) users :
  distinctIds users ->
  NoDup (List.map user_email users) ->
  In u users ->
  pw <> [] ->
  let o := deleteProfile (user_id u) (Some pw) users in
  (bcrypt_compare pw (user_password u) = false ->
   status (delete_response o) = 401 /\ delete_cleared o = false /\ delete_users o = users)
  /\ (bcrypt_compare pw (user_password u) = true ->
      status (delete_response o) = 200 /\ delete_cleared o = true
      /\ delete_users o = List.filter (fun v => negb (byUserId (user_id u) v)) users
      /\ (forall v, In v (delete_users o) <-> In v users /\ v <> u)
      /\ getProfile (user_id u) (delete_users o) = ProfileError userNotFound
      /\ (forall now later pw' la,
            let l := login now later (Some (user_email u)) (Some pw') (delete_users o) la in
            (status (response l) = 401 \/ status (response l) = 400)
            /\ compared l = [] /\ attempts l = la)).
Proof.
  intros Hnd Hem Hin Hp o.
  pose proof (find_byUserId users u Hnd Hin) as Hfind.
  apply truthy_Some in Hp.
  assert (Hmem : forall v, In v (List.filter (fun v => negb (byUserId (user_id u) v)) users)
                           <-> In v users /\ v <> u).
  { intros v. rewrite filter_In. unfold byUserId. rewrite negb_true_iff, bool_decide_eq_false.
    split; intros [Hv Hne]; split; auto.
    - intros ->. contradiction.
    - intros Hid. apply Hne. eapply (unique_user_id users); eauto. }
  split.
  - intros Hc. unfold o, deleteProfile. rewrite Hp, Hfind. simpl. by rewrite Hc.
  - intros Hc.
    assert (Ho : o = mkDelete (mkResponse 200 (JMessage "Perfil eliminado y sesión cerrada"))
                       true (List.filter (fun v => negb (byUserId (user_id u) v)) users)).
    { unfold o, deleteProfile. rewrite Hp, Hfind. simpl. rewrite Hc. simpl.
      by rewrite deleteFirst_byUserId. }
    rewrite Ho. cbn [delete_response delete_cleared delete_users status].
    split; [reflexivity|]. split; [reflexivity|]. split; [reflexivity|].
    split; [exact Hmem|]. split.
    + unfold getProfile. rewrite find_all_false; [reflexivity|].
      intros v Hv. apply filter_In in Hv as [_ Hv]. by apply negb_true_iff in Hv.
    + intros now later pw' la.
      assert (Hgone : findOne (byEmail (user_email u))
                        (List.filter (fun v => negb (byUserId (user_id u) v)) users) = None).
      { apply find_all_false. intros v Hv. apply Hmem in Hv as [Hv Hne].
        unfold byEmail, JS.eqb. apply bool_decide_eq_false. intros He. apply Hne.
        eapply (unique_user_email users); eauto. }
      unfold login.
      destruct (negb (truthy (Some (user_email u))) || negb (truthy (Some pw'))); simpl;
        [by repeat split; auto|].
      destruct (user_email u) as [|c m] eqn:Em; simpl in *; rewrite Hgone; by repeat split; auto.
Qed.

End Accounts.

Section Profile.
Context `{Env}.

(** X16.  [updateProfile] never touches a credential: whatever it
    answers, every stored user keeps its id, its password hash and its
    reset token, and every user other than the caller is left as it
    was.  A request for an email held by another user is refused and
    changes nothing, and with distinct ids the emails of the stored
    users stay distinct. *)
Theorem updateProfile_keeps_credentials uid (b : ProfileBody) users :
  let r := updateProfile uid b users in
  Forall2 (fun v v' =>
             user_id v' = user_id v
             /\ user_password v' = user_password v
             /\ resetPasswordToken v' = resetPasswordToken v
             /\ resetPasswordExpires v' = resetPasswordExpires v
             /\ (user_id v <> uid -> v' = v))
          users (snd r)
  /\ (distinctIds users -> NoDup (List.map user_email users) ->
      NoDup (List.map user_email (snd r)))
  /\ (forall mail, pb_email b = Some mail -> emailTaken uid mail users = true ->
      snd r = users /\ exists refused, fst r = ProfileError refused).
Proof.
  intros r.
  assert (Hsame : Forall2 (fun v v' =>
             user_id v' = user_id v /\ user_password v' = user_password v
             /\ resetPasswordToken v' = resetPasswordToken v
             /\ resetPasswordExpires v' = resetPasswordExpires v
             /\ (user_id v <> uid -> v' = v)) users users).
  { apply Forall2_same_length_lookup_2; [reflexivity|].
    intros i x y Hx Hy. assert (x = y) by congruence. subst. by repeat split. }
  unfold r, updateProfile.
  destruct (negb (truthy (pb_firstName b)) || _ || _ || _) eqn:Hreq; simpl.
  { split; [exact Hsame|]. split; eauto. }
  destruct (profile_errors _ _ _ _) as [|m ms] eqn:Hv; simpl.
  2:{ split; [exact Hsame|]. split; eauto. }
  destruct (findOne (byUserId uid) users) as [user|] eqn:Hf.
  2:{ split; [exact Hsame|]. split; eauto. }
  destruct (emailTaken uid (default [] (pb_email b)) users) eqn:Ht; simpl.
  { split; [exact Hsame|]. split; eauto. }
  set (user' := mkUser _ _ _ _ _ _ _ _).
  assert (Hid : user_id user = uid).
  { apply find_some in Hf as [_ Hb]. unfold byUserId in Hb.
    by apply bool_decide_eq_true in Hb. }
  split; [|split].
  - clear Hsame Ht. revert Hf. unfold findOne.
    induction users as [|d rest IH]; simpl; intros Hf; [constructor|].
    destruct (byUserId uid d) eqn:Ed.
    + injection Hf as ->. constructor.
      * unfold user'. simpl. repeat split; auto. intros Hne. contradiction.
      * apply Forall2_same_length_lookup_2; [reflexivity|].
        intros i x y Hx Hy. assert (x = y) by congruence. subst. by repeat split.
    + constructor; [by repeat split | by apply IH].
  - intros Hnd Hem.
    assert (Hothers : forall v, In v users -> user_id v <> uid ->
                                user_email v <> default [] (pb_email b)).
    { intros v Hin Hne He. unfold emailTaken in Ht.
      assert (Hx : existsb (fun u0 => negb (byUserId uid u0)
                                      && byEmail (default [] (pb_email b)) u0) users = true).
      { apply existsb_exists. exists v. split; [exact Hin|].
        unfold byUserId, byEmail, JS.eqb.
        rewrite bool_decide_eq_false_2 by exact Hne. simpl.
        by apply bool_decide_eq_true. }
      congruence. }
    clear Hsame Ht Hf Hreq Hv. revert Hnd Hem Hothers. unfold distinctIds.
    induction users as [|d rest IH]; simpl; intros Hnd Hem Hothers; [constructor|].
    apply NoDup_cons in Hnd as [Hnid Hnd]. apply NoDup_cons in Hem as [Hnem Hem].
    destruct (byUserId uid d) eqn:Ed; simpl.
    + unfold byUserId in Ed. apply bool_decide_eq_true in Ed.
      apply NoDup_cons. split; [|exact Hem].
      intros Hx. apply list_elem_of_In, in_map_iff in Hx as (v & He & Hv).
      apply (Hothers v); auto. intros Hvid. apply Hnid. rewrite Ed, <- Hvid.
      apply list_elem_of_In. by apply in_map.
    + unfold byUserId in Ed. apply bool_decide_eq_false in Ed.
      apply NoDup_cons. split; [|apply IH; auto].
      intros Hx. apply list_elem_of_In, in_map_iff in Hx as (v & He & Hv).
      apply In_updateFirst in Hv as [Hv|(x & _ & _ & ->)].
      * apply Hnem. rewrite <- He. apply list_elem_of_In. by apply in_map.
      * unfold user' in He. simpl in He. apply (Hothers d); auto.
  - intros mail Hm Htaken. rewrite Hm in Ht. simpl in Ht. congruence.
Qed.

End Profile.

(** Carol signs up where Alice and Bob are, and logs in. *)
Lemma signup_appends_one_valid_user_witness :
  let b := mkSignupBody (Some (js "Carol")) (Some (js "Danvers")) (Some 28)
                        (Some (js "carol@example.com")) (Some (js "Str0ng!pass")) in
  exists u, snd (signup (H := Demo.env) 3 b Sample.users) = Sample.users ++ [u]
            /\ user_id u = 3%N.
Proof.
  intros b.
  destruct (signup_appends_one_valid_user (H := Demo.env) 3 b Sample.users)
    as (_ & Hnew & _).
  destruct (Hnew eq_refl) as (u & Hu & Hid & _).
  exists u. by split.
Defined.

Lemma signup_then_login_witness :
  let b := mkSignupBody (Some (js "Carol")) (Some (js "Danvers")) (Some 28)
                        (Some (js "carol@example.com")) (Some (js "Str0ng!pass")) in
  status (response (login (H := Demo.env) 10 11 (su_email b) (su_password b)
                      (snd (signup (H := Demo.env) 3 b Sample.users)) ∅)) = 200.
Proof.
  intros b.
  destruct (signup_then_login (H := Demo.env) 3 b Sample.users 10 11 ∅) as [Hs _].
  - reflexivity.
  - intros pw. simpl. unfold JS.eqb. by apply bool_decide_eq_true.
  - reflexivity.
  - exact Hs.
Defined.

(** Bob deletes his account with his password. *)
Lemma deleteProfile_removes_only_the_caller_witness :
  delete_users (deleteProfile (H := Demo.env) 2 (Some (js "Hunter!2")) Sample.users)
  = [Demo.alice].
Proof.
  destruct (deleteProfile_removes_only_the_caller (H := Demo.env) Sample.bob
              (js "Hunter!2") Sample.users) as [_ Hright].
  - apply (bool_decide_unpack _). vm_compute. exact I.
  - apply (bool_decide_unpack _). vm_compute. exact I.
  - right. left. reflexivity.
  - discriminate.
  - destruct (Hright eq_refl) as (_ & _ & Hu & _). exact Hu.
Defined.

(** Bob asks for the email of Alice. *)
Lemma updateProfile_keeps_credentials_witness :
  let b := mkProfileBody (Some (js "Bob")) (Some (js "Hope")) (Some 31)
                         (Some (js "alice@example.com")) in
  snd (updateProfile (H := Demo.env) 2 b Sample.users) = Sample.users.
Proof.
  intros b.
  destruct (updateProfile_keeps_credentials (H := Demo.env) 2 b Sample.users)
    as (_ & _ & Htaken).
  destruct (Htaken (js "alice@example.com") eq_refl eq_refl) as [Hu _].
  exact Hu.
Defined.

(** ** Tasks *)

Section Tasks.
Context `{Env}.

Lemma find_byIdAndOwner (tasks : list TaskDoc) (t : TaskDoc) :
  NoDup (List.map task_id tasks) -> In t tasks ->
  findOne (byIdAndOwner (task_id t) (task_userId t)) tasks = Some t.
Proof.
  unfold findOne, byIdAndOwner.
  induction tasks as [|d r IH]; simpl; intros Hnd Hin; [contradiction|].
  apply NoDup_cons in Hnd as [Hnotin Hnd].
  destruct (bool_decide (task_id d = task_id t)) eqn:E; simpl.
  - apply bool_decide_eq_true in E. destruct Hin as [->|Hin].
    + by rewrite bool_decide_eq_true_2.
    + exfalso. apply Hnotin. rewrite E. apply list_elem_of_In. by apply in_map.
  - apply bool_decide_eq_false in E. destruct Hin as [->|Hin]; [contradiction|]. auto.
Qed.

(** X17.  A task that [createTask] has created (201) is stored last,
    under the new id and the id of the caller, with the status and the
    due instant of the request, which is not before the clock.  When the
    id is new, [getTaskById] returns that task to the caller and answers
    404 to everybody else. *)
Theorem created_task_is_stored_for_its_owner now uid fresh (b : TaskBody) tasks :
  let r := createTask now uid fresh b tasks in
  status (fst r) = 201 ->
  exists t d,
    r = (created t, tasks ++ [t])
    /\ task_id t = fresh /\ task_userId t = uid
    /\ task_status t = b_status b
    /\ dueDate t = Some d /\ combine (b_date b) (b_time b) = Some d /\ now <= d
    /\ taskSchema_errors t = []
    /\ ((fresh ∉ List.map task_id tasks) ->
        getTaskById uid fresh (snd r) = mkResponse 200 (JTask t)
        /\ forall other, other <> uid -> getTaskById other fresh (snd r) = notFound).
Proof.
  intros r Hs. unfold r in *. rewrite createTask_cases in *.
  destruct (requiredFields b); simpl in Hs |- *; [|discriminate].
  destruct (isPast (combine (b_date b) (b_time b)) now) eqn:Hp; simpl in Hs |- *;
    [discriminate|].
  unfold Task_save in *.
  destruct (taskSchema_errors (newTaskOf uid fresh b)) as [|m ms] eqn:Hv;
    [|unfold throw in Hs; simpl in Hs; discriminate].
  assert (Hd : exists d, combine (b_date b) (b_time b) = Some d).
  { unfold taskSchema_errors in Hv. simpl in Hv.
    destruct (combine (b_date b) (b_time b)) as [d|]; [eauto|].
    do 3 (apply app_eq_nil in Hv as [_ Hv]). apply app_eq_nil in Hv as [Hx _].
    discriminate. }
  destruct Hd as [d Hd].
  exists (newTaskOf uid fresh b), d. simpl.
  split; [reflexivity|]. do 3 (split; [reflexivity|]).
  split; [exact Hd|]. split; [exact Hd|].
  split; [rewrite Hd in Hp; simpl in Hp; apply Z.ltb_ge in Hp; lia|].
  split; [exact Hv|]. intros Hnew.
  assert (Hnone : forall who, List.find (byIdAndOwner fresh who) tasks = None).
  { intros who. apply find_all_false. intros x Hx. unfold byIdAndOwner.
    rewrite bool_decide_eq_false_2; [reflexivity|].
    intros Hid. apply Hnew. rewrite <- Hid. apply list_elem_of_In. by apply in_map. }
  split.
  - unfold getTaskById, findOne. rewrite (find_app_none _ tasks); auto.
    unfold byIdAndOwner. simpl. by rewrite !bool_decide_eq_true_2.
  - intros other Hne. unfold getTaskById, findOne.
    rewrite find_all_false; [reflexivity|].
    intros x Hx. apply in_app_or in Hx as [Hx|[<-|[]]].
    + by apply (find_none _ _ (Hnone other)).
    + unfold byIdAndOwner. simpl.
      rewrite (bool_decide_eq_false_2 (uid = other)) by congruence.
      apply andb_false_r.
Qed.

Lemma deleteFirst_unique (p : TaskDoc -> bool) (tasks : list TaskDoc) (t : TaskDoc) :
  List.find p tasks = Some t ->
  (forall x, In x tasks -> p x = true -> x = t) ->
  NoDup (List.map task_id tasks) ->
  deleteFirst p tasks = List.filter (fun x => negb (bool_decide (task_id x = task_id t))) tasks.
Proof.
  induction tasks as [|d r IH]; simpl; intros Hf Hu Hnd; [discriminate|].
  apply NoDup_cons in Hnd as [Hnotin Hnd].
  destruct (p d) eqn:Ed.
  - injection Hf as ->. rewrite bool_decide_eq_true_2 by reflexivity. simpl.
    symmetry. apply forallb_filter_id, forallb_forall. intros x Hx.
    apply negb_true_iff, bool_decide_eq_false. intros Hid. apply Hnotin.
    rewrite <- Hid. apply list_elem_of_In. by apply in_map.
  - assert (Hne : task_id d <> task_id t).
    { intros Hid. apply Hnotin. rewrite Hid. apply find_some in Hf as [Hin _].
      apply list_elem_of_In. by apply in_map. }
    rewrite bool_decide_eq_false_2 by exact Hne. simpl. f_equal. apply IH; auto.
Qed.

(** X18.  [deleteTask] by the owner removes that task and no other:
    with distinct ids, the answer is 200, the tasks left are the others
    in their order, and the task is not found afterwards. *)
Theorem deleteTask_removes_exactly_that_task (tasks : list TaskDoc) (t : TaskDoc) :
  NoDup (List.map task_id tasks) -> In t tasks ->
  let r := deleteTask (task_userId t) (task_id t) tasks in
  status (fst r) = 200
  /\ snd r = List.filter (fun x => negb (bool_decide (task_id x = task_id t))) tasks
  /\ (forall x, In x (snd r) <-> In x tasks /\ x <> t)
  /\ getTaskById (task_userId t) (task_id t) (snd r) = notFound.
Proof.
  intros Hnd Hin r.
  pose proof (find_byIdAndOwner tasks t Hnd Hin) as Hf.
  assert (Hr : r = (mkResponse 200 (JMessage "Tarea eliminada con éxito"),
                    List.filter (fun x => negb (bool_decide (task_id x = task_id t))) tasks)).
  { unfold r, deleteTask, Task_findOneAndDelete. rewrite Hf. f_equal.
    apply deleteFirst_unique; auto.
    intros x Hx Hp. unfold byIdAndOwner in Hp. apply andb_true_iff in Hp as [Hp _].
    apply bool_decide_eq_true in Hp. by apply (unique_id tasks). }
  rewrite Hr. cbn [fst snd status]. split; [reflexivity|]. split; [reflexivity|].
  assert (Hmem : forall x, In x (List.filter
                    (fun x => negb (bool_decide (task_id x = task_id t))) tasks)
                 <-> In x tasks /\ x <> t).
  { intros x. rewrite filter_In, negb_true_iff, bool_decide_eq_false.
    split; intros [Hx Hne]; split; auto.
    - intros ->. contradiction.
    - intros Hid. apply Hne. by apply (unique_id tasks). }
  split; [exact Hmem|].
  unfold getTaskById. rewrite find_all_false; [reflexivity|].
  intros x Hx. apply filter_In in Hx as [_ Hx]. unfold byIdAndOwner.
  apply negb_true_iff in Hx. by rewrite Hx.
Qed.

(** X19.  [updateTask] never moves a task: whatever the request and the
    answer, every stored task keeps its id and its owner, and every task
    other than the one with the id of the request owned by the caller is
    left as it was. *)
Theorem updateTask_keeps_ids_and_owners now uid id (b : TaskBody) tasks :
  Forall2 (fun t t' =>
             task_id t' = task_id t /\ task_userId t' = task_userId t
             /\ (byIdAndOwner id uid t = false -> t' = t))
          tasks (snd (updateTask now uid id b tasks)).
Proof.
  assert (Hsame : forall l : list TaskDoc,
            Forall2 (fun t t' => task_id t' = task_id t /\ task_userId t' = task_userId t
                                 /\ (byIdAndOwner id uid t = false -> t' = t)) l l).
  { intros l. apply Forall2_same_length_lookup_2; [reflexivity|].
    intros i x y Hx Hy. assert (x = y) by congruence. subst. by repeat split. }
  rewrite updateTask_cases.
  destruct (isPast _ now); simpl; [apply Hsame|].
  unfold updateTask_store, Task_findOneAndUpdate.
  destruct (up_dueDate (updateOf b)); simpl; [|apply Hsame].
  destruct (update_errors (updateOf b)); simpl; [|apply Hsame].
  destruct (findOne (byIdAndOwner id uid) tasks) as [found|] eqn:Hf; simpl; [|apply Hsame].
  clear Hf. induction tasks as [|d r IH]; simpl; [constructor|].
  destruct (byIdAndOwner id uid d) eqn:Ed.
  - constructor; [|apply Hsame].
    split; [reflexivity|]. split; [reflexivity|]. intros Hx. congruence.
  - constructor; [by repeat split | exact IH].
Qed.

End Tasks.

(** A task for tomorrow is created and read back. *)
Lemma created_task_is_stored_for_its_owner_witness :
  let b := mkTaskBody (Some (js "Call")) None (Some (js "2024-10-05")) (Some (js "00:00"))
                      (Some (js "todo")) in
  exists t, snd (createTask (H := Demo.env) 1728036000000 1 12 b Sample.tasks)
            = Sample.tasks ++ [t]
            /\ getTaskById 1 12 (Sample.tasks ++ [t]) = mkResponse 200 (JTask t)
            /\ getTaskById 2 12 (Sample.tasks ++ [t]) = notFound.
Proof.
  intros b.
  destruct (created_task_is_stored_for_its_owner (H := Demo.env) 1728036000000 1 12 b
              Sample.tasks eq_refl) as (t & d & Hr & _ & _ & _ & _ & _ & _ & _ & Hget).
  exists t. rewrite Hr in Hget |- *. cbn [snd] in Hget |- *.
  destruct Hget as [Hmine Hother].
  - intros Hin. apply (bool_decide_pack _) in Hin. vm_compute in Hin. exact Hin.
  - split; [reflexivity|]. split; [exact Hmine|]. apply Hother. discriminate.
Defined.

(** The first sample task is deleted by its owner. *)
Lemma deleteTask_removes_exactly_that_task_witness :
  deleteTask 1 10 Sample.tasks
  = (mkResponse 200 (JMessage "Tarea eliminada con éxito"), [Demo.task2]).
Proof.
  destruct (deleteTask_removes_exactly_that_task Sample.tasks Demo.task1)
    as (Hs & Hr & _).
  - apply (bool_decide_unpack _). vm_compute. exact I.
  - left. reflexivity.
  - rewrite (surjective_pairing (deleteTask 1 10 Sample.tasks)).
    change (deleteTask (task_userId Demo.task1) (task_id Demo.task1) Sample.tasks)
      with (deleteTask 1 10 Sample.tasks) in Hr.
    rewrite Hr. reflexivity.
Defined.

(** ** Task queries *)

Section Queries.
Context `{Env}.

Lemma insertTask_perm order (t : TaskDoc) (l : list TaskDoc) :
  insertTask order t l ≡ₚ t :: l.
Proof.
  induction l as [|u r IH]; simpl; [reflexivity|].
  destruct (dueBefore order t u); [reflexivity|].
  rewrite IH. apply perm_swap.
Qed.

Lemma sortTasks_perm order (l : list TaskDoc) : sortTasks order l ≡ₚ l.
Proof.
  induction l as [|t r IH]; simpl; [reflexivity|].
  rewrite insertTask_perm. by constructor.
Qed.

Lemma In_sortTasks order (l : list TaskDoc) (t : TaskDoc) :
  In t (sortTasks order l) <-> In t l.
Proof.
  split; apply Permutation_in; [apply sortTasks_perm | symmetry; apply sortTasks_perm].
Qed.

Lemma dueBefore_total order (a b : TaskDoc) :
  dueBefore order a b = false -> dueBefore order b a = true.
Proof.
  unfold dueBefore. destruct (dueDate a) as [x|], (dueDate b) as [y|]; try discriminate.
  destruct (order =? 1); intros Hf; apply Z.leb_gt in Hf; apply Z.leb_le; lia.
Qed.

Lemma insertTask_sorted order (t : TaskDoc) (l : list TaskDoc) :
  Sorted (fun a b => dueBefore order a b = true) l ->
  Sorted (fun a b => dueBefore order a b = true) (insertTask order t l).
Proof.
  induction l as [|u r IH]; simpl; intros Hs.
  - repeat constructor.
  - destruct (dueBefore order t u) eqn:E.
    + constructor; [exact Hs | by constructor].
    + inversion Hs as [|? ? Hr Hhd]; subst. constructor; [by apply IH|].
      destruct r as [|v r']; simpl.
      * constructor. by apply dueBefore_total.
      * destruct (dueBefore order t v).
        -- constructor. by apply dueBefore_total.
        -- inversion Hhd; subst. by constructor.
Qed.

Lemma sortTasks_sorted order (l : list TaskDoc) :
  Sorted (fun a b => dueBefore order a b = true) (sortTasks order l).
Proof.
  induction l as [|t r IH]; simpl; [constructor | by apply insertTask_sorted].
Qed.

Lemma StronglySorted_weaken {A : Type} (R S : A -> A -> Prop) (l : list A) :
  (forall a b, R a b -> S a b) -> StronglySorted R l -> StronglySorted S l.
Proof.
  intros HRS Hs. induction Hs as [|a l Hl IH Hall]; constructor; [exact IH|].
  eapply List.Forall_impl; [|exact Hall]. intros b. apply HRS.
Qed.

(** No answer of the error handler carries a task. *)
Lemma errorHandler_no_task (e : JsError) : carriesTask (body (errorHandler e)) = false.
Proof.
  unfold errorHandler.
  repeat match goal with |- context [if ?c then _ else _] => destruct c end; reflexivity.
Qed.

(** The answers of [getUserTasksWith]. *)
Lemma getUserTasksWith_cases engine uid (q : TaskQuery) tasks :
  let resp := getUserTasksWith engine uid q tasks in
  (invalidBound (buildFilter uid q) = true /\ resp = castFailed)
  \/ (exists pattern refused,
        invalidBound (buildFilter uid q) = false
        /\ q_title q = Some pattern /\ pattern <> []
        /\ engine pattern = inl refused /\ resp = errorHandler refused)
  \/ (exists test,
        invalidBound (buildFilter uid q) = false
        /\ resp = mkResponse 200
                    (JTasks (sortTasks (sortOrder q)
                               (List.filter (matchesWith (buildFilter uid q) test) tasks)))).
Proof.
  assert (Htitle : f_title (buildFilter uid q)
                   = if truthy (q_title q) then q_title q else None) by reflexivity.
  unfold getUserTasksWith, Task_findWith.
  destruct (invalidBound (buildFilter uid q)); [by left|]. right.
  rewrite Htitle. clear Htitle.
  destruct (truthy (q_title q)) eqn:Ht.
  - destruct (q_title q) as [pattern|] eqn:Hq; [|discriminate].
    apply truthy_Some in Ht.
    destruct (engine pattern) as [refused|test] eqn:He.
    + left. exists pattern, refused. by repeat split.
    + right. by exists (Some test).
  - right. by exists None.
Qed.

(** On the modelled patterns, and with an engine that agrees with the
    model on them, [getUserTasksWith] is [getUserTasks]. *)
Lemma getUserTasksWith_agrees engine uid (q : TaskQuery) tasks resp :
  agreesWithParse engine ->
  getUserTasks uid q tasks = Some resp ->
  getUserTasksWith engine uid q tasks = resp.
Proof.
  intros Hagree. unfold getUserTasks, getUserTasksWith, Task_find, Task_findWith.
  destruct (invalidBound (buildFilter uid q)); [by intros [= <-]|].
  destruct (f_title (buildFilter uid q)) as [pattern|]; [|by intros [= <-]].
  destruct (TitleRegex.parse pattern) as [atoms|] eqn:Hp; [|discriminate].
  destruct (Hagree pattern atoms Hp) as (test & -> & Htest).
  intros [= <-]. do 3 f_equal. apply List.filter_ext. intros t.
  unfold matchesFilter, matchesWith. by rewrite Htest.
Qed.

(** The sample engine is such an engine. *)
Lemma engine_agrees : agreesWithParse Sample.engine.
Proof.
  intros pattern atoms Hp. exists (TitleRegex.search atoms).
  unfold Sample.engine. by rewrite Hp.
Qed.

(** X20.  Whatever the query, its parameters being strings or missing,
    and whatever the regular-expression engine of the store makes of
    its title, [getUserTasks] answers
    either 200 with a list made of stored tasks of the caller only, and
    of no more tasks than the caller has, or an error that carries no
    task: the cast error of a date bound that does not parse (500), or
    the answer of the error handler to the error with which the engine
    refuses the title pattern. *)
Theorem getUserTasks_lists_only_own_tasks
  (engine : jsstring -> JsError + (jsstring -> bool)) uid (q : TaskQuery) tasks :
  let resp := getUserTasksWith engine uid q tasks in
  (carriesTask (body resp) = false
   /\ (resp = castFailed /\ status resp = 500
       \/ exists pattern refused,
            q_title q = Some pattern /\ engine pattern = inl refused
            /\ resp = errorHandler refused))
  \/ exists found,
       resp = mkResponse 200 (JTasks found)
       /\ (forall t, In t found -> In t tasks /\ task_userId t = uid)
       /\ (length found <= length (List.filter (byOwner uid) tasks))%nat.
Proof.
  intros resp.
  destruct (getUserTasksWith_cases engine uid q tasks)
    as [(_ & Hr)|[(pattern & refused & _ & Hq & _ & He & Hr)|(test & _ & Hr)]];
    fold resp in Hr.
  - left. rewrite Hr. split; [reflexivity|]. left. by split.
  - left. rewrite Hr. split; [apply errorHandler_no_task|].
    right. by exists pattern, refused.
  - right. eexists. split; [exact Hr|]. split.
    + intros t Ht. apply In_sortTasks, filter_In in Ht as [Hin Hm]. split; [exact Hin|].
      unfold matchesWith in Hm. repeat (apply andb_true_iff in Hm as [Hm _]).
      unfold byOwner in Hm. simpl in Hm. by apply bool_decide_eq_true in Hm.
    + rewrite (Permutation_length (sortTasks_perm _ _)).
      assert (Hsub : forall l : list TaskDoc,
                (length (List.filter (matchesWith (buildFilter uid q) test) l)
                 <= length (List.filter (byOwner uid) l))%nat).
      { induction l as [|d r IH]; simpl; [lia|].
        unfold matchesWith at 1. cbn [f_userId buildFilter].
        destruct (byOwner uid d); simpl; [|exact IH].
        destruct (_ && _ && _); simpl; lia. }
      apply Hsub.
Qed.

(** Among tasks that have a due date, the order of the sort is the order
    of the due instants. *)
Lemma Sorted_dueOrdered order (l : list TaskDoc) :
  Forall (fun t => dueDate t <> None) l ->
  Sorted (fun a b => dueBefore order a b = true) l ->
  Sorted (dueOrdered order) l.
Proof.
  intros Hall Hs. induction Hs as [|a l Hl IH Hhd]; [constructor|].
  inversion Hall as [|? ? Ha Hrest]; subst.
  constructor; [by apply IH|].
  destruct Hhd as [|b l' Hab]; constructor.
  inversion Hrest as [|? ? Hb _]; subst.
  unfold dueBefore in Hab. unfold dueOrdered.
  destruct (dueDate a) as [x|]; [|contradiction].
  destruct (dueDate b) as [y|]; [|contradiction].
  exists x, y. split; [reflexivity|]. split; [reflexivity|].
  destruct (order =? 1); by apply Z.leb_le.
Qed.

Lemma dueOrdered_trans order (a b c : TaskDoc) :
  dueOrdered order a b -> dueOrdered order b c -> dueOrdered order a c.
Proof.
  intros (x & y & Ha & Hb & Hxy) (y' & z & Hb' & Hc & Hyz).
  rewrite Hb in Hb'. injection Hb' as <-.
  exists x, z. split; [exact Ha|]. split; [exact Hc|].
  destruct (order =? 1); lia.
Qed.

(** X21.  When every stored task has a due date, as the schema requires,
    the tasks listed by [getUserTasks] come in the order of their due
    instants, whatever the query (its parameters being strings or
    missing) and the engine of the title pattern:
    each listed task is due no later than every task listed after it,
    or no earlier when the query asks for [order=desc]. *)
Theorem getUserTasks_orders_by_due_instant
  (engine : jsstring -> JsError + (jsstring -> bool)) uid (q : TaskQuery) tasks found :
  Forall (fun t => dueDate t <> None) tasks ->
  getUserTasksWith engine uid q tasks = mkResponse 200 (JTasks found) ->
  StronglySorted
    (fun a b => exists x y, dueDate a = Some x /\ dueDate b = Some y
                            /\ if bool_decide (q_order q = Some (js "desc"))
                               then y <= x else x <= y)
    found.
Proof.
  intros Hall Hr.
  assert (Hfound : exists test,
            found = sortTasks (sortOrder q)
                      (List.filter (matchesWith (buildFilter uid q) test) tasks)).
  { destruct (getUserTasksWith_cases engine uid q tasks)
      as [(_ & Hr')|[(pattern & refused & _ & _ & _ & _ & Hr')|(test & _ & Hr')]];
      cbv zeta in Hr'; rewrite Hr in Hr'.
    - discriminate.
    - exfalso. pose proof (errorHandler_no_task refused) as Hno.
      rewrite <- Hr' in Hno. simpl in Hno.
      unfold errorHandler in Hr'.
      repeat match type of Hr' with
             | context [if ?c then _ else _] => destruct c
             end; discriminate.
    - injection Hr' as ->. by exists test. }
  destruct Hfound as [test ->].
  assert (Hvalid : Forall (fun t => dueDate t <> None)
                     (sortTasks (sortOrder q)
                        (List.filter (matchesWith (buildFilter uid q) test) tasks))).
  { apply List.Forall_forall. intros t Ht.
    apply In_sortTasks, filter_In in Ht as [Hin _].
    by apply (proj1 (List.Forall_forall _ _) Hall). }
  pose proof (Sorted_dueOrdered _ _ Hvalid (sortTasks_sorted (sortOrder q) _)) as Hsorted.
  apply Sorted_StronglySorted in Hsorted; [|intros a b c; apply dueOrdered_trans].
  eapply StronglySorted_weaken; [|exact Hsorted].
  intros a b (x & y & Ha & Hb & Hxy). exists x, y.
  split; [exact Ha|]. split; [exact Hb|].
  unfold sortOrder in Hxy.
  by destruct (bool_decide (q_order q = Some (js "desc"))).
Qed.

Lemma statusFilter_spec (x : option jsstring) (t : TaskDoc) :
  match (if truthy x then x else None) with
  | Some s => bool_decide (task_status t = Some s)
  | None => true
  end = true
  <-> (forall s, x = Some s -> s <> [] -> task_status t = Some s).
Proof.
  destruct x as [[|c s]|]; simpl.
  - split; [intros _ s [= <-] Hne; contradiction | reflexivity].
  - rewrite bool_decide_eq_true. split; [by intros Ht s' [= <-] _ | intros Ht; by apply Ht].
  - split; [discriminate | reflexivity].
Qed.

Lemma bound_spec (cmp : Z -> Z -> bool) (R : Z -> Z -> Prop) (x : option jsstring)
  (t : TaskDoc) :
  (forall due d, cmp due d = true <-> R due d) ->
  (if truthy x then Some (Date_parse (default [] x)) else None) <> Some None ->
  boundHolds cmp (if truthy x then Some (Date_parse (default [] x)) else None) t = true
  <-> (forall f d, x = Some f -> f <> [] -> Date_parse f = Some d ->
       exists due, dueDate t = Some due /\ R due d).
Proof.
  intros Hcmp Hvalid. destruct x as [[|c s]|]; simpl in *.
  - split; [intros _ f d [= <-] Hne; contradiction | reflexivity].
  - destruct (Date_parse (c :: s)) as [d|] eqn:Hd; [|contradiction].
    destruct (dueDate t) as [due|].
    + rewrite Hcmp. split.
      * intros HR f d' [= <-] _ Hd'. rewrite Hd in Hd'. injection Hd' as <-. eauto.
      * intros Hall. destruct (Hall (c :: s) d eq_refl ltac:(discriminate) Hd)
          as (due' & [= <-] & HR). exact HR.
    + split; [discriminate|]. intros Hall.
      destruct (Hall (c :: s) d eq_refl ltac:(discriminate) Hd) as (due' & Hx & _).
      discriminate.
  - split; [discriminate | reflexivity].
Qed.

(** X22.  For a query without title and with valid dates, [getUserTasks]
    lists exactly the stored tasks of the caller that have the status of
    the query, if it gives one, and whose due instant is not before
    [fromDate] and not after [toDate], if it gives them: both bounds are
    inclusive, and a status outside the enumeration is not an error. *)
Theorem getUserTasks_filters_exactly uid (q : TaskQuery) tasks :
  truthy (q_title q) = false ->
  invalidBound (buildFilter uid q) = false ->
  exists found,
    getUserTasks uid q tasks = Some (mkResponse 200 (JTasks found))
    /\ forall t, In t found <->
         In t tasks /\ task_userId t = uid
         /\ (forall s, q_status q = Some s -> s <> [] -> task_status t = Some s)
         /\ (forall f d, q_fromDate q = Some f -> f <> [] -> Date_parse f = Some d ->
             exists due, dueDate t = Some due /\ d <= due)
         /\ (forall f d, q_toDate q = Some f -> f <> [] -> Date_parse f = Some d ->
             exists due, dueDate t = Some due /\ due <= d).
Proof.
  intros Htitle Hvalid.
  assert (Hr : getUserTasks uid q tasks
               = Some (mkResponse 200
                         (JTasks (sortTasks (sortOrder q)
                                    (List.filter (matchesFilter (buildFilter uid q) None)
                                                 tasks))))).
  { unfold getUserTasks, Task_find. rewrite Hvalid.
    unfold buildFilter at 1. cbn [f_title]. by rewrite Htitle. }
  eexists. split; [exact Hr|]. intros t.
  rewrite In_sortTasks, filter_In.
  assert (Hm : matchesFilter (buildFilter uid q) None t = true <->
               task_userId t = uid
               /\ (forall s, q_status q = Some s -> s <> [] -> task_status t = Some s)
               /\ (forall f d, q_fromDate q = Some f -> f <> [] -> Date_parse f = Some d ->
                   exists due, dueDate t = Some due /\ d <= due)
               /\ (forall f d, q_toDate q = Some f -> f <> [] -> Date_parse f = Some d ->
                   exists due, dueDate t = Some due /\ due <= d)).
  { unfold matchesFilter. rewrite andb_true_r, !andb_true_iff.
    unfold byOwner. cbn [buildFilter f_userId f_status f_dueDate].
    rewrite bool_decide_eq_true, statusFilter_spec.
    unfold invalidBound in Hvalid. cbn [buildFilter f_dueDate] in Hvalid.
    destruct (truthy (q_fromDate q) || truthy (q_toDate q)) eqn:Hany.
    - apply orb_false_iff in Hvalid as [Hg Hl].
      apply bool_decide_eq_false in Hg, Hl. cbn [gte lte] in *.
      rewrite andb_true_iff.
      rewrite (bound_spec Z.geb (fun due d => d <= due) (q_fromDate q) t)
        by (auto; intros; rewrite Z.geb_le; reflexivity).
      rewrite (bound_spec Z.leb (fun due d => due <= d) (q_toDate q) t)
        by (auto; intros; rewrite Z.leb_le; reflexivity).
      tauto.
    - apply orb_false_iff in Hany as [Hf Hg].
      destruct (q_fromDate q) as [[|c s]|], (q_toDate q) as [[|c' s']|]; try discriminate;
        (split; [intros ([? ?] & _); repeat split; auto;
                 intros f d [= <-] Hne; contradiction || discriminate
                | intros (? & ? & _); auto]).
  }
  rewrite Hm. tauto.
Qed.

End Queries.

(** User 1 asks for the tasks whose title matches ["("], which the
    engine refuses, and for those still to do. *)
Lemma getUserTasks_lists_only_own_tasks_witness :
  carriesTask (body (getUserTasksWith (H := Demo.env) Sample.engine 1
                       (mkTaskQuery None None None None (Some (js "("))) Sample.agenda))
  = false
  /\ exists found,
       getUserTasksWith (H := Demo.env) Sample.engine 1
         (mkTaskQuery (Some (js "todo")) None None None None) Sample.agenda
       = mkResponse 200 (JTasks found)
       /\ (forall t, In t found -> In t Sample.agenda /\ task_userId t = 1%N).
Proof.
  split.
  - destruct (getUserTasks_lists_only_own_tasks (H := Demo.env) Sample.engine 1
                (mkTaskQuery None None None None (Some (js "("))) Sample.agenda)
      as [[Hno _]|(found & Hr & _)]; [exact Hno | discriminate].
  - destruct (getUserTasks_lists_only_own_tasks (H := Demo.env) Sample.engine 1
                (mkTaskQuery (Some (js "todo")) None None None None) Sample.agenda)
      as [[_ [[Hr _]|(pattern & refused & Hq & _)]]|(found & Hr & Hown & _)];
      [discriminate | discriminate |].
    exists found. by split.
Defined.

(** The three tasks of user 1, stored out of order, are listed by due
    instant, and the other way round for [order=desc]. *)
Lemma getUserTasks_orders_by_due_instant_witness :
  getUserTasksWith (H := Demo.env) Sample.engine 1
    (mkTaskQuery None None None None None) Sample.agenda
  = mkResponse 200 (JTasks [Sample.early; Demo.task1; Sample.late])
  /\ getUserTasksWith (H := Demo.env) Sample.engine 1
       (mkTaskQuery None None None (Some (js "desc")) None) Sample.agenda
     = mkResponse 200 (JTasks [Sample.late; Demo.task1; Sample.early])
  /\ StronglySorted
       (fun a b => exists x y, dueDate a = Some x /\ dueDate b = Some y /\ x <= y)
       [Sample.early; Demo.task1; Sample.late]
  /\ StronglySorted
       (fun a b => exists x y, dueDate a = Some x /\ dueDate b = Some y /\ y <= x)
       [Sample.late; Demo.task1; Sample.early].
Proof.
  assert (Hall : Forall (fun t => dueDate t <> None) Sample.agenda)
    by (repeat constructor; discriminate).
  split; [reflexivity|]. split; [reflexivity|]. split.
  - exact (getUserTasks_orders_by_due_instant (H := Demo.env) Sample.engine 1
             (mkTaskQuery None None None None None) Sample.agenda
             [Sample.early; Demo.task1; Sample.late] Hall eq_refl).
  - exact (getUserTasks_orders_by_due_instant (H := Demo.env) Sample.engine 1
             (mkTaskQuery None None None (Some (js "desc")) None) Sample.agenda
             [Sample.late; Demo.task1; Sample.early] Hall eq_refl).
Defined.

(** A status outside the enumeration lists nothing. *)
Lemma getUserTasks_filters_exactly_witness :
  getUserTasks (H := Demo.env) 1
    (mkTaskQuery (Some (js "archived")) (Some (js "1970-01-01")) None None None)
    Sample.tasks
  = Some (mkResponse 200 (JTasks [])).
Proof.
  destruct (getUserTasks_filters_exactly (H := Demo.env) 1
              (mkTaskQuery (Some (js "archived")) (Some (js "1970-01-01")) None None None)
              Sample.tasks eq_refl eq_refl) as (found & Hr & Hmem).
  rewrite Hr. do 3 f_equal. destruct found as [|t rest]; [reflexivity|].
  exfalso. destruct (proj1 (Hmem t) (or_introl eq_refl)) as (Hin & _ & Hst & _).
  specialize (Hst (js "archived") eq_refl ltac:(discriminate)).
  destruct Hin as [<-|[<-|[]]]; discriminate.
Defined.

(** ** Statistics, routes and the password pattern *)

Section StatsMore.

Lemma sum_bump (k : jsstring) (g : list (jsstring * nat)) :
  list_sum (List.map snd (bump k g)) = S (list_sum (List.map snd g)).
Proof.
  induction g as [|[k' n] r IH]; simpl; [reflexivity|].
  destruct (JS.eqb k k'); simpl; [reflexivity|]. rewrite IH. lia.
Qed.

Lemma sum_groupStage (docs : list TaskDoc) :
  list_sum (List.map snd (groupStage docs)) = length docs.
Proof.
  unfold groupStage.
  assert (Hgen : forall g, list_sum (List.map snd
                   (fold_left (fun groups t => bump (groupKey t) groups) docs g))
                 = (list_sum (List.map snd g) + length docs)%nat).
  { induction docs as [|t r IH]; simpl; intros g; [lia|]. rewrite IH, sum_bump. lia. }
  by rewrite Hgen.
Qed.

Lemma sum_insertGroup (h : jsstring * nat) (g : list (jsstring * nat)) :
  list_sum (List.map snd (insertGroup h g)) = (snd h + list_sum (List.map snd g))%nat.
Proof.
  induction g as [|a r IH]; simpl; [reflexivity|].
  destruct (snd a <=? snd h)%nat; simpl; [reflexivity|]. rewrite IH. lia.
Qed.

Lemma sum_sortStage (g : list (jsstring * nat)) :
  list_sum (List.map snd (sortStage g)) = list_sum (List.map snd g).
Proof.
  induction g as [|h r IH]; simpl; [reflexivity|]. by rewrite sum_insertGroup, IH.
Qed.

(** X23.  The two queries of [getTaskStats] agree: the total it reports
    is the sum of the counts of the groups it reports, and each task of
    the caller is counted in one group.  Tasks of other owners change
    nothing in the answer. *)
Theorem stats_total_is_sum_of_counts uid (tasks : list TaskDoc) :
  exists total byStatus,
    getTaskStats uid tasks = mkResponse 200 (JStats total byStatus)
    /\ total = list_sum (List.map snd byStatus)
    /\ (length byStatus <= total)%nat
    /\ (forall others, Forall (fun t => task_userId t <> uid) others ->
        getTaskStats uid (tasks ++ others) = getTaskStats uid tasks
        /\ getTaskStats uid (others ++ tasks) = getTaskStats uid tasks).
Proof.
  exists (length (List.filter (byOwner uid) tasks)),
         (sortStage (groupStage (List.filter (byOwner uid) tasks))).
  split; [|split; [|split]].
  - unfold getTaskStats, Task_aggregate, Task_countDocuments. by rewrite map_pair_id.
  - by rewrite sum_sortStage, sum_groupStage.
  - rewrite <- (sum_groupStage (List.filter (byOwner uid) tasks)).
    rewrite (Permutation_length (sortStage_perm _)).
    destruct (groupStage_spec (List.filter (byOwner uid) tasks) []) as [[_ Hpos] _].
    induction Hpos as [|h g Hh Hg IH]; simpl; lia.
  - intros others Hothers.
    assert (Hnone : List.filter (byOwner uid) others = []).
    { induction Hothers as [|t r Ht Hr IH]; simpl; [reflexivity|].
      unfold byOwner at 1. by rewrite bool_decide_eq_false_2. }
    unfold getTaskStats, Task_aggregate, Task_countDocuments.
    by rewrite !List.filter_app, Hnone, app_nil_r.
Qed.

End StatsMore.

Section Routing.

Lemma find_cons_if {A : Type} (p : A -> bool) (x : A) (l : list A) :
  List.find p (x :: l) = if p x then Some x else List.find p l.
Proof. reflexivity. Qed.

Lemma matchSegment_word (word : string) :
  matchSegment (Fixed word) (js word) = true.
Proof. unfold matchSegment. by apply bool_decide_eq_true. Qed.

Lemma stats_route_matches (seg : jsstring) :
  matchMethod (mkRoute "GET" [Fixed "tasks"; Fixed "stats"] true HGetTaskStats) "GET"
  && matchPath [Fixed "tasks"; Fixed "stats"] [js "tasks"; seg]
  = bool_decide (List.map TitleRegex.toLower seg = js "stats").
Proof.
  change (matchMethod _ "GET") with true.
  cbn [matchPath andb]. rewrite matchSegment_word, andb_true_r. cbn [andb].
  unfold matchSegment. change (List.map TitleRegex.toLower (js "stats")) with (js "stats").
  apply bool_decide_ext. split; congruence.
Qed.

Lemma id_route_matches (seg : jsstring) :
  matchMethod (mkRoute "GET" [Fixed "tasks"; Param "id"] true HGetTaskById) "GET"
  && matchPath [Fixed "tasks"; Param "id"] [js "tasks"; seg]
  = negb (bool_decide (seg = [])).
Proof.
  change (matchMethod _ "GET") with true.
  cbn [matchPath andb]. rewrite matchSegment_word, andb_true_r. reflexivity.
Qed.

(** X24.  [GET /tasks/stats] is served by [getTaskStats], in whatever
    case the word is written, and every other non-empty segment after
    [/tasks] is taken as a task id and served by [getTaskById]: the
    route of the statistics is registered first.  Both go through the
    auth middleware. *)
Theorem stats_route_is_matched_first (seg : jsstring) :
  seg <> [] ->
  dispatch "GET" [js "tasks"; seg]
  = Some (if bool_decide (List.map TitleRegex.toLower seg = js "stats")
          then mkRoute "GET" [Fixed "tasks"; Fixed "stats"] true HGetTaskStats
          else mkRoute "GET" [Fixed "tasks"; Param "id"] true HGetTaskById).
Proof.
  intros Hne. unfold dispatch, routes.
  do 4 (rewrite find_cons_if; cbv beta;
        change (matchMethod (mkRoute "POST" _ _ _) "GET") with false; cbn [andb]).
  rewrite find_cons_if. cbv beta. cbn [route_path]. rewrite stats_route_matches.
  destruct (bool_decide (List.map TitleRegex.toLower seg = js "stats")); [reflexivity|].
  rewrite find_cons_if. cbv beta. cbn [route_path]. rewrite id_route_matches.
  by rewrite bool_decide_eq_false_2.
Qed.
(** X25.  The routes registered without the auth middleware are those
    of [signup], [login], [forgotPassword], [resetPassword] and
    [session], and no other: whatever request is dispatched to a task
    handler, a profile handler or [logout] passes the middleware first. *)
Theorem public_routes_are_the_account_entry_points method path (r : Route) :
  dispatch method path = Some r ->
  (route_auth r = false <->
   In (route_handler r) [HSignup; HLogin; HForgotPassword; HResetPassword; HSession]).
Proof.
  intros Hd. unfold dispatch in Hd. apply find_some in Hd as [Hin _].
  unfold routes in Hin. simpl in Hin.
  repeat (destruct Hin as [<-|Hin]; [simpl; split; [intros; tauto || discriminate
                                                   | intros Hx; repeat (destruct Hx as [Hx|Hx]; try discriminate); tauto]|]).
  contradiction.
Qed.

End Routing.

Section PatternExact.

Lemma lookahead_dots (p : N -> bool) (s : jsstring) :
  forallb Regex.dot s = true -> Regex.lookahead p s = existsb p s.
Proof.
  induction s as [|c r IH]; simpl; [reflexivity|].
  intros Hd. apply andb_true_iff in Hd as [Hc Hr]. by rewrite Hc, IH.
Qed.

(** X26.  The pattern of [signup] accepts exactly the passwords of at
    least 8 code units, none of them a line terminator, among which are
    a letter of [a-z], a letter of [A-Z] and a character outside
    [a-z], [A-Z] and [0-9]; so a password with a line break is refused
    however long and varied it is. *)
Theorem passwordRegex_accepts_exactly (s : jsstring) :
  Regex.passwordRegex s = true <->
  (8 <= length s)%nat
  /\ forallb (fun c => negb (Regex.lineTerminator c)) s = true
  /\ existsb Regex.lower s = true
  /\ existsb Regex.upper s = true
  /\ existsb (fun c => negb (Regex.lower c || Regex.upper c || Regex.digit c)) s = true.
Proof.
  assert (Hsp : forall c, Regex.special c
                          = negb (Regex.lower c || Regex.upper c || Regex.digit c)).
  { intros c. unfold Regex.special, Regex.word.
    destruct (Regex.lower c) eqn:El, (Regex.upper c) eqn:Eu, (Regex.digit c) eqn:Ed;
      simpl; try reflexivity; try (by destruct (c =? 95)%N).
    - unfold Regex.lower in El. destruct (N.eqb_spec c 95) as [->|]; [discriminate|reflexivity].
    - unfold Regex.lower in El. destruct (N.eqb_spec c 95) as [->|]; [discriminate|reflexivity].
    - unfold Regex.lower in El. destruct (N.eqb_spec c 95) as [->|]; [discriminate|reflexivity].
    - unfold Regex.lower in El. destruct (N.eqb_spec c 95) as [->|]; [discriminate|reflexivity].
    - unfold Regex.upper in Eu. destruct (N.eqb_spec c 95) as [->|]; [discriminate|reflexivity].
    - unfold Regex.upper in Eu. destruct (N.eqb_spec c 95) as [->|]; [discriminate|reflexivity].
    - unfold Regex.digit in Ed. destruct (N.eqb_spec c 95) as [->|]; [discriminate|reflexivity]. }
  assert (Hex : existsb (fun c => negb (Regex.lower c || Regex.upper c || Regex.digit c)) s
                = existsb Regex.special s).
  { induction s as [|c r IH]; simpl; [reflexivity|]. by rewrite Hsp, IH. }
  rewrite Hex. clear Hex.
  unfold Regex.passwordRegex, Regex.dots8.
  change (forallb (fun c => negb (Regex.lineTerminator c)) s) with (forallb Regex.dot s).
  split.
  - intros Hr. apply andb_true_iff in Hr as [Hr Hdots].
    apply andb_true_iff in Hr as [Hr H3]. apply andb_true_iff in Hr as [H1 H2].
    apply andb_true_iff in Hdots as [Hd Hl]. apply N.leb_le in Hl.
    rewrite lookahead_dots in H1, H2, H3 by exact Hd. repeat split; auto. lia.
  - intros (Hl & Hd & H1 & H2 & H3). rewrite !lookahead_dots by exact Hd.
    rewrite H1, H2, H3, Hd. simpl. apply N.leb_le. lia.
Qed.

End PatternExact.

(** The word in capitals, and a task id. *)
Lemma stats_route_is_matched_first_witness :
  (route_handler <$> dispatch "GET" [js "tasks"; js "STATS"]) = Some HGetTaskStats
  /\ (route_handler <$> dispatch "GET" [js "tasks"; js "66f1a0"]) = Some HGetTaskById.
Proof.
  split.
  - rewrite (stats_route_is_matched_first (js "STATS")); [reflexivity | discriminate].
  - rewrite (stats_route_is_matched_first (js "66f1a0")); [reflexivity | discriminate].
Defined.

(** The route of the profile is guarded, the one of the session is not. *)
Lemma public_routes_are_the_account_entry_points_witness :
  (route_auth <$> dispatch "DELETE" [js "profile"]) = Some true
  /\ ~ In HDeleteProfile [HSignup; HLogin; HForgotPassword; HResetPassword; HSession].
Proof.
  split; [reflexivity|].
  intros Hin.
  pose proof (public_routes_are_the_account_entry_points "DELETE" [js "profile"]
                (mkRoute "DELETE" [Fixed "profile"] true HDeleteProfile) eq_refl) as Hiff.
  apply Hiff in Hin. discriminate.
Defined.
